(** * filter-dnsblscore: a shallow embedding of [filter-dnsblscore.go]

    The filter reads the OpenSMTPD filter protocol on its standard input,
    keeps one [session] per connection, scores the connecting address and
    answers every filter event with a verdict.  This development embeds the
    handlers of [filter-dnsblscore.go] as Rocq functions over an explicit
    state and proves properties of them.

    Conventions.
    - Go's [int] is the 64-bit two's complement integer of the usual build
      targets; [int8] and [int64] likewise.  Integers are [Z] with the
      wrap-around of every conversion and multiplication written out.
    - A [string] is Go's byte string; [[]string] is [list string].
    - [map[string]*session] is a [gmap string session]; the two allowlist
      maps are used as sets and are [gset]s.
    - [log.Fatal] and run-time panics are the [Fatal] and [Panic] outcomes of
      the [result] type.
    - What a handler prints on the standard error stream is not modelled.
    - Outside test mode the response of a verdict phase is written by a
      goroutine: the handler starts it and returns.  The embedding records
      the goroutine as the effect [Go] of the event that started it, with
      the arguments of the [go] statement; the line is formatted when the
      goroutine wakes, with the global [version] of that moment ([woken]).
      When the goroutines wake is the scheduler's choice; the statements
      range over the version a goroutine can read.  A goroutine that has
      not woken when the input ends is lost with the process. *)

From Stdlib Require Import ZArith String Ascii List Bool Lia DecimalString.
From Stdlib Require DecimalPos.
From stdpp Require Import gmap strings list fin_maps.
Import ListNotations.

Local Open Scope string_scope.
Local Open Scope list_scope.
Local Open Scope Z_scope.

(** ** Go's [strings] package, as far as the filter uses it *)

Module GoStrings.

(** [strings.Split(s, sep)] for a one-byte separator: every field between two
    separators, so the result has one more element than [s] has separators
    (and [Split("", sep)] is the one-element slice holding [""]). *)
Fixpoint Split (s : string) (sep : ascii) : list string :=
  match s with
  | EmptyString => [EmptyString]
  | String c rest =>
      if Ascii.eqb c sep then EmptyString :: Split rest sep
      else match Split rest sep with
           | [] => [String c EmptyString]
           | field :: fields => String c field :: fields
           end
  end.

(** [strings.Contains(s, sep)] for a one-byte [sep]. *)
Fixpoint Contains (s : string) (sep : ascii) : bool :=
  match s with
  | EmptyString => false
  | String c rest => Ascii.eqb c sep || Contains rest sep
  end.

(** [strings.Join(elems, sep)]. *)
Fixpoint Join (elems : list string) (sep : string) : string :=
  match elems with
  | [] => EmptyString
  | [e] => e
  | e :: rest => e +:+ sep +:+ Join rest sep
  end.

(** [strings.Cut(s, sep)] for a one-byte [sep]: the text before and after the
    first separator, [None] when there is none. *)
Fixpoint Cut (s : string) (sep : ascii) : option (string * string) :=
  match s with
  | EmptyString => None
  | String c rest =>
      if Ascii.eqb c sep then Some (EmptyString, rest)
      else match Cut rest sep with
           | Some (before, after) => Some (String c before, after)
           | None => None
           end
  end.

End GoStrings.

(** ** Go's [strconv] package *)

Module GoStrconv.

Definition digit_of (c : ascii) : option Z :=
  let n := Z.of_N (N_of_ascii c) in
  if (48 <=? n) && (n <=? 57) then Some (n - 48) else None.

(** The value of a string of decimal digits, [None] when the string has a
    byte that is not a digit. *)
Fixpoint digits_value (s : string) (acc : Z) : option Z :=
  match s with
  | EmptyString => Some acc
  | String c rest =>
      match digit_of c with
      | Some d => digits_value rest (acc * 10 + d)
      | None => None
      end
  end.

(** [strconv.ParseInt(s, 10, bitSize)]: the value and whether an error is
    returned.  A syntax error gives 0; a value that does not fit a signed
    [bitSize]-bit integer gives the nearest bound together with the range
    error. *)
Definition ParseInt (s : string) (bitSize : Z) : Z * bool :=
  match s with
  | EmptyString => (0, true)
  | String c rest =>
      let neg := Ascii.eqb c "-" in
      let body := if Ascii.eqb c "+" || neg then rest else s in
      match body with
      | EmptyString => (0, true)
      | _ =>
          match digits_value body 0 with
          | None => (0, true)
          | Some un =>
              let cutoff := 2 ^ (bitSize - 1) in
              if negb neg && (cutoff <=? un) then (cutoff - 1, true)
              else if neg && (cutoff <? un) then (- cutoff, true)
              else (if neg then - un else un, false)
          end
      end
  end.

(** [strconv.Atoi(s)] is [ParseInt(s, 10, 0)] at the width of [int]. *)
Definition Atoi (s : string) : Z * bool := ParseInt s 64.

(** [%d] of [fmt.Sprintf], and [strconv.Itoa]: the decimal digits, with a
    minus sign for a negative number. *)
Definition FormatInt (n : Z) : string := NilZero.string_of_int (Z.to_int n).

End GoStrconv.

(** ** Go's [net] package

    [net.ParseIP], [net.ParseCIDR], [IP.Mask], [IP.String], [net.CIDRMask],
    [IPMask.Size] and [IPNet.String] as the standard library defines them
    (Go 1.22).  The IPv4 half is spelled out.  The parser and the printer of
    IPv6 text, and [strings.TrimSpace], are not: they are the fields of
    [Extern], and every theorem holds for all values of them. *)

Record Extern := {
  (** [netip.parseIPv6]: the 16 bytes of an address written in IPv6 syntax
      without a zone, [None] when the parser fails or the text has a zone *)
  parseIPv6 : string -> option (list Z);
  (** the text [netip.Addr.String] gives a 16-byte address that is not an
      IPv4-mapped one *)
  addr6String : list Z -> string;
  (** [strings.TrimSpace] *)
  TrimSpace : string -> string
}.

Module GoNet.
Import GoStrings GoStrconv.

(** [net.IP] and [net.IPMask] are byte slices; [nil] is the empty list. *)
Record IPNet := { net_IP : list Z; net_Mask : list Z }.

Inductive Addr :=
| Addr4 (fields : list Z)
| Addr6 (bytes : list Z).

Definition v4InV6Prefix : list Z := [0; 0; 0; 0; 0; 0; 0; 0; 0; 0; 255; 255].

(** [netip.parseIPv4Fields]: [at_start] says that no byte was read yet,
    [after_dot] that the previous byte was a dot; [fields] holds the octets
    stored so far (the source's [pos] is its length). *)
Fixpoint parseIPv4Fields (s : string) (at_start after_dot : bool)
    (val digLen : Z) (fields : list Z) : option (list Z) :=
  match s with
  | EmptyString =>
      if Z.of_nat (List.length fields) <? 3 then None
      else Some (fields ++ [val mod 256])
  | String c rest =>
      match digit_of c with
      | Some d =>
          if (digLen =? 1) && (val =? 0) then None
          else
            let val' := val * 10 + d in
            if 255 <? val' then None
            else parseIPv4Fields rest false false val' (digLen + 1) fields
      | None =>
          if Ascii.eqb c "." then
            if at_start || String.eqb rest EmptyString || after_dot then None
            else if Z.of_nat (List.length fields) =? 3 then None
            else parseIPv4Fields rest false true 0 0 (fields ++ [val mod 256])
          else None
      end
  end.

Definition parseIPv4 (s : string) : option (list Z) :=
  parseIPv4Fields s true false 0 0 [].

(** The scan that opens [netip.ParseAddr]: the first of the bytes [.], [:]
    and [%] in the text decides which parser runs. *)
Fixpoint first_mark (s : string) : option ascii :=
  match s with
  | EmptyString => None
  | String c rest =>
      if Ascii.eqb c "." || Ascii.eqb c ":" || Ascii.eqb c "%" then Some c
      else first_mark rest
  end.

Section WithExtern.
Context (X : Extern).

Definition ParseAddr (s : string) : option Addr :=
  match first_mark s with
  | Some c =>
      if Ascii.eqb c "." then Addr4 <$> parseIPv4 s
      else if Ascii.eqb c ":" then Addr6 <$> parseIPv6 X s
      else None
  | None => None
  end.

Definition As16 (a : Addr) : list Z :=
  match a with
  | Addr4 fields => v4InV6Prefix ++ fields
  | Addr6 bytes => bytes
  end.

Definition BitLen (a : Addr) : Z :=
  match a with Addr4 _ => 32 | Addr6 _ => 128 end.

(** [net.ParseIP]: always the 16-byte form, [None] for Go's [nil]. *)
Definition ParseIP (s : string) : option (list Z) := As16 <$> ParseAddr s.

(** [IP.To4]: [[]] stands for [nil]. *)
Definition To4 (ip : list Z) : list Z :=
  if Nat.eqb (List.length ip) 4 then ip
  else if Nat.eqb (List.length ip) 16
          && forallb (Z.eqb 0) (take 10 ip)
          && (nth 10 ip 0 =? 255) && (nth 11 ip 0 =? 255)
       then drop 12 ip
       else [].

Definition hexDigit (n : Z) : ascii :=
  ascii_of_N (Z.to_N (if n <? 10 then 48 + n else 87 + n)).

Definition hexString (b : list Z) : string :=
  fold_right (fun x acc => String (hexDigit (x / 16)) (String (hexDigit (x mod 16)) acc))
             EmptyString b.

Definition dotted (p4 : list Z) : string :=
  Join (map FormatInt p4) ".".

(** [IP.String]. *)
Definition IP_String (ip : list Z) : string :=
  if Nat.eqb (List.length ip) 0 then "<nil>"
  else if negb (Nat.eqb (List.length ip) 4) && negb (Nat.eqb (List.length ip) 16)
  then "?" +:+ hexString ip
  else if Nat.eqb (List.length (To4 ip)) 4 then dotted (To4 ip)
  else addr6String X ip.

(** [net.CIDRMask]. *)
Fixpoint CIDRMask_bytes (l : nat) (n : Z) : list Z :=
  match l with
  | O => []
  | S l' =>
      if 8 <=? n then 255 :: CIDRMask_bytes l' (n - 8)
      else (255 - Z.shiftr 255 n) :: CIDRMask_bytes l' 0
  end.

Definition CIDRMask (ones bits : Z) : list Z :=
  if negb (bits =? 32) && negb (bits =? 128) then []
  else if (ones <? 0) || (bits <? ones) then []
  else CIDRMask_bytes (Z.to_nat (bits / 8)) ones.

Definition allFF (b : list Z) : bool := forallb (Z.eqb 255) b.

(** [IP.Mask]. *)
Definition Mask (ip mask : list Z) : list Z :=
  let mask := if Nat.eqb (List.length mask) 16 && Nat.eqb (List.length ip) 4
                 && allFF (take 12 mask)
              then drop 12 mask else mask in
  let ip := if Nat.eqb (List.length mask) 4 && Nat.eqb (List.length ip) 16
               && bool_decide (take 12 ip = v4InV6Prefix)
            then drop 12 ip else ip in
  if negb (Nat.eqb (List.length ip) (List.length mask)) then []
  else zip_with Z.land ip mask.

(** [simpleMaskLength]: the number of leading one bits of a mask made of
    ones followed by zeros, [-1] for any other mask. *)
Fixpoint leading_ones (fuel : nat) (v : Z) : Z * Z :=
  match fuel with
  | O => (0, v)
  | S f =>
      if Z.land v 128 =? 0 then (0, v)
      else let '(n, v') := leading_ones f (Z.shiftl v 1 mod 256) in (n + 1, v')
  end.

Fixpoint simpleMaskLength (mask : list Z) : Z :=
  match mask with
  | [] => 0
  | v :: rest =>
      if v =? 255 then
        let n := simpleMaskLength rest in if n =? -1 then -1 else 8 + n
      else
        let '(n, v') := leading_ones 8 v in
        if negb (v' =? 0) then -1
        else if forallb (Z.eqb 0) rest then n else -1
  end.

(** [IPMask.Size], its first component. *)
Definition Mask_Size (m : list Z) : Z :=
  let ones := simpleMaskLength m in
  if ones =? -1 then 0 else ones.

Definition networkNumberAndMask (n : IPNet) : option (list Z * list Z) :=
  let ip4 := To4 (net_IP n) in
  let ip := if Nat.eqb (List.length ip4) 0 then net_IP n else ip4 in
  if Nat.eqb (List.length ip4) 0 && negb (Nat.eqb (List.length ip) 16) then None
  else if Nat.eqb (List.length (net_Mask n)) 4 then
    if negb (Nat.eqb (List.length ip) 4) then None else Some (ip, net_Mask n)
  else if Nat.eqb (List.length (net_Mask n)) 16 then
    if Nat.eqb (List.length ip) 4 then Some (ip, drop 12 (net_Mask n))
    else Some (ip, net_Mask n)
  else None.

(** [IPNet.String]. *)
Definition IPNet_String (n : IPNet) : string :=
  match networkNumberAndMask n with
  | None => "<nil>"
  | Some (nn, m) =>
      let l := simpleMaskLength m in
      if l =? -1 then IP_String nn +:+ "/" +:+ hexString m
      else IP_String nn +:+ "/" +:+ FormatInt l
  end.

(** [dtoi] of package [net]: the number, the count of bytes read, success. *)
Fixpoint dtoi_loop (s : string) (n : Z) (i : Z) : Z * Z * bool :=
  match s with
  | EmptyString => (n, i, negb (i =? 0))
  | String c rest =>
      match digit_of c with
      | Some d =>
          let n' := n * 10 + d in
          if 16777215 <=? n' then (16777215, i, false)
          else dtoi_loop rest n' (i + 1)
      | None => if i =? 0 then (0, 0, false) else (n, i, true)
      end
  end.

Definition dtoi (s : string) : Z * Z * bool := dtoi_loop s 0 0.

(** [net.ParseCIDR], its second result; [None] when it returns an error. *)
Definition ParseCIDR (s : string) : option IPNet :=
  match Cut s "/" with
  | None => None
  | Some (addr, mask) =>
      match ParseAddr addr with
      | None => None
      | Some ipAddr =>
          let '(n, i, ok) := dtoi mask in
          if negb ok || negb (i =? Z.of_nat (String.length mask))
             || (n <? 0) || (BitLen ipAddr <? n)
          then None
          else
            let m := CIDRMask n (BitLen ipAddr) in
            Some {| net_IP := Mask (As16 ipAddr) m; net_Mask := m |}
      end
  end.

End WithExtern.
End GoNet.

(** ** The filter *)

Import GoStrings GoStrconv GoNet.

(** Conversions to [int8] and to the 64-bit [int]: two's complement
    wrap-around. *)
Definition int8 (z : Z) : Z := (z + 128) mod 256 - 128.
Definition int64 (z : Z) : Z := (z + 2 ^ 63) mod 2 ^ 64 - 2 ^ 63.

(** [type session struct]. *)
Record session := {
  id : string;
  score : Z;          (* int8 *)
  delay : Z;          (* int *)
  first_line : bool
}.

(** The flags and the two allowlist maps: written before the event loop
    starts, read-only afterwards. *)
Record Config := {
  domains : list string;
  blockAbove : Z;
  blockPhase : string;
  junkAbove : Z;
  slowFactor : Z;
  scoreHeader : bool;
  testMode : bool;
  allowlist : gset string;
  allowlistMasks : gset Z
}.

(** The globals the event loop writes. *)
Record State := {
  sessions : gmap string session;
  version : string
}.

(** What the run-time decides during one event: the order in which
    [range allowlistMasks] visits the keys, and whether [net.LookupIP]
    answers a query with at least one address and no error. *)
Record Env := {
  rangeMasks : list Z;
  LookupIP : string -> bool
}.

(** What a handler does to the outside: a line it writes itself to the
    standard output (or hands to the output channel) after sleeping [sleep]
    nanoseconds; a goroutine it starts with
    [go waitThenAction(sessionId, token, delay, text)], which will sleep
    [sleep] nanoseconds and then format and send its line; a DNS query. *)
Inductive effect :=
| Emit (sleep : Z) (out : string)
| Go (sleep : Z) (sessionId token text : string)
| Resolve (query : string).

Inductive result (A : Type) :=
| Ok (a : A)
| Fatal (msg : string)
| Panic (msg : string).
Arguments Ok {A} a.
Arguments Fatal {A} msg.
Arguments Panic {A} msg.

Definition bind {A B} (r : result A) (k : A -> result B) : result B :=
  match r with
  | Ok a => k a
  | Fatal msg => Fatal msg
  | Panic msg => Panic msg
  end.

Notation "x <- r ;; k" := (bind r (fun x => k))
  (at level 100, r at level 99, right associativity, only parsing).

(** [l[i]], panicking out of range. *)
Definition index {A} (l : list A) (i : nat) : result A :=
  match l !! i with
  | Some x => Ok x
  | None => Panic "index out of range"
  end.

Definition handler := string -> string -> list string -> State -> result (State * list effect).

Definition set_session (st : State) (sessionId : string) (s : session) : State :=
  {| sessions := <[sessionId := s]> (sessions st); version := version st |}.

Section Filter.
Context (X : Extern) (cfg : Config).

(** The loop over [allowlistMasks] of [linkConnect], in the order [order];
    [true] when some probe is in the allowlist. *)
Fixpoint allowlisted (order : list Z) (addr : list Z) : bool :=
  match order with
  | [] => false
  | maskOnes :: rest =>
      let mask := CIDRMask maskOnes 32 in
      let maskedAddr := IP_String X (Mask addr mask) in
      let query := maskedAddr +:+ "/" +:+ FormatInt maskOnes in
      if bool_decide (query ∈ allowlist cfg) then true
      else allowlisted rest addr
  end.

Definition with_score (s : session) (sc : Z) : session :=
  {| id := id s; score := sc; delay := delay s; first_line := first_line s |}.

(** The loop over [domains] of [linkConnect]: one query for each domain,
    and [score] counts the queries that were answered. *)
Fixpoint lookup_domains (E : Env) (atoms : list string) (ds : list string) (score : Z)
    : result (Z * list effect) :=
  match ds with
  | [] => Ok (score, [])
  | domain :: rest =>
      a3 <- index atoms 3 ;;
      a2 <- index atoms 2 ;;
      a1 <- index atoms 1 ;;
      a0 <- index atoms 0 ;;
      let query := a3 +:+ "." +:+ a2 +:+ "." +:+ a1 +:+ "." +:+ a0 +:+ "." +:+ domain in
      let score := if LookupIP E query then int64 (score + 1) else score in
      r <- lookup_domains E atoms rest score ;;
      Ok (r.1, Resolve query :: r.2)
  end.

Definition linkConnect (E : Env) : handler := fun phase sessionId params st =>
  if negb (Nat.eqb (List.length params) 4) then Fatal "invalid input, shouldn't happen"
  else
    let s := {| id := ""; score := -1; delay := 0; first_line := true |} in
    let st := set_session st sessionId s in
    p2 <- index params 2 ;;
    host <- index (Split p2 ":") 0 ;;
    match ParseIP X host with
    | None => Ok (st, [])
    | Some addr =>
        if Contains (IP_String X addr) ":" then Ok (st, [])
        else if allowlisted (rangeMasks E) addr
        then Ok (set_session st sessionId (with_score s 0), [])
        else
          let atoms := Split (IP_String X addr) "." in
          if testMode cfg then
            a3 <- index atoms 3 ;;
            if String.eqb a3 "255" then Ok (st, [])
            else
              let sc := fst (ParseInt a3 8) in
              Ok (set_session st sessionId (with_score s (int8 sc)), [])
          else
            r <- lookup_domains E atoms (domains cfg) 0 ;;
            Ok (set_session st sessionId (with_score s (int8 r.1)), r.2)
    end.

Definition linkDisconnect : handler := fun phase sessionId params st =>
  if negb (Nat.eqb (List.length params) 0) then Fatal "invalid input, shouldn't happen"
  else Ok ({| sessions := delete sessionId (sessions st); version := version st |}, []).

Definition getSession (st : State) (sessionId : string) : result session :=
  match sessions st !! sessionId with
  | Some s => Ok s
  | None => Fatal ("invalid session ID: " +:+ sessionId)
  end.

(** [produceOutput]: the line it prints.  [text] is what
    [fmt.Sprintf(format, a...)] gives at the call. *)
Definition produceOutput (st : State) (msgType sessionId token text : string) : result string :=
  let tokens := Split (version st) "." in
  t0 <- index tokens 0 ;;
  let hiver := fst (Atoi t0) in
  t1 <- index tokens 1 ;;
  let lover := fst (Atoi t1) in
  let out :=
    if (hiver =? 0) && (lover <? 5)
    then msgType +:+ "|" +:+ token +:+ "|" +:+ sessionId
    else msgType +:+ "|" +:+ sessionId +:+ "|" +:+ token in
  Ok (out +:+ "|" +:+ text).

(** [time.Duration(delay) * time.Millisecond], handed to [time.Sleep] when
    [delay > 0]; a duration that is not positive does not sleep. *)
Definition sleep_of (delay : Z) : Z :=
  if 0 <? delay then Z.max 0 (int64 (delay * 1000000)) else 0.

(** [waitThenAction], called by the handler itself. *)
Definition waitThenAction (st : State)
    (sessionId token : string) (delay : Z) (text : string) : result (list effect) :=
  out <- produceOutput st "filter-result" sessionId token text ;;
  Ok [Emit (sleep_of delay) out].

(** [waitThenAction], run by a goroutine: the line it sends when it wakes
    while the global [version] is [ver], or the panic that ends the
    process. *)
Definition woken (ver sessionId token text : string) : result string :=
  produceOutput {| sessions := ∅; version := ver |} "filter-result" sessionId token text.

(** The three [delayed...] functions, for the text of their verdict: in
    test mode the handler calls [waitThenAction]; otherwise it starts the
    goroutine and returns. *)
Definition delayed (text : string) (sessionId : string) (params : list string)
    (st : State) : result (State * list effect) :=
  s <- getSession st sessionId ;;
  token <- index params 0 ;;
  if testMode cfg then
    es <- waitThenAction st sessionId token (delay s) text ;;
    Ok (st, es)
  else Ok (st, [Go (sleep_of (delay s)) sessionId token text]).

Definition delayedJunk := delayed "junk".
Definition delayedProceed := delayed "proceed".
Definition delayedDisconnect :=
  delayed "disconnect|550 your IP reputation is too low for this MX".

Definition with_delay (s : session) (d : Z) : session :=
  {| id := id s; score := score s; delay := d; first_line := first_line s |}.

Definition filterConnect : handler := fun phase sessionId params st =>
  s <- getSession st sessionId ;;
  d <- (if (0 <? slowFactor cfg) && (0 <? score s) then
          if Nat.eqb (List.length (domains cfg)) 0 then Panic "integer divide by zero"
          else Ok (Z.quot (int64 (slowFactor cfg * score s))
                          (Z.of_nat (List.length (domains cfg))))
        else Ok 0) ;;
  let s := with_delay s d in
  let st := set_session st sessionId s in
  if negb (score s =? -1) && (0 <=? int8 (blockAbove cfg))
     && (int8 (blockAbove cfg) <? score s) && String.eqb (blockPhase cfg) "connect"
  then delayedDisconnect sessionId params st
  else if negb (score s =? -1) && (0 <=? int8 (junkAbove cfg))
          && (int8 (junkAbove cfg) <? score s)
  then delayedJunk sessionId params st
  else delayedProceed sessionId params st.

Definition with_first_line (s : session) (b : bool) : session :=
  {| id := id s; score := score s; delay := delay s; first_line := b |}.

Definition dataline : handler := fun phase sessionId params st =>
  s <- getSession st sessionId ;;
  token <- index params 0 ;;
  let line := Join (drop 1 params) "|" in
  hdr <- (if first_line s then
            if negb (score s =? -1) && scoreHeader cfg then
              out <- produceOutput st "filter-dataline" sessionId token
                       ("X-DNSBL-Score: " +:+ FormatInt (score s)) ;;
              Ok [Emit 0 out]
            else Ok []
          else Ok []) ;;
  let st := if first_line s
            then set_session st sessionId (with_first_line s false) else st in
  out <- produceOutput st "filter-dataline" sessionId token line ;;
  Ok (st, hdr ++ [Emit 0 out]).

Definition delayedAnswer : handler := fun phase sessionId params st =>
  s <- getSession st sessionId ;;
  if negb (score s =? -1) && (0 <=? int8 (blockAbove cfg))
     && (int8 (blockAbove cfg) <? score s) && String.eqb (blockPhase cfg) phase
  then delayedDisconnect sessionId params st
  else delayedProceed sessionId params st.

(** The two dispatch tables. *)
Definition reporters (E : Env) : list (string * handler) :=
  [ ("link-connect", linkConnect E);
    ("link-disconnect", linkDisconnect) ].

Definition filters : list (string * handler) :=
  [ ("connect", filterConnect);
    ("helo", delayedAnswer);
    ("ehlo", delayedAnswer);
    ("starttls", delayedAnswer);
    ("auth", delayedAnswer);
    ("mail-from", delayedAnswer);
    ("rcpt-to", delayedAnswer);
    ("data", delayedAnswer);
    ("data-line", dataline);
    ("commit", delayedAnswer);
    ("quit", delayedAnswer) ].

Fixpoint table_lookup (table : list (string * handler)) (phase : string) : option handler :=
  match table with
  | [] => None
  | (k, h) :: rest => if String.eqb k phase then Some h else table_lookup rest phase
  end.

Definition trigger (currentSlice : list (string * handler)) (atoms : list string)
    (st : State) : result (State * list effect) :=
  a4 <- index atoms 4 ;;
  match table_lookup currentSlice a4 with
  | Some h =>
      a5 <- index atoms 5 ;;
      h a4 a5 (drop 6 atoms) st
  | None => Fatal ("invalid phase: " +:+ a4)
  end.

(** One turn of the loop of [main]: a line of the standard input. *)
Definition handleLine (E : Env) (line : string) (st : State) : result (State * list effect) :=
  let atoms := Split line "|" in
  if Nat.ltb (List.length atoms) 6 then Fatal ("missing atoms: " +:+ line)
  else
    a1 <- index atoms 1 ;;
    let st := {| sessions := sessions st; version := a1 |} in
    a0 <- index atoms 0 ;;
    if String.eqb a0 "report" then trigger (reporters E) atoms st
    else if String.eqb a0 "filter" then trigger filters atoms st
    else Fatal ("invalid stream: " +:+ a0).

(** The loop of [main] on the lines that follow [config|ready]: the effects
    of each line in turn, and how the loop ended ([Ok] when the input is
    exhausted and the process exits with status 0). *)
Fixpoint run (events : list (Env * string)) (st : State) : list (list effect) * result State :=
  match events with
  | [] => ([], Ok st)
  | (E, line) :: rest =>
      match handleLine E line st with
      | Ok (st', es) => let '(ess, r) := run rest st' in (es :: ess, r)
      | Fatal msg => ([], Fatal msg)
      | Panic msg => ([], Panic msg)
      end
  end.

End Filter.

(** What [loadAllowlists] finds for the [-allowlist] flag: the flag is
    empty; [os.Open] fails with the error [err]; the file opens, the scanner
    delivers [lines] and then stops, at the end of the file ([scanErr] is
    [None]) or with the error [scanner.Err()] returns (a line longer than
    the scanner's buffer, a failing read). *)
Inductive FileInput :=
| NotGiven
| OpenFails (err : string)
| Opened (lines : list string) (scanErr : option string).

(** The body of the loop of [loadAllowlists] for one line; [acc] holds
    [allowlist] and [allowlistMasks]. *)
Definition loadLine (X : Extern) (acc : gset string * gset Z) (line : string)
    : result (gset string * gset Z) :=
  text <- index (Split line "#") 0 ;;
  let line := TrimSpace X text in
  if String.eqb line "" then Ok acc
  else
    let line := if negb (Contains line "/") then line +:+ "/32" else line in
    match ParseCIDR X line with
    | None => Fatal "invalid subnet: <nil>"
    | Some subnet =>
        let maskOnes := Mask_Size (net_Mask subnet) in
        let masks := if bool_decide (maskOnes ∈ acc.2) then acc.2
                     else {[maskOnes]} ∪ acc.2 in
        let subnetStr := IPNet_String X subnet in
        let al := if bool_decide (subnetStr ∈ acc.1) then acc.1
                  else {[subnetStr]} ∪ acc.1 in
        Ok (al, masks)
    end.

Fixpoint loadLines (X : Extern) (lines : list string) (acc : gset string * gset Z)
    : result (gset string * gset Z) :=
  match lines with
  | [] => Ok acc
  | line :: rest => acc' <- loadLine X acc line ;; loadLines X rest acc'
  end.

(** [loadAllowlists]: the two maps it leaves.  [log.Fatal(err)] prints the
    text of the error. *)
Definition loadAllowlists (X : Extern) (file : FileInput)
    : result (gset string * gset Z) :=
  match file with
  | NotGiven => Ok (∅, ∅)
  | OpenFails err => Fatal err
  | Opened lines scanErr =>
      acc <- loadLines X lines (∅, ∅) ;;
      match scanErr with
      | Some err => Fatal err
      | None => Ok acc
      end
  end.

(** [validatePhase]. *)
Definition validatePhase (phase : string) : result unit :=
  if existsb (String.eqb phase)
       ["connect"; "helo"; "ehlo"; "starttls"; "auth"; "mail-from"; "rcpt-to"; "quit"]
  then Ok tt
  else Fatal ("invalid block phase: " +:+ phase).

(** The checks of [main] on the flags, before the loop starts. *)
Definition check_flags (cfg : Config) : result unit :=
  if Nat.eqb (List.length (domains cfg)) 0 then Fatal "missing blocklist domains"
  else validatePhase (blockPhase cfg).

(** [skipConfig]: the lines that follow the first [config|ready]; [None]
    when the input ends before that line (the process exits with status 0).
    Each line of the input comes with the [Env] of its turn. *)
Fixpoint skipConfig (stdin : list (Env * string)) : option (list (Env * string)) :=
  match stdin with
  | [] => None
  | (_, line) :: rest =>
      if String.eqb line "config|ready" then Some rest else skipConfig rest
  end.

(** What the run-time decides at start-up: the orders in which [filterInit]
    ranges over the keys of the two tables. *)
Record Boot := {
  reporterKeys : list string;
  filterKeys : list string
}.

(** [filterInit]: the lines it prints. *)
Definition filterInit (B : Boot) : list string :=
  map (fun k => "register|report|smtp-in|" +:+ k) (reporterKeys B)
  ++ map (fun k => "register|filter|smtp-in|" +:+ k) (filterKeys B)
  ++ ["register|ready"].

(** [main], from the parsed flags on: what the [-allowlist] flag leads to,
    the standard input.  It gives the lines of [filterInit], the effects of
    every turn of the loop, and how the main goroutine ended.  The two
    allowlist maps of [flags] are not read: they are what [loadAllowlists]
    builds. *)
Definition main (X : Extern) (flags : Config) (B : Boot) (allowlistFile : FileInput)
    (stdin : list (Env * string)) : list string * list (list effect) * result State :=
  match check_flags flags with
  | Fatal msg => ([], [], Fatal msg)
  | Panic msg => ([], [], Panic msg)
  | Ok _ =>
      match loadAllowlists X allowlistFile with
      | Fatal msg => ([], [], Fatal msg)
      | Panic msg => ([], [], Panic msg)
      | Ok (al, masks) =>
          let cfg := {| domains := domains flags;
                        blockAbove := blockAbove flags;
                        blockPhase := blockPhase flags;
                        junkAbove := junkAbove flags;
                        slowFactor := slowFactor flags;
                        scoreHeader := scoreHeader flags;
                        testMode := testMode flags;
                        allowlist := al;
                        allowlistMasks := masks |} in
          let st := {| sessions := ∅; version := "" |} in
          match skipConfig stdin with
          | None => ([], [], Ok st)
          | Some rest =>
              let '(ess, r) := run X cfg rest st in (filterInit B, ess, r)
          end
      end
  end.

(** The subnet an allowlist line stands for, when it stands for one: what
    [loadAllowlists] hands to [net.ParseCIDR] for that line. *)
Definition subnet_of_line (X : Extern) (line : string) : option IPNet :=
  match Split line "#" !! 0%nat with
  | None => None
  | Some text =>
      let line := TrimSpace X text in
      if String.eqb line "" then None
      else ParseCIDR X (if negb (Contains line "/") then line +:+ "/32" else line)
  end.

(** An instance of [Extern] to evaluate the embedding on texts that have no
    IPv6 address and no blank to trim: no text parses as IPv6, and
    [TrimSpace] returns its argument. *)
Definition ipv4_only : Extern :=
  {| parseIPv6 := fun _ => None;
     addr6String := fun _ => "::";
     TrimSpace := fun s => s |}.

(** * Definitions for the statements *)

Definition is_byte (d : Z) : Prop := 0 <= d < 256.

Definition byte_range : list Z := map Z.of_nat (seq 0 256).

(** What the filter relies on about the text of the last octet: it has no
    dot and no colon, it is ["255"] for 255 only, and [ParseInt] at 8 bits
    reads it back up to 127 and answers 127 above. *)
Definition octet_text_ok (d : Z) : bool :=
  negb (Contains (FormatInt d) ".")
  && negb (Contains (FormatInt d) ":")
  && Bool.eqb (String.eqb (FormatInt d) "255") (d =? 255)
  && (int8 (fst (ParseInt (FormatInt d) 8)) =? Z.min d 127).

(** The digits of one octet, as [parseIPv4Fields] scans them. *)
Fixpoint scan_octet (p : string) (val digLen : Z) : option (Z * Z) :=
  match p with
  | EmptyString => Some (val, digLen)
  | String c rest =>
      match digit_of c with
      | Some d =>
          if (digLen =? 1) && (val =? 0) then None
          else
            let val' := val * 10 + d in
            if 255 <? val' then None else scan_octet rest val' (digLen + 1)
      | None => None
      end
  end.

Definition octet_scan_ok (d : Z) : bool :=
  match scan_octet (FormatInt d) 0 0 with
  | Some (v, _) => v =? d
  | None => false
  end
  && negb (String.eqb (FormatInt d) "")
  && match first_mark (FormatInt d) with None => true | Some _ => false end.

Definition dotted4 (a b c d : Z) : string :=
  FormatInt a +:+ "." +:+ FormatInt b +:+ "." +:+ FormatInt c +:+ "." +:+ FormatInt d.

(** The session [linkConnect] stores, with score [sc]. *)
Definition fresh_session (sc : Z) : session :=
  {| id := ""; score := sc; delay := 0; first_line := true |}.

(** The queries of [linkConnect] for the four atoms of an address, in the
    order of [domains], and the number of them that are answered. *)
Definition dnsbl_queries (cfg : Config) (a0 a1 a2 a3 : string) : list string :=
  map (fun domain => a3 +:+ "." +:+ a2 +:+ "." +:+ a1 +:+ "." +:+ a0 +:+ "." +:+ domain)
      (domains cfg).

Definition count_hits (E : Env) (queries : list string) : Z :=
  fold_left (fun sc q => if LookupIP E q then int64 (sc + 1) else sc) queries 0.

(** The score and the effects of [linkConnect] for the octets of an IPv4
    address. *)
Definition score_of_octets (X : Extern) (cfg : Config) (E : Env) (a b c d : Z)
    : Z * list effect :=
  if allowlisted X cfg (rangeMasks E) (v4InV6Prefix ++ [a; b; c; d]) then (0, [])
  else if testMode cfg then ((if d =? 255 then -1 else Z.min d 127), [])
  else
    let queries := dnsbl_queries cfg (FormatInt a) (FormatInt b) (FormatInt c) (FormatInt d) in
    (int8 (count_hits E queries), map Resolve queries).

Definition test_config : Config :=
  {| domains := ["dnsbl.example.org"];
     blockAbove := -1;
     blockPhase := "connect";
     junkAbove := 1;
     slowFactor := -1;
     scoreHeader := false;
     testMode := true;
     allowlist := ∅;
     allowlistMasks := ∅ |}.

Definition quiet_env : Env := {| rangeMasks := []; LookupIP := fun _ => false |}.

Definition empty_state : State := {| sessions := ∅; version := "" |}.

(** A store that holds the session 7641df9771b4ed00 in the middle of a
    message: score 4, a delay, the first body line already seen. *)
Definition busy_state : State :=
  set_session empty_state "7641df9771b4ed00"
    {| id := ""; score := 4; delay := 250; first_line := false |}.

Definition disconnect_text : string :=
  "disconnect|550 your IP reputation is too low for this MX".

(** [answers r st sessionId params text]: the handler returned normally and
    its one effect is the response of the event (session [sessionId], token
    [params[0]]) with the verdict [text]: the [filter-result] line that
    carries it, written by the handler, or the goroutine started to write
    it. *)
Definition answers (r : result (State * list effect)) (st : State)
    (sessionId : string) (params : list string) (text : string) : Prop :=
  exists st' sl token,
    params !! 0%nat = Some token /\
    ((exists out,
        r = Ok (st', [Emit sl out]) /\
        produceOutput st "filter-result" sessionId token text = Ok out) \/
     r = Ok (st', [Go sl sessionId token text])).

(** The one effect of a [delayed...] function: in test mode the line [out]
    the handler writes after the sleep, otherwise the goroutine it starts. *)
Definition response (cfg : Config) (sl : Z) (sessionId token text out : string) : effect :=
  if testMode cfg then Emit sl out else Go sl sessionId token text.

(** The verdict [filterConnect] picks, and the delay it stores: the
    conditions of the source, read off a session. *)
Definition connect_text (cfg : Config) (s : session) : string :=
  if negb (score s =? -1) && (0 <=? int8 (blockAbove cfg))
     && (int8 (blockAbove cfg) <? score s) && String.eqb (blockPhase cfg) "connect"
  then disconnect_text
  else if negb (score s =? -1) && (0 <=? int8 (junkAbove cfg))
          && (int8 (junkAbove cfg) <? score s)
  then "junk"
  else "proceed".

Definition connect_delay (cfg : Config) (s : session) : result Z :=
  if (0 <? slowFactor cfg) && (0 <? score s) then
    if Nat.eqb (List.length (domains cfg)) 0 then Panic "integer divide by zero"
    else Ok (Z.quot (int64 (slowFactor cfg * score s))
                    (Z.of_nat (List.length (domains cfg))))
  else Ok 0.

(** The verdict of every other phase. *)
Definition answer_text (cfg : Config) (phase : string) (s : session) : string :=
  if negb (score s =? -1) && (0 <=? int8 (blockAbove cfg))
     && (int8 (blockAbove cfg) <? score s) && String.eqb (blockPhase cfg) phase
  then disconnect_text
  else "proceed".

(** A configuration with both thresholds at 4, and a session with score 4. *)
Definition config_at_4 : Config :=
  {| domains := ["dnsbl.example.org"];
     blockAbove := 4;
     blockPhase := "connect";
     junkAbove := 4;
     slowFactor := -1;
     scoreHeader := false;
     testMode := true;
     allowlist := ∅;
     allowlistMasks := ∅ |}.

Definition session_4 : session :=
  {| id := ""; score := 4; delay := 0; first_line := true |}.

Definition state_4 : State :=
  {| sessions := {[ "7641df9771b4ed00" := session_4 ]}; version := "0.5" |}.

(** High thresholds met: blocking above 0 at the helo phase and junk above 0,
    and a store whose session has no score. *)
Definition strict_config : Config :=
  {| domains := ["dnsbl.example.org"];
     blockAbove := 0;
     blockPhase := "helo";
     junkAbove := 0;
     slowFactor := 1000;
     scoreHeader := true;
     testMode := true;
     allowlist := ∅;
     allowlistMasks := ∅ |}.

Definition unscored_state : State :=
  {| sessions := {[ "7641df9771b4ed00" := fresh_session (-1) ]}; version := "0.5" |}.

(** Blocking above 1 at the mail-from phase, junk above 1. *)
Definition late_block_config : Config :=
  {| domains := ["dnsbl.example.org"];
     blockAbove := 1;
     blockPhase := "mail-from";
     junkAbove := 1;
     slowFactor := -1;
     scoreHeader := false;
     testMode := true;
     allowlist := ∅;
     allowlistMasks := ∅ |}.

Definition with_thresholds (cfg : Config) (block junk : Z) : Config :=
  {| domains := domains cfg;
     blockAbove := block;
     blockPhase := blockPhase cfg;
     junkAbove := junk;
     slowFactor := slowFactor cfg;
     scoreHeader := scoreHeader cfg;
     testMode := testMode cfg;
     allowlist := allowlist cfg;
     allowlistMasks := allowlistMasks cfg |}.

(** A slow factor of one second and three domains. *)
Definition slow_config : Config :=
  {| domains := ["a.example.org"; "b.example.org"; "c.example.org"];
     blockAbove := -1;
     blockPhase := "connect";
     junkAbove := -1;
     slowFactor := 1000;
     scoreHeader := false;
     testMode := true;
     allowlist := ∅;
     allowlistMasks := ∅ |}.

(** A slow factor of 2^62 milliseconds. *)
Definition overflow_config : Config :=
  {| domains := ["dnsbl.example.org"];
     blockAbove := -1;
     blockPhase := "connect";
     junkAbove := -1;
     slowFactor := 4611686018427387904;
     scoreHeader := false;
     testMode := true;
     allowlist := ∅;
     allowlistMasks := ∅ |}.

(** Test mode with the score header on. *)
Definition header_config : Config :=
  {| domains := ["dnsbl.example.org"];
     blockAbove := -1;
     blockPhase := "connect";
     junkAbove := -1;
     slowFactor := -1;
     scoreHeader := true;
     testMode := true;
     allowlist := ∅;
     allowlistMasks := ∅ |}.

(** Stated from the spec's words: a body line is the first of its message
    when the filter event before it, for the same session, is the data phase
    that opens the body of a message.  [earlier] holds the lines read before,
    the latest first. *)
Definition field (n : nat) (line : string) : string := nth n (Split line "|") "".




(** The mask lengths of IPv4. *)
Definition mask_lengths : list Z := map Z.of_nat (seq 0 33).

Definition cidr_mask_ok (n : Z) : bool :=
  Nat.eqb (List.length (CIDRMask n 32)) 4
  && (simpleMaskLength (CIDRMask n 32) =? n).

(** An allowlist file with a subnet and a host. *)
Definition office_lines : list string :=
  [ "# the office"; "1.2.3.0/24#lan"; "10.0.0.1" ].

Definition office_config : Config :=
  {| domains := ["dnsbl.example.org"];
     blockAbove := 1;
     blockPhase := "connect";
     junkAbove := 0;
     slowFactor := 1000;
     scoreHeader := true;
     testMode := false;
     allowlist := {[ "1.2.3.0/24"; "10.0.0.1/32" ]};
     allowlistMasks := {[ 24; 32 ]} |}.

(** A resolver that lists every address on every list. *)
Definition hostile_env : Env :=
  {| rangeMasks := elements (allowlistMasks office_config);
     LookupIP := fun _ => true |}.

(** The documentation prefix 2001:db8::/32 and a host in it, as bytes. *)
Definition doc_prefix : list Z := [32; 1; 13; 184; 0; 0; 0; 0; 0; 0; 0; 0; 0; 0; 0; 0].
Definition doc_host : list Z := [32; 1; 13; 184; 0; 0; 0; 0; 0; 0; 0; 0; 0; 0; 0; 1].

(** An instance of [Extern] that reads and prints the two IPv6 texts of the
    example as Go does, and no other. *)
Definition ipv6_documentation : Extern :=
  {| parseIPv6 := fun s =>
       if String.eqb s "2001:db8::" then Some doc_prefix
       else if String.eqb s "2001:db8::1" then Some doc_host
       else None;
     addr6String := fun ip =>
       if bool_decide (ip = doc_prefix) then "2001:db8::"
       else if bool_decide (ip = doc_host) then "2001:db8::1"
       else "";
     TrimSpace := fun s => s |}.

Definition ipv6_config : Config :=
  {| domains := ["dnsbl.example.org"];
     blockAbove := -1;
     blockPhase := "connect";
     junkAbove := -1;
     slowFactor := -1;
     scoreHeader := true;
     testMode := false;
     allowlist := {[ "2001:db8::/32" ]};
     allowlistMasks := {[ 32 ]} |}.

Definition state_ok (st : State) : Prop :=
  forall k s, sessions st !! k = Some s -> -128 <= score s <= 127.

(** An effect that is a response (a line, or the goroutine that will write
    it), an effect that is a DNS query. *)
Definition is_response (e : effect) : bool :=
  match e with Emit _ _ | Go _ _ _ _ => true | Resolve _ => false end.

Definition is_resolve (e : effect) : bool :=
  match e with Emit _ _ | Go _ _ _ _ => false | Resolve _ => true end.

(** Two blocklists, outside test mode, and a resolver that knows the client
    1.2.3.4 on the first list only. *)
Definition two_lists_config : Config :=
  {| domains := ["zen.example.org"; "bl.example.net"];
     blockAbove := 1;
     blockPhase := "connect";
     junkAbove := 0;
     slowFactor := -1;
     scoreHeader := false;
     testMode := false;
     allowlist := ∅;
     allowlistMasks := ∅ |}.

Definition listed_once_env : Env :=
  {| rangeMasks := []; LookupIP := String.eqb "4.3.2.1.zen.example.org" |}.

(** A line of the allowlist file that [loadAllowlists] skips: nothing is
    left of it once the comment and the blanks around are removed. *)
Definition line_blank (X : Extern) (line : string) : bool :=
  match Split line "#" !! 0%nat with
  | Some text => String.eqb (TrimSpace X text) ""
  | None => false
  end.

Definition line_loads (X : Extern) (line : string) : Prop :=
  line_blank X line = true \/ is_Some (subnet_of_line X line).

(** The lowest score [linkConnect] can store: -1 in test mode; outside it
    the counter of listings is converted to [int8]. *)
Definition score_floor (cfg : Config) : Z := if testMode cfg then -1 else -128.

(** Whether the session [k] is in the store after the report events of
    [events], read off the lines alone: the last report event that names
    [k] decides, and [b] says whether [k] was in the store before. *)
Definition live_after (events : list (Env * string)) (k : string) (b : bool) : bool :=
  fold_left
    (fun b ev =>
       if String.eqb (field 0 (snd ev)) "report" && String.eqb (field 5 (snd ev)) k
       then String.eqb (field 4 (snd ev)) "link-connect"
       else b)
    events b.

(** The configuration the loop of [main] runs with. *)
Definition loaded (flags : Config) (r : gset string * gset Z) : Config :=
  {| domains := domains flags;
     blockAbove := blockAbove flags;
     blockPhase := blockPhase flags;
     junkAbove := junkAbove flags;
     slowFactor := slowFactor flags;
     scoreHeader := scoreHeader flags;
     testMode := testMode flags;
     allowlist := r.1;
     allowlistMasks := r.2 |}.

Definition default_boot : Boot :=
  {| reporterKeys := ["link-connect"; "link-disconnect"];
     filterKeys := ["connect"; "helo"; "ehlo"; "starttls"; "auth"; "mail-from"; "rcpt-to";
                    "data"; "data-line"; "commit"; "quit"] |}.

(** The bytes of an IPv4 mask are octets (checked for the 33 lengths). *)
Definition cidr_mask_octets (n : Z) : bool :=
  forallb (fun m => (0 <=? m) && (m <? 256)) (CIDRMask n 32).




(** * Properties *)


(** ** Strings *)

Lemma append_nil (b : string) : "" +:+ b = b.
Proof. reflexivity. Qed.

Lemma append_cons (c : ascii) (a b : string) : String c a +:+ b = String c (a +:+ b).
Proof. reflexivity. Qed.

Ltac str_simpl := rewrite ?append_nil, ?append_cons; simpl.

Lemma append_assoc (a b c : string) : (a +:+ b) +:+ c = a +:+ (b +:+ c).
Proof. induction a as [|x a IH]; str_simpl; [reflexivity | now rewrite IH]. Qed.

Lemma append_inv_head (p a b : string) : p +:+ a = p +:+ b -> a = b.
Proof.
  induction p as [|x p IH]; str_simpl; intros H; [exact H |].
  injection H as H. now apply IH.
Qed.

Lemma Contains_append (a b : string) (sep : ascii) :
  Contains (a +:+ b) sep = Contains a sep || Contains b sep.
Proof.
  induction a as [|x a IH]; str_simpl; [reflexivity |].
  rewrite IH. now rewrite orb_assoc.
Qed.

Lemma Split_not_nil (s : string) (sep : ascii) : Split s sep <> [].
Proof.
  destruct s as [|c s]; simpl; [discriminate |].
  destruct (Ascii.eqb c sep); [discriminate |].
  destruct (Split s sep); discriminate.
Qed.

(** Without a separator the text is the only field. *)
Lemma Split_no_sep (s : string) (sep : ascii) :
  Contains s sep = false -> Split s sep = [s].
Proof.
  induction s as [|c s IH]; simpl; [reflexivity |].
  intros H. apply orb_false_iff in H as [Hc Hs].
  rewrite Hc, (IH Hs). reflexivity.
Qed.

(** A field that has no separator is split off at the separator behind it. *)
Lemma Split_app (p q : string) (sep : ascii) :
  Contains p sep = false ->
  Split (p +:+ String sep q) sep = p :: Split q sep.
Proof.
  induction p as [|c p IH]; str_simpl; intros H.
  - now rewrite Ascii.eqb_refl.
  - apply orb_false_iff in H as [Hc Hp].
    rewrite Hc, (IH Hp). reflexivity.
Qed.

(** The first field never holds the separator. *)
Lemma Split_first_no_sep (s : string) (sep : ascii) (field : string) :
  Split s sep !! 0%nat = Some field -> Contains field sep = false.
Proof.
  revert field. induction s as [|c s IH]; simpl; intros field H.
  - injection H as <-. reflexivity.
  - destruct (Ascii.eqb c sep) eqn:Hc.
    + injection H as <-. reflexivity.
    + destruct (Split s sep) as [|f fs] eqn:Hs.
      * injection H as <-. simpl. now rewrite Hc.
      * injection H as <-. simpl. rewrite Hc. simpl. now apply IH.
Qed.

Lemma Split_first_some (s : string) (sep : ascii) :
  exists field, Split s sep !! 0%nat = Some field.
Proof.
  destruct (Split s sep) as [|f fs] eqn:H; [now apply Split_not_nil in H |].
  now exists f.
Qed.

(** ** Octets and their decimal text *)

(** A boolean property checked on the 256 octets holds of every octet. *)
Lemma byte_range_forallb (P : Z -> bool) :
  forallb P byte_range = true -> forall d, is_byte d -> P d = true.
Proof.
  intros H d [Hlo Hhi].
  rewrite forallb_forall in H. apply H.
  unfold byte_range. apply in_map_iff. exists (Z.to_nat d). split.
  - apply Z2Nat.id. exact Hlo.
  - apply in_seq. lia.
Qed.

Lemma octet_text_ok_all : forallb octet_text_ok byte_range = true.
Proof. vm_compute. reflexivity. Qed.

Lemma octet_text (d : Z) :
  is_byte d ->
  Contains (FormatInt d) "." = false /\
  Contains (FormatInt d) ":" = false /\
  String.eqb (FormatInt d) "255" = (d =? 255) /\
  int8 (fst (ParseInt (FormatInt d) 8)) = Z.min d 127.
Proof.
  intros Hd.
  pose proof (byte_range_forallb _ octet_text_ok_all d Hd) as H.
  unfold octet_text_ok in H.
  repeat (apply andb_true_iff in H as [H ?]).
  repeat split.
  - now apply negb_true_iff.
  - now apply negb_true_iff.
  - now apply Bool.eqb_prop.
  - now apply Z.eqb_eq.
Qed.

(** ** [net.ParseIP] on a text without a colon *)

Lemma first_mark_in (s : string) (c : ascii) :
  first_mark s = Some c -> Contains s c = true.
Proof.
  induction s as [|x s IH]; simpl; [discriminate |].
  destruct (Ascii.eqb x "." || Ascii.eqb x ":" || Ascii.eqb x "%") eqn:Hx.
  - intros [= <-]. now rewrite Ascii.eqb_refl.
  - intros H. rewrite (IH H). apply orb_true_r.
Qed.

(** Whatever [parseIPv4Fields] accepts is four octets. *)
Lemma parseIPv4Fields_shape (s : string) :
  forall at_start after_dot val digLen fields out,
    (List.length fields <= 3)%nat ->
    Forall is_byte fields ->
    parseIPv4Fields s at_start after_dot val digLen fields = Some out ->
    List.length out = 4%nat /\ Forall is_byte out.
Proof.
  induction s as [|c s IH]; intros at_start after_dot val digLen fields out Hlen Hb; simpl.
  - destruct (Z.of_nat (List.length fields) <? 3) eqn:H3; [discriminate |].
    intros [= <-]. apply Z.ltb_ge in H3. split.
    + rewrite length_app. simpl. lia.
    + apply Forall_app. split; [exact Hb |].
      constructor; [| constructor]. unfold is_byte.
      apply Z.mod_pos_bound. lia.
  - destruct (digit_of c) as [d|].
    + destruct ((digLen =? 1) && (val =? 0)); [discriminate |].
      destruct (255 <? val * 10 + d); [discriminate |].
      intros H. exact (IH _ _ _ _ _ _ Hlen Hb H).
    + destruct (Ascii.eqb c "."); [| discriminate].
      destruct (at_start || String.eqb s "" || after_dot); [discriminate |].
      destruct (Z.of_nat (List.length fields) =? 3) eqn:H3; [discriminate |].
      apply Z.eqb_neq in H3.
      intros H. refine (IH _ _ _ _ _ _ _ _ H).
      * rewrite length_app. simpl. lia.
      * apply Forall_app. split; [exact Hb |].
        constructor; [| constructor]. unfold is_byte.
        apply Z.mod_pos_bound. lia.
Qed.

Lemma four_octets (l : list Z) :
  List.length l = 4%nat -> Forall is_byte l ->
  exists a b c d, l = [a; b; c; d] /\ is_byte a /\ is_byte b /\ is_byte c /\ is_byte d.
Proof.
  intros Hl Hb.
  destruct l as [|a [|b [|c [|d [|e l]]]]]; try discriminate.
  exists a, b, c, d.
  apply Forall_cons in Hb as [Ha Hb].
  apply Forall_cons in Hb as [Hb' Hb].
  apply Forall_cons in Hb as [Hc Hb].
  apply Forall_cons in Hb as [Hd _].
  auto.
Qed.

(** On a text without a colon [net.ParseIP] never reaches the IPv6 parser:
    it answers [nil] or the 16-byte form of four octets. *)
Lemma ParseIP_no_colon (X : Extern) (host : string) (addr : list Z) :
  Contains host ":" = false ->
  ParseIP X host = Some addr ->
  exists a b c d,
    addr = v4InV6Prefix ++ [a; b; c; d] /\
    is_byte a /\ is_byte b /\ is_byte c /\ is_byte d.
Proof.
  intros Hc. unfold ParseIP, ParseAddr.
  destruct (first_mark host) as [m|] eqn:Hm; [| discriminate].
  destruct (Ascii.eqb m ".") eqn:Hdot.
  - unfold parseIPv4.
    destruct (parseIPv4Fields host true false 0 0 []) as [f|] eqn:Hf; [| discriminate].
    simpl. intros [= <-].
    assert (Hnil : (List.length (@nil Z) <= 3)%nat) by (simpl; lia).
    destruct (parseIPv4Fields_shape _ _ _ _ _ _ _ Hnil (Forall_nil_2 _) Hf)
      as [Hl Hb].
    destruct (four_octets f Hl Hb) as (a & b & c & d & -> & H).
    now exists a, b, c, d.
  - destruct (Ascii.eqb m ":") eqn:Hcol; [| discriminate].
    apply Ascii.eqb_eq in Hcol. subst m.
    apply first_mark_in in Hm. congruence.
Qed.

(** An address is printed as its four octets, and the text splits back into
    them. *)
Lemma IP_String_v4 (X : Extern) (a b c d : Z) :
  IP_String X (v4InV6Prefix ++ [a; b; c; d]) =
  FormatInt a +:+ "." +:+ FormatInt b +:+ "." +:+ FormatInt c +:+ "." +:+ FormatInt d.
Proof. reflexivity. Qed.

Lemma dotted_no_colon (a b c d : Z) :
  is_byte a -> is_byte b -> is_byte c -> is_byte d ->
  Contains (FormatInt a +:+ "." +:+ FormatInt b +:+ "." +:+ FormatInt c +:+ "."
            +:+ FormatInt d) ":" = false.
Proof.
  intros Ha Hb Hc Hd.
  destruct (octet_text a Ha) as (_ & Ea & _).
  destruct (octet_text b Hb) as (_ & Eb & _).
  destruct (octet_text c Hc) as (_ & Ec & _).
  destruct (octet_text d Hd) as (_ & Ed & _).
  rewrite !Contains_append, Ea, Eb, Ec, Ed. reflexivity.
Qed.

Lemma dotted_Split (a b c d : Z) :
  is_byte a -> is_byte b -> is_byte c -> is_byte d ->
  Split (FormatInt a +:+ "." +:+ FormatInt b +:+ "." +:+ FormatInt c +:+ "."
         +:+ FormatInt d) "." = [FormatInt a; FormatInt b; FormatInt c; FormatInt d].
Proof.
  intros Ha Hb Hc Hd.
  destruct (octet_text a Ha) as (Ea & _).
  destruct (octet_text b Hb) as (Eb & _).
  destruct (octet_text c Hc) as (Ec & _).
  destruct (octet_text d Hd) as (Ed & _).
  change (?x +:+ "." +:+ ?y) with (x +:+ String "." y).
  rewrite (Split_app _ _ _ Ea).
  change (FormatInt b +:+ "." +:+ ?y) with (FormatInt b +:+ String "." y).
  rewrite (Split_app _ _ _ Eb).
  change (FormatInt c +:+ "." +:+ ?y) with (FormatInt c +:+ String "." y).
  rewrite (Split_app _ _ _ Ec).
  now rewrite (Split_no_sep _ _ Ed).
Qed.

(** ** [net.ParseIP] reads back the dotted text of four octets *)

Lemma scan_octet_app (p q : string) :
  forall c at_start after_dot val digLen fields v n,
    scan_octet (String c p) val digLen = Some (v, n) ->
    parseIPv4Fields (String c p +:+ q) at_start after_dot val digLen fields =
    parseIPv4Fields q false false v n fields.
Proof.
  induction p as [|x p IH]; intros c at_start after_dot val digLen fields v n;
    str_simpl.
  - destruct (digit_of c) as [d|]; [| discriminate].
    destruct ((digLen =? 1) && (val =? 0)); [discriminate |].
    destruct (255 <? val * 10 + d); [discriminate |].
    now intros [= <- <-].
  - destruct (digit_of c) as [d|]; [| discriminate].
    destruct ((digLen =? 1) && (val =? 0)); [discriminate |].
    destruct (255 <? val * 10 + d); [discriminate |].
    intros H.
    exact (IH x false false (val * 10 + d) (digLen + 1) fields v n H).
Qed.

Lemma octet_scan_ok_all : forallb octet_scan_ok byte_range = true.
Proof. vm_compute. reflexivity. Qed.

Lemma octet_scan (d : Z) :
  is_byte d ->
  exists c p n,
    FormatInt d = String c p /\
    scan_octet (String c p) 0 0 = Some (d, n) /\
    first_mark (String c p) = None.
Proof.
  intros Hd.
  pose proof (byte_range_forallb _ octet_scan_ok_all d Hd) as H.
  unfold octet_scan_ok in H.
  apply andb_true_iff in H as [H Hm].
  apply andb_true_iff in H as [Hs He].
  destruct (FormatInt d) as [|c p]; [discriminate |].
  exists c, p.
  destruct (scan_octet (String c p) 0 0) as [[v n]|]; [| discriminate].
  apply Z.eqb_eq in Hs. subst v. exists n.
  destruct (first_mark (String c p)); [discriminate |].
  auto.
Qed.

Lemma first_mark_app_dot (p q : string) :
  first_mark p = None -> first_mark (p +:+ String "." q) = Some "."%char.
Proof.
  induction p as [|x p IH]; str_simpl; [reflexivity |].
  destruct (Ascii.eqb x "." || Ascii.eqb x ":" || Ascii.eqb x "%"); [discriminate |].
  exact IH.
Qed.

(** One octet followed by a dot and more text. *)
Lemma parse_octet_dot (d : Z) (rest : string) (at_start after_dot : bool) (fields : list Z) :
  is_byte d ->
  rest <> "" ->
  (List.length fields < 3)%nat ->
  parseIPv4Fields (FormatInt d +:+ String "." rest) at_start after_dot 0 0 fields =
  parseIPv4Fields rest false true 0 0 (fields ++ [d]).
Proof.
  intros Hd Hrest Hlen.
  destruct (octet_scan d Hd) as (c & p & n & -> & Hs & _).
  rewrite (scan_octet_app _ _ _ _ _ _ _ _ _ _ Hs).
  simpl.
  destruct (String.eqb rest "") eqn:He.
  - apply String.eqb_eq in He. contradiction.
  - destruct (Z.of_nat (List.length fields) =? 3) eqn:H3.
    + apply Z.eqb_eq in H3. lia.
    + rewrite Z.mod_small by exact Hd. reflexivity.
Qed.

(** The last octet. *)
Lemma parse_octet_end (d : Z) (at_start after_dot : bool) (fields : list Z) :
  is_byte d ->
  List.length fields = 3%nat ->
  parseIPv4Fields (FormatInt d) at_start after_dot 0 0 fields = Some (fields ++ [d]).
Proof.
  intros Hd Hlen.
  destruct (octet_scan d Hd) as (c & p & n & -> & Hs & _).
  pose proof (scan_octet_app p "" c at_start after_dot 0 0 fields d n Hs) as H.
  assert (E : String c p +:+ "" = String c p).
  { clear. generalize (String c p). intros s.
    induction s as [|x s IH]; str_simpl; [reflexivity | now rewrite IH]. }
  rewrite E in H. rewrite H. simpl.
  rewrite Hlen. simpl.
  rewrite Z.mod_small by exact Hd. reflexivity.
Qed.

Lemma FormatInt_octet_cons (d : Z) (q : string) :
  is_byte d -> FormatInt d +:+ q <> "".
Proof.
  intros Hd. destruct (octet_scan d Hd) as (c & p & n & -> & _).
  str_simpl. discriminate.
Qed.

Lemma FormatInt_octet_ne (d : Z) : is_byte d -> FormatInt d <> "".
Proof.
  intros Hd. destruct (octet_scan d Hd) as (c & p & n & -> & _). discriminate.
Qed.

Lemma ParseIP_dotted4 (X : Extern) (a b c d : Z) :
  is_byte a -> is_byte b -> is_byte c -> is_byte d ->
  ParseIP X (dotted4 a b c d) = Some (v4InV6Prefix ++ [a; b; c; d]).
Proof.
  intros Ha Hb Hc Hd. unfold ParseIP, ParseAddr, dotted4.
  change (?x +:+ "." +:+ ?y) with (x +:+ String "." y).
  destruct (octet_scan a Ha) as (ca & pa & na & Ea & _ & Hm).
  rewrite Ea at 1. rewrite (first_mark_app_dot _ _ Hm). simpl.
  unfold parseIPv4.
  rewrite parse_octet_dot; [| exact Ha | now apply FormatInt_octet_cons | simpl; lia].
  change (FormatInt b +:+ "." +:+ ?y) with (FormatInt b +:+ String "." y).
  rewrite parse_octet_dot; [| exact Hb | now apply FormatInt_octet_cons | simpl; lia].
  change (FormatInt c +:+ "." +:+ ?y) with (FormatInt c +:+ String "." y).
  rewrite parse_octet_dot; [| exact Hc | now apply FormatInt_octet_ne | simpl; lia].
  rewrite parse_octet_end; [reflexivity | exact Hd | reflexivity].
Qed.

(** The text before the port. *)
Lemma host_of_address (a b c d : Z) (port : string) :
  is_byte a -> is_byte b -> is_byte c -> is_byte d ->
  Split (dotted4 a b c d +:+ ":" +:+ port) ":" !! 0%nat = Some (dotted4 a b c d).
Proof.
  intros Ha Hb Hc Hd.
  change (?x +:+ ":" +:+ ?y) with (x +:+ String ":" y).
  rewrite Split_app; [reflexivity |].
  now apply dotted_no_colon.
Qed.

(** ** [linkConnect] *)

Arguments FormatInt : simpl never.
Arguments IP_String : simpl never.
Arguments ParseIP : simpl never.
Arguments Split : simpl never.
Arguments Contains : simpl never.
Arguments ParseInt : simpl never.
Arguments Atoi : simpl never.
Arguments Join : simpl never.
Arguments int8 : simpl never.
Arguments int64 : simpl never.
Arguments produceOutput : simpl never.

Lemma set_session_twice (st : State) (k : string) (s s' : session) :
  set_session (set_session st k s) k s' = set_session st k s'.
Proof.
  unfold set_session. simpl. now rewrite insert_insert_eq.
Qed.

Lemma set_session_lookup (st : State) (k : string) (s : session) :
  sessions (set_session st k s) !! k = Some s.
Proof. unfold set_session. simpl. apply lookup_insert_eq. Qed.

Lemma set_session_lookup_ne (st : State) (k k' : string) (s : session) :
  k <> k' -> sessions (set_session st k s) !! k' = sessions st !! k'.
Proof. intros H. unfold set_session. simpl. now apply lookup_insert_ne. Qed.

Lemma lookup_domains_eq (E : Env) (a0 a1 a2 a3 : string) (ds : list string) :
  forall sc,
    lookup_domains E [a0; a1; a2; a3] ds sc =
    Ok (fold_left (fun sc q => if LookupIP E q then int64 (sc + 1) else sc)
          (map (fun domain => a3 +:+ "." +:+ a2 +:+ "." +:+ a1 +:+ "." +:+ a0 +:+ "."
                              +:+ domain) ds) sc,
        map Resolve
          (map (fun domain => a3 +:+ "." +:+ a2 +:+ "." +:+ a1 +:+ "." +:+ a0 +:+ "."
                              +:+ domain) ds)).
Proof.
  induction ds as [|domain ds IH]; intros sc; [reflexivity |].
  cbn [lookup_domains]. unfold index, bind. cbn [lookup list_lookup].
  rewrite IH. reflexivity.
Qed.

Lemma linkConnect_octets (X : Extern) (cfg : Config) (E : Env)
    (phase sessionId p0 p1 p2 p3 host : string) (st : State) (a b c d : Z) :
  Split p2 ":" !! 0%nat = Some host ->
  ParseIP X host = Some (v4InV6Prefix ++ [a; b; c; d]) ->
  is_byte a -> is_byte b -> is_byte c -> is_byte d ->
  linkConnect X cfg E phase sessionId [p0; p1; p2; p3] st =
  Ok (set_session st sessionId (fresh_session (score_of_octets X cfg E a b c d).1),
      (score_of_octets X cfg E a b c d).2).
Proof.
  intros Hhost Hparse Ha Hb Hc Hd.
  unfold linkConnect, index, bind. simpl.
  rewrite Hhost, Hparse, IP_String_v4.
  rewrite (dotted_no_colon a b c d Ha Hb Hc Hd).
  unfold score_of_octets.
  destruct (allowlisted X cfg (rangeMasks E) (v4InV6Prefix ++ [a; b; c; d])).
  { simpl. now rewrite set_session_twice. }
  rewrite (dotted_Split a b c d Ha Hb Hc Hd). simpl.
  destruct (octet_text d Hd) as (_ & _ & E255 & Eparse).
  destruct (testMode cfg); simpl.
  - rewrite E255. destruct (d =? 255); simpl; [reflexivity |].
    rewrite set_session_twice. unfold with_score, fresh_session. simpl.
    now rewrite Eparse.
  - unfold dnsbl_queries, count_hits. rewrite lookup_domains_eq. simpl.
    now rewrite set_session_twice.
Qed.

(** One blocklist domain, test mode, no allowlist; [-junkAbove 1] as in the
    test script of the repository. *)

(** ** C1: the score in test mode *)

(** C1 (amended).  In test mode, for every IPv4 connecting address [a.b.c.d]
    (with any port behind it) that the allowlist loop does not match,
    [linkConnect] stores a session whose score is unknown (-1) when [d] is
    255, is [d] when [d] is between 0 and 127, and is 127 when [d] is between
    128 and 254; it has no effect on the outside, so no lookup is made. *)
Theorem C1_test_mode_score (X : Extern) (cfg : Config) (E : Env)
    (phase sessionId p0 p1 p3 port : string) (st : State) (a b c d : Z) :
  testMode cfg = true ->
  is_byte a -> is_byte b -> is_byte c -> is_byte d ->
  allowlisted X cfg (rangeMasks E) (v4InV6Prefix ++ [a; b; c; d]) = false ->
  linkConnect X cfg E phase sessionId [p0; p1; dotted4 a b c d +:+ ":" +:+ port; p3] st =
  Ok (set_session st sessionId
        (fresh_session (if d =? 255 then -1 else if d <=? 127 then d else 127)),
      []).
Proof.
  intros Htest Ha Hb Hc Hd Hal.
  rewrite (linkConnect_octets X cfg E phase sessionId p0 p1 _ p3 (dotted4 a b c d)
             st a b c d);
    [| now apply host_of_address | now apply ParseIP_dotted4 | assumption ..].
  unfold score_of_octets. rewrite Hal, Htest. simpl.
  destruct (d =? 255); [reflexivity |].
  destruct (d <=? 127) eqn:H127.
  - apply Z.leb_le in H127. now rewrite Z.min_l.
  - apply Z.leb_gt in H127. rewrite Z.min_r by lia. reflexivity.
Qed.

Lemma C1_test_mode_score_witness :
  linkConnect ipv4_only test_config quiet_env "link-connect" "7641df9771b4ed00"
    [""; "pass"; dotted4 1 2 3 4 +:+ ":" +:+ "33174"; "1.1.1.1:25"] empty_state =
  Ok (set_session empty_state "7641df9771b4ed00" (fresh_session 4), []).
Proof.
  apply (C1_test_mode_score ipv4_only test_config quiet_env "link-connect"
           "7641df9771b4ed00" "" "pass" "1.1.1.1:25" "33174" empty_state 1 2 3 4);
    first [reflexivity | unfold is_byte; lia].
Defined.

(** C1, as stated, fails for the last octets 128 to 254: the line below is a
    connection from 1.2.3.200, and the session it creates has score 127, not
    200.  ([strconv.ParseInt] is called with a bit size of 8 and answers 127
    for every larger number; the score is an [int8].) *)
Lemma C1_counterexample_octet_200 :
  exists st',
    handleLine ipv4_only test_config quiet_env
      "report|0.5|0|smtp-in|link-connect|7641df9771b4ed00||pass|1.2.3.200:33174|1.1.1.1:25"
      empty_state = Ok (st', []) /\
    score <$> sessions st' !! "7641df9771b4ed00" = Some 127 /\
    score <$> sessions st' !! "7641df9771b4ed00" <> Some 200.
Proof.
  eexists. split; [vm_compute; reflexivity |].
  split; [vm_compute; reflexivity | vm_compute; discriminate].
Qed.

(** ** C2: a second link-connect for a live session *)

(** With four parameters [linkConnect] always succeeds, and what it stores
    under the session id is a new session. *)
Lemma linkConnect_stores_fresh (X : Extern) (cfg : Config) (E : Env)
    (phase sessionId : string) (params : list string) (st : State) :
  List.length params = 4%nat ->
  exists sc es,
    linkConnect X cfg E phase sessionId params st =
    Ok (set_session st sessionId (fresh_session sc), es).
Proof.
  intros Hlen.
  destruct params as [|p0 [|p1 [|p2 [|p3 [|p4 params]]]]]; try discriminate.
  destruct (Split_first_some p2 ":") as [host Hhost].
  destruct (ParseIP X host) as [addr|] eqn:Hparse.
  - destruct (ParseIP_no_colon X host addr (Split_first_no_sep _ _ _ Hhost) Hparse)
      as (a & b & c & d & -> & Ha & Hb & Hc & Hd).
    eexists _, _.
    exact (linkConnect_octets X cfg E phase sessionId p0 p1 p2 p3 host st a b c d
             Hhost Hparse Ha Hb Hc Hd).
  - exists (-1), [].
    unfold linkConnect, index, bind. simpl.
    now rewrite Hhost, Hparse.
Qed.

(** C2 (amended).  A link-connect event (four parameters) whose session id
    is already in the session store is not an error: [linkConnect] returns
    normally, the session stored under that id is replaced by a new one
    (first line pending, delay 0, score from the address of this event), and
    no other session and not the protocol version are touched. *)
Theorem C2_connect_replaces_session (X : Extern) (cfg : Config) (E : Env)
    (phase sessionId : string) (params : list string) (st : State) (old : session) :
  List.length params = 4%nat ->
  sessions st !! sessionId = Some old ->
  exists st' sc es,
    linkConnect X cfg E phase sessionId params st = Ok (st', es) /\
    sessions st' !! sessionId = Some (fresh_session sc) /\
    (forall other, other <> sessionId -> sessions st' !! other = sessions st !! other) /\
    version st' = version st.
Proof.
  intros Hlen _.
  destruct (linkConnect_stores_fresh X cfg E phase sessionId params st Hlen)
    as (sc & es & H).
  exists (set_session st sessionId (fresh_session sc)), sc, es.
  split; [exact H |]. split; [apply set_session_lookup |]. split.
  - intros other Hne. apply set_session_lookup_ne. congruence.
  - reflexivity.
Qed.

Lemma C2_connect_replaces_session_witness :
  exists st' sc es,
    linkConnect ipv4_only test_config quiet_env "link-connect" "7641df9771b4ed00"
      [""; "pass"; "1.2.3.9:33174"; "1.1.1.1:25"] busy_state = Ok (st', es) /\
    sessions st' !! "7641df9771b4ed00" = Some (fresh_session sc) /\
    (forall other, other <> "7641df9771b4ed00" ->
       sessions st' !! other = sessions busy_state !! other) /\
    version st' = version busy_state.
Proof.
  apply (C2_connect_replaces_session ipv4_only test_config quiet_env "link-connect"
           "7641df9771b4ed00" [""; "pass"; "1.2.3.9:33174"; "1.1.1.1:25"] busy_state
           {| id := ""; score := 4; delay := 250; first_line := false |});
    reflexivity.
Defined.

(** C2, as stated, fails: the session 7641df9771b4ed00 is in the store, a
    link-connect line with the same id arrives, and the loop neither stops
    with [Fatal] nor keeps the old session; the store now holds a new session
    for the address of the second event. *)
Lemma C2_counterexample_duplicate_connect :
  handleLine ipv4_only test_config quiet_env
    "report|0.5|0|smtp-in|link-connect|7641df9771b4ed00||pass|1.2.3.9:33174|1.1.1.1:25"
    busy_state =
  Ok ({| sessions := {[ "7641df9771b4ed00" := fresh_session 9 ]}; version := "0.5" |}, []).
Proof. vm_compute. reflexivity. Qed.

(** ** Responses *)

Lemma Split_two (s : string) (sep : ascii) :
  Contains s sep = true -> exists f0 f1 rest, Split s sep = f0 :: f1 :: rest.
Proof.
  unfold Contains, Split.
  induction s as [|c s IH]; [discriminate |]. fold Contains in *. fold Split in *.
  destruct (Ascii.eqb c sep) eqn:Hc.
  - intros _. destruct (Split s sep) as [|f fs] eqn:Hs; [now apply Split_not_nil in Hs |].
    now exists "", f, fs.
  - simpl. intros H. destruct (IH H) as (f0 & f1 & rest & ->).
    now exists (String c f0), f1, rest.
Qed.

(** [produceOutput] reads nothing of the state but the protocol version. *)
Lemma produceOutput_version (st st' : State) (msgType sessionId token text : string) :
  version st = version st' ->
  produceOutput st msgType sessionId token text =
  produceOutput st' msgType sessionId token text.
Proof. intros H. unfold produceOutput. now rewrite H. Qed.

(** With a dot in the version it prints a line. *)
Lemma produceOutput_dot (st : State) (msgType sessionId token text : string) :
  Contains (version st) "." = true ->
  exists out, produceOutput st msgType sessionId token text = Ok out.
Proof.
  intros H. destruct (Split_two _ _ H) as (f0 & f1 & rest & Hs).
  unfold produceOutput, index, bind. rewrite Hs. simpl. eauto.
Qed.

(** Without one it panics on [tokens[1]]. *)
Lemma produceOutput_no_dot (st : State) (msgType sessionId token text : string) :
  Contains (version st) "." = false ->
  produceOutput st msgType sessionId token text = Panic "index out of range".
Proof.
  intros H. unfold produceOutput, index, bind.
  rewrite (Split_no_sep _ _ H). reflexivity.
Qed.

(** Two lines for the same event are equal only when their texts are. *)
Lemma produceOutput_text_inj (st : State) (msgType sessionId token t1 t2 out : string) :
  produceOutput st msgType sessionId token t1 = Ok out ->
  produceOutput st msgType sessionId token t2 = Ok out ->
  t1 = t2.
Proof.
  unfold produceOutput, index, bind.
  destruct (Split (version st) "." !! 0%nat) as [t0|]; [| discriminate].
  destruct (Split (version st) "." !! 1%nat) as [t1'|]; [| discriminate].
  intros [= <-] [= H].
  apply append_inv_head in H. apply append_inv_head in H. now symmetry.
Qed.

Lemma answers_one_verdict r st sessionId params t1 t2 :
  answers r st sessionId params t1 -> answers r st sessionId params t2 -> t1 = t2.
Proof.
  intros (st1 & sl1 & tok1 & Ht1 & [(out1 & -> & H1) | ->])
         (st2 & sl2 & tok2 & Ht2 & [(out2 & Hr & H2) | Hr]); try discriminate.
  - injection Hr as _ _ <-.
    assert (tok2 = tok1) by congruence. subst tok2.
    exact (produceOutput_text_inj _ _ _ _ _ _ _ H1 H2).
  - now injection Hr.
Qed.

(** The three [delayed...] functions. *)
Lemma delayed_ok (cfg : Config) (text sessionId token : string) (rest : list string)
    (st : State) (s : session) (out : string) :
  sessions st !! sessionId = Some s ->
  produceOutput st "filter-result" sessionId token text = Ok out ->
  delayed cfg text sessionId (token :: rest) st =
  Ok (st, [response cfg (sleep_of (delay s)) sessionId token text out]).
Proof.
  intros Hs Hout. unfold delayed, response, getSession, waitThenAction, index, bind.
  rewrite Hs. simpl. destruct (testMode cfg); [now rewrite Hout | reflexivity].
Qed.

Lemma delayed_inv (cfg : Config) (text sessionId : string) (params : list string)
    (st st' : State) (es : list effect) :
  delayed cfg text sessionId params st = Ok (st', es) ->
  exists s token out,
    sessions st !! sessionId = Some s /\
    params !! 0%nat = Some token /\
    (testMode cfg = true ->
     produceOutput st "filter-result" sessionId token text = Ok out) /\
    st' = st /\
    es = [response cfg (sleep_of (delay s)) sessionId token text out].
Proof.
  unfold delayed, response, getSession, waitThenAction, index, bind.
  destruct (sessions st !! sessionId) as [s|] eqn:Hs; [| discriminate].
  destruct (params !! 0%nat) as [token|] eqn:Ht; [| discriminate].
  destruct (testMode cfg).
  - destruct (produceOutput st "filter-result" sessionId token text) as [out| |] eqn:Ho;
      [| discriminate ..].
    intros [= <- <-]. now exists s, token, out.
  - intros [= <- <-]. exists s, token, "". repeat split; discriminate.
Qed.

(** The verdict of the response of a [delayed...] function is its text. *)
Lemma delayed_answers (cfg : Config) (text0 sessionId : string) (params : list string)
    (st0 st : State) (text : string) :
  version st0 = version st ->
  answers (delayed cfg text0 sessionId params st0) st sessionId params text ->
  text = text0.
Proof.
  intros Hv (st' & sl & token & Ht & Hr).
  assert (Hinv : forall es,
            delayed cfg text0 sessionId params st0 = Ok (st', es) ->
            exists sl' out',
              (testMode cfg = true ->
               produceOutput st "filter-result" sessionId token text0 = Ok out') /\
              es = [response cfg sl' sessionId token text0 out']).
  { intros es He.
    apply delayed_inv in He as (s' & token' & out' & _ & Ht' & Hout' & _ & ->).
    assert (token' = token) by congruence. subst token'.
    exists (sleep_of (delay s')), out'. split; [| reflexivity].
    intros Htest. rewrite <- (Hout' Htest). symmetry. now apply produceOutput_version. }
  destruct Hr as [(out & Hr & Hout) | Hr];
    destruct (Hinv _ Hr) as (sl' & out' & Hout' & He);
    unfold response in He; destruct (testMode cfg); try discriminate.
  - injection He as _ <-.
    exact (produceOutput_text_inj _ _ _ _ _ _ _ Hout (Hout' eq_refl)).
  - now injection He.
Qed.

(** The response of a [delayed...] function answers with its text. *)
Lemma answers_response (cfg : Config) (st st' : State) (sl : Z)
    (sessionId token : string) (rest : list string) (text text' out : string) :
  text = text' ->
  produceOutput st "filter-result" sessionId token text = Ok out ->
  answers (Ok (st', [response cfg sl sessionId token text out])) st sessionId
          (token :: rest) text'.
Proof.
  intros <- Hout. exists st', sl, token. split; [reflexivity |].
  unfold response. destruct (testMode cfg); [left; eauto | now right].
Qed.


Lemma connect_delay_ok (cfg : Config) (s : session) :
  domains cfg <> [] -> exists d, connect_delay cfg s = Ok d.
Proof.
  intros Hd. unfold connect_delay.
  destruct ((0 <? slowFactor cfg) && (0 <? score s)); [| eauto].
  destruct (domains cfg); [contradiction | simpl; eauto].
Qed.

Lemma filterConnect_eq (cfg : Config) (phase sessionId : string) (params : list string)
    (st : State) (s : session) :
  sessions st !! sessionId = Some s ->
  filterConnect cfg phase sessionId params st =
  (d <- connect_delay cfg s ;;
   delayed cfg (connect_text cfg s) sessionId params
     (set_session st sessionId (with_delay s d))).
Proof.
  intros Hs. unfold filterConnect, getSession, connect_delay, connect_text, bind.
  rewrite Hs.
  destruct ((0 <? slowFactor cfg) && (0 <? score s)).
  - destruct (Nat.eqb (List.length (domains cfg)) 0); [reflexivity |].
    cbn [score with_delay].
    repeat match goal with |- context [if ?b then _ else _] => destruct b end;
      reflexivity.
  - cbn [score with_delay].
    repeat match goal with |- context [if ?b then _ else _] => destruct b end;
      reflexivity.
Qed.

Lemma delayedAnswer_eq (cfg : Config) (phase sessionId : string) (params : list string)
    (st : State) (s : session) :
  sessions st !! sessionId = Some s ->
  delayedAnswer cfg phase sessionId params st =
  delayed cfg (answer_text cfg phase s) sessionId params st.
Proof.
  intros Hs. unfold delayedAnswer, getSession, answer_text, bind. rewrite Hs.
  destruct (negb (score s =? -1) && (0 <=? int8 (blockAbove cfg))
            && (int8 (blockAbove cfg) <? score s) && String.eqb (blockPhase cfg) phase);
    reflexivity.
Qed.

(** The handlers of the filter table. *)
Lemma filters_cases (cfg : Config) (phase : string) (h : handler) :
  table_lookup (filters cfg) phase = Some h ->
  (phase = "connect" /\ h = filterConnect cfg) \/
  (phase = "data-line" /\ h = dataline cfg) \/
  (phase <> "connect" /\ phase <> "data-line" /\ h = delayedAnswer cfg).
Proof.
  unfold filters, table_lookup.
  repeat match goal with
  | |- context [String.eqb ?k phase] =>
      let H := fresh "H" in
      destruct (String.eqb k phase) eqn:H;
      [ apply String.eqb_eq in H; subst phase; intros [= <-];
        first [ left; split; reflexivity
              | right; left; split; reflexivity
              | right; right; repeat split; discriminate ]
      | ]
  end.
  discriminate.
Qed.

(** Every line [produceOutput] prints starts with the message type. *)
Lemma produceOutput_prefix (st : State) (msgType sessionId token text out : string) :
  produceOutput st msgType sessionId token text = Ok out ->
  exists tail, out = msgType +:+ "|" +:+ tail.
Proof.
  unfold produceOutput, index, bind.
  destruct (Split (version st) "." !! 0%nat) as [t0|]; [| discriminate].
  destruct (Split (version st) "." !! 1%nat) as [t1|]; [| discriminate].
  intros [= <-].
  destruct ((fst (Atoi t0) =? 0) && (fst (Atoi t1) <? 5));
    rewrite !append_assoc; eauto.
Qed.

Lemma dataline_line_is_no_result (st st' : State) (sessionId token token' text text' out : string) :
  produceOutput st "filter-dataline" sessionId token text = Ok out ->
  produceOutput st' "filter-result" sessionId token' text' = Ok out ->
  False.
Proof.
  intros H1 H2.
  apply produceOutput_prefix in H1 as [t1 ->].
  apply produceOutput_prefix in H2 as [t2 H].
  discriminate H.
Qed.

(** [filterConnect] answers when the session is in the store, the event has
    a token, the version has a dot and there is a domain to divide by. *)
Lemma filterConnect_returns (cfg : Config) (phase sessionId token : string)
    (rest : list string) (st : State) (s : session) (d : Z) :
  sessions st !! sessionId = Some s ->
  connect_delay cfg s = Ok d ->
  Contains (version st) "." = true ->
  exists out,
    produceOutput st "filter-result" sessionId token (connect_text cfg s) = Ok out /\
    filterConnect cfg phase sessionId (token :: rest) st =
    Ok (set_session st sessionId (with_delay s d),
        [response cfg (sleep_of d) sessionId token (connect_text cfg s) out]).
Proof.
  intros Hs Hd Hv.
  destruct (produceOutput_dot st "filter-result" sessionId token (connect_text cfg s) Hv)
    as [out Hout].
  exists out. split; [exact Hout |].
  rewrite (filterConnect_eq cfg phase sessionId _ st s Hs), Hd. simpl.
  apply (delayed_ok cfg _ sessionId token rest _ (with_delay s d) out).
  - apply set_session_lookup.
  - exact Hout.
Qed.

Lemma filterConnect_verdict (cfg : Config) (phase sessionId : string) (params : list string)
    (st : State) (s : session) (text : string) :
  sessions st !! sessionId = Some s ->
  answers (filterConnect cfg phase sessionId params st) st sessionId params text ->
  text = connect_text cfg s.
Proof.
  intros Hs Ha.
  rewrite (filterConnect_eq cfg phase sessionId params st s Hs) in Ha.
  destruct (connect_delay cfg s) as [d| |]; cbn [bind] in Ha.
  - now apply delayed_answers in Ha.
  - destruct Ha as (? & ? & ? & _ & [(? & Hr & _) | Hr]); discriminate.
  - destruct Ha as (? & ? & ? & _ & [(? & Hr & _) | Hr]); discriminate.
Qed.

Lemma delayedAnswer_returns (cfg : Config) (phase sessionId token : string)
    (rest : list string) (st : State) (s : session) :
  sessions st !! sessionId = Some s ->
  Contains (version st) "." = true ->
  exists out,
    produceOutput st "filter-result" sessionId token (answer_text cfg phase s) = Ok out /\
    delayedAnswer cfg phase sessionId (token :: rest) st =
    Ok (st, [response cfg (sleep_of (delay s)) sessionId token
               (answer_text cfg phase s) out]).
Proof.
  intros Hs Hv.
  destruct (produceOutput_dot st "filter-result" sessionId token (answer_text cfg phase s) Hv)
    as [out Hout].
  exists out. split; [exact Hout |].
  rewrite (delayedAnswer_eq cfg phase sessionId _ st s Hs).
  now apply delayed_ok.
Qed.

Lemma delayedAnswer_verdict (cfg : Config) (phase sessionId : string) (params : list string)
    (st : State) (s : session) (text : string) :
  sessions st !! sessionId = Some s ->
  answers (delayedAnswer cfg phase sessionId params st) st sessionId params text ->
  text = answer_text cfg phase s.
Proof.
  intros Hs Ha.
  rewrite (delayedAnswer_eq cfg phase sessionId params st s Hs) in Ha.
  now apply delayed_answers in Ha.
Qed.

(** [dataline] never prints a [filter-result] line. *)
Lemma dataline_no_verdict (cfg : Config) (phase sessionId : string) (params : list string)
    (st : State) (text : string) :
  ~ answers (dataline cfg phase sessionId params st) st sessionId params text.
Proof.
  intros (st' & sl & token & Ht & Ha).
  assert (Hr : exists e, dataline cfg phase sessionId params st = Ok (st', [e]) /\
                         ((exists out, e = Emit sl out /\
                             produceOutput st "filter-result" sessionId token text = Ok out)
                          \/ e = Go sl sessionId token text)).
  { destruct Ha as [(out & Hr & Hout) | Hr]; eexists; (split; [exact Hr |]); eauto. }
  destruct Hr as (e & Hr & He).
  unfold dataline, getSession, index, bind in Hr.
  destruct (sessions st !! sessionId) as [s|]; [| discriminate].
  destruct (params !! 0%nat) as [token'|]; [| discriminate].
  destruct (first_line s); [destruct (negb (score s =? -1) && scoreHeader cfg) |];
    simpl in Hr;
    repeat (match type of Hr with
            | context [produceOutput ?a ?b ?c ?d ?e] =>
                let H := fresh "Hp" in
                destruct (produceOutput a b c d e) as [?o| |] eqn:H; simpl in Hr
            end);
    try discriminate Hr;
    injection Hr as _ <-;
    destruct He as [(out & [= _ <-] & Hout) | He]; try discriminate He;
    eapply dataline_line_is_no_result; eauto.
Qed.

(** What [dataline] does to the store. *)
Lemma dataline_state (cfg : Config) (phase sessionId : string) (params : list string)
    (st st' : State) (es : list effect) :
  dataline cfg phase sessionId params st = Ok (st', es) ->
  exists s,
    sessions st !! sessionId = Some s /\
    st' = if first_line s
          then set_session st sessionId (with_first_line s false) else st.
Proof.
  unfold dataline, getSession, index, bind.
  destruct (sessions st !! sessionId) as [s|]; [| discriminate].
  destruct (params !! 0%nat) as [token|]; [| discriminate].
  intros Hr. exists s. split; [reflexivity |].
  destruct (first_line s); [destruct (negb (score s =? -1) && scoreHeader cfg) |];
    simpl in Hr;
    repeat (match type of Hr with
            | context [produceOutput ?a ?b ?c ?d ?e] =>
                destruct (produceOutput a b c d e) as [?o| |]; simpl in Hr
            end);
    try discriminate Hr;
    now injection Hr as <- _.
Qed.

(** What [dataline] prints: the header line, when it is due, and the line of
    the message. *)
Lemma dataline_eq (cfg : Config) (phase sessionId token : string) (rest : list string)
    (st : State) (s : session) :
  sessions st !! sessionId = Some s ->
  Contains (version st) "." = true ->
  exists header content,
    produceOutput st "filter-dataline" sessionId token
      ("X-DNSBL-Score: " +:+ FormatInt (score s)) = Ok header /\
    produceOutput st "filter-dataline" sessionId token (Join rest "|") = Ok content /\
    dataline cfg phase sessionId (token :: rest) st =
    Ok (if first_line s
        then set_session st sessionId (with_first_line s false) else st,
        (if first_line s && (negb (score s =? -1) && scoreHeader cfg)
         then [Emit 0 header] else []) ++ [Emit 0 content]).
Proof.
  intros Hs Hv.
  destruct (produceOutput_dot st "filter-dataline" sessionId token
              ("X-DNSBL-Score: " +:+ FormatInt (score s)) Hv) as [header Hh].
  destruct (produceOutput_dot st "filter-dataline" sessionId token (Join rest "|") Hv)
    as [content Hc].
  exists header, content. split; [exact Hh |]. split; [exact Hc |].
  unfold dataline, getSession, index, bind. rewrite Hs. simpl.
  destruct (first_line s); simpl.
  - destruct (negb (score s =? -1) && scoreHeader cfg); [rewrite Hh |]; simpl;
      rewrite drop_0,
        (produceOutput_version (set_session st sessionId (with_first_line s false)) st)
        by reflexivity;
      now rewrite Hc.
  - now rewrite drop_0, Hc.
Qed.

(** No filter handler changes the score of a session. *)
Lemma filters_keep_score (cfg : Config) (phase : string) (h : handler)
    (sessionId : string) (params : list string) (st st' : State) (es : list effect) :
  table_lookup (filters cfg) phase = Some h ->
  h phase sessionId params st = Ok (st', es) ->
  forall k, score <$> sessions st' !! k = score <$> sessions st !! k.
Proof.
  intros Hh Hr k.
  destruct (filters_cases cfg phase h Hh) as [[_ ->] | [[_ ->] | (_ & _ & ->)]].
  - unfold filterConnect, getSession, bind in Hr.
    destruct (sessions st !! sessionId) as [s|] eqn:Hs; [| discriminate].
    pose proof (filterConnect_eq cfg phase sessionId params st s Hs) as E.
    unfold filterConnect, getSession, bind in E. rewrite Hs in E. rewrite E in Hr.
    clear E. destruct (connect_delay cfg s) as [d| |]; [| discriminate ..].
    simpl in Hr.
    apply delayed_inv in Hr as (_ & _ & _ & _ & _ & _ & -> & _).
    destruct (decide (sessionId = k)) as [<- | Hne].
    + now rewrite set_session_lookup, Hs.
    + now rewrite set_session_lookup_ne.
  - apply dataline_state in Hr as (s & Hs & ->).
    destruct (first_line s); [| reflexivity].
    destruct (decide (sessionId = k)) as [<- | Hne].
    + now rewrite set_session_lookup, Hs.
    + now rewrite set_session_lookup_ne.
  - unfold delayedAnswer, getSession, bind in Hr.
    destruct (sessions st !! sessionId) as [s|]; [| discriminate].
    destruct (negb (score s =? -1) && (0 <=? int8 (blockAbove cfg))
              && (int8 (blockAbove cfg) <? score s) && String.eqb (blockPhase cfg) phase);
      apply delayed_inv in Hr as (_ & _ & _ & _ & _ & _ & -> & _); reflexivity.
Qed.

Lemma int8_small (z : Z) : -128 <= z <= 127 -> int8 z = z.
Proof. intros H. unfold int8. rewrite Z.mod_small; lia. Qed.

Lemma int8_range (z : Z) : -128 <= int8 z <= 127.
Proof.
  unfold int8. pose proof (Z.mod_pos_bound (z + 128) 256 ltac:(lia)). lia.
Qed.

Lemma int8_idem (z : Z) : int8 (int8 z) = int8 z.
Proof. apply int8_small, int8_range. Qed.

(** ** C5: the comparisons are strict *)

(** C5.  A session whose score equals the block-above threshold is never
    answered with the disconnect verdict, neither by [filterConnect] nor by
    [delayedAnswer] at any phase (the block phase included); a session whose
    score equals the junk-above threshold is never answered with the junk
    verdict.  Both handlers do answer as soon as the event has a token, the
    version a dot and the list of domains an element.  The score is an
    [int8], as it is in every state the loop reaches ([run_state_ok]). *)
Theorem C5_threshold_is_strict (cfg : Config) (phase sessionId : string)
    (params : list string) (st : State) (s : session) :
  sessions st !! sessionId = Some s ->
  -128 <= score s <= 127 ->
  (score s = blockAbove cfg ->
   forall text,
     answers (filterConnect cfg phase sessionId params st) st sessionId params text \/
     answers (delayedAnswer cfg phase sessionId params st) st sessionId params text ->
     text <> disconnect_text) /\
  (score s = junkAbove cfg ->
   forall text,
     answers (filterConnect cfg phase sessionId params st) st sessionId params text \/
     answers (delayedAnswer cfg phase sessionId params st) st sessionId params text ->
     text <> "junk") /\
  (forall token rest,
     params = token :: rest ->
     Contains (version st) "." = true ->
     domains cfg <> [] ->
     exists t1 t2,
       answers (filterConnect cfg phase sessionId params st) st sessionId params t1 /\
       answers (delayedAnswer cfg phase sessionId params st) st sessionId params t2).
Proof.
  intros Hs Hrange.
  split; [| split].
  3: { intros token rest -> Hv Hdom.
       destruct (connect_delay_ok cfg s Hdom) as [d Hd].
       destruct (filterConnect_returns cfg phase sessionId token rest st s d Hs Hd Hv)
         as (o1 & Ho1 & Hr1).
       destruct (delayedAnswer_returns cfg phase sessionId token rest st s Hs Hv)
         as (o2 & Ho2 & Hr2).
       exists (connect_text cfg s), (answer_text cfg phase s).
       rewrite Hr1, Hr2. split; now apply answers_response. }
  - intros Heq text [H | H].
    + apply (filterConnect_verdict cfg phase sessionId params st s text Hs) in H.
      subst text. unfold connect_text.
      rewrite <- Heq, (int8_small _ Hrange), Z.ltb_irrefl, !andb_false_r. simpl.
      destruct (negb (score s =? -1) && (0 <=? int8 (junkAbove cfg))
                && (int8 (junkAbove cfg) <? score s)); discriminate.
    + apply (delayedAnswer_verdict cfg phase sessionId params st s text Hs) in H.
      subst text. unfold answer_text.
      rewrite <- Heq, (int8_small _ Hrange), Z.ltb_irrefl, !andb_false_r. simpl.
      discriminate.
  - intros Heq text [H | H].
    + apply (filterConnect_verdict cfg phase sessionId params st s text Hs) in H.
      subst text. unfold connect_text.
      rewrite <- Heq, (int8_small _ Hrange), Z.ltb_irrefl, !andb_false_r.
      destruct (negb (score s =? -1) && (0 <=? int8 (blockAbove cfg))
                && (int8 (blockAbove cfg) <? score s)
                && String.eqb (blockPhase cfg) "connect"); discriminate.
    + apply (delayedAnswer_verdict cfg phase sessionId params st s text Hs) in H.
      subst text. unfold answer_text.
      destruct (negb (score s =? -1) && (0 <=? int8 (blockAbove cfg))
                && (int8 (blockAbove cfg) <? score s)
                && String.eqb (blockPhase cfg) phase); discriminate.
Qed.

Lemma C5_threshold_is_strict_witness :
  (forall text,
     answers (filterConnect config_at_4 "connect" "7641df9771b4ed00"
                ["1ef1c203cc576e5d"] state_4)
             state_4 "7641df9771b4ed00" ["1ef1c203cc576e5d"] text \/
     answers (delayedAnswer config_at_4 "connect" "7641df9771b4ed00"
                ["1ef1c203cc576e5d"] state_4)
             state_4 "7641df9771b4ed00" ["1ef1c203cc576e5d"] text ->
     text <> disconnect_text) /\
  (forall text,
     answers (filterConnect config_at_4 "connect" "7641df9771b4ed00"
                ["1ef1c203cc576e5d"] state_4)
             state_4 "7641df9771b4ed00" ["1ef1c203cc576e5d"] text \/
     answers (delayedAnswer config_at_4 "connect" "7641df9771b4ed00"
                ["1ef1c203cc576e5d"] state_4)
             state_4 "7641df9771b4ed00" ["1ef1c203cc576e5d"] text ->
     text <> "junk").
Proof.
  destruct (C5_threshold_is_strict config_at_4 "connect" "7641df9771b4ed00"
              ["1ef1c203cc576e5d"] state_4 session_4) as (Hblock & Hjunk & _).
  - reflexivity.
  - simpl. lia.
  - split; [apply Hblock | apply Hjunk]; reflexivity.
Defined.

(** ** C6: a session without a score always proceeds *)

(** The text before the first colon of an address that the scan of
    [netip.ParseAddr] takes for IPv6 has none of the marks of an address. *)
Lemma first_mark_colon_host (p2 host : string) :
  first_mark p2 = Some ":"%char ->
  Split p2 ":" !! 0%nat = Some host ->
  first_mark host = None.
Proof.
  revert host. unfold Split.
  induction p2 as [|c s IH]; intros host; [discriminate |]. fold Split in *.
  simpl first_mark.
  destruct (Ascii.eqb c "." || Ascii.eqb c ":" || Ascii.eqb c "%") eqn:Hm.
  - intros [= ->]. simpl. now intros [= <-].
  - intros Hs.
    assert (Hcol : Ascii.eqb c ":" = false).
    { destruct (Ascii.eqb c "."), (Ascii.eqb c ":"); simpl in Hm; congruence. }
    rewrite Hcol.
    destruct (Split s ":") as [|f fs] eqn:Hsplit; [now apply Split_not_nil in Hsplit |].
    simpl. intros [= <-]. simpl. rewrite Hm. now apply IH.
Qed.

Lemma ParseIP_no_mark (X : Extern) (host : string) :
  first_mark host = None -> ParseIP X host = None.
Proof. intros H. unfold ParseIP, ParseAddr. now rewrite H. Qed.

Lemma linkConnect_unparsed (X : Extern) (cfg : Config) (E : Env)
    (phase sessionId p0 p1 p2 p3 host : string) (st : State) :
  Split p2 ":" !! 0%nat = Some host ->
  ParseIP X host = None ->
  linkConnect X cfg E phase sessionId [p0; p1; p2; p3] st =
  Ok (set_session st sessionId (fresh_session (-1)), []).
Proof.
  intros Hhost Hparse. unfold linkConnect, index, bind. simpl.
  now rewrite Hhost, Hparse.
Qed.

(** C6.  (1) When the connecting address is IPv6-formatted (a colon comes
    before any dot in it, as in [[2001:db8::1]:33174]) or the text before
    its first colon does not parse as an address, [linkConnect] stores a
    session with the unknown score -1 and makes no lookup.  (2) For a session
    whose score is -1, at every filter phase and whatever the thresholds:
    the only verdict a handler can answer is [proceed]; the handler leaves
    the score at -1; and at every phase but data-line (whose handler passes
    the line through and gives no verdict) the handler does answer [proceed]
    as soon as the event has a token and the version a dot. *)
Theorem C6_unknown_score_proceeds (X : Extern) (cfg : Config) (E : Env) :
  (forall phase sessionId p0 p1 p2 p3 host st,
     Split p2 ":" !! 0%nat = Some host ->
     first_mark p2 = Some ":"%char \/ ParseIP X host = None ->
     linkConnect X cfg E phase sessionId [p0; p1; p2; p3] st =
     Ok (set_session st sessionId (fresh_session (-1)), [])) /\
  (forall phase h sessionId params st s,
     table_lookup (filters cfg) phase = Some h ->
     sessions st !! sessionId = Some s ->
     score s = -1 ->
     (forall text,
        answers (h phase sessionId params st) st sessionId params text ->
        text = "proceed") /\
     (forall st' es,
        h phase sessionId params st = Ok (st', es) ->
        score <$> sessions st' !! sessionId = Some (-1)) /\
     (phase <> "data-line" ->
      forall token rest,
        params = token :: rest ->
        Contains (version st) "." = true ->
        answers (h phase sessionId params st) st sessionId params "proceed")).
Proof.
  split.
  - intros phase sessionId p0 p1 p2 p3 host st Hhost [Hv6 | Hnone].
    + apply (linkConnect_unparsed X cfg E phase sessionId p0 p1 p2 p3 host st Hhost).
      apply ParseIP_no_mark. exact (first_mark_colon_host p2 host Hv6 Hhost).
    + exact (linkConnect_unparsed X cfg E phase sessionId p0 p1 p2 p3 host st Hhost Hnone).
  - intros phase h sessionId params st s Hh Hs Hscore.
    assert (Hct : connect_text cfg s = "proceed").
    { unfold connect_text. now rewrite Hscore. }
    assert (Hat : answer_text cfg phase s = "proceed").
    { unfold answer_text. now rewrite Hscore. }
    assert (Hcd : connect_delay cfg s = Ok 0).
    { unfold connect_delay. rewrite Hscore. simpl. now rewrite andb_false_r. }
    split; [| split].
    + intros text Ha.
      destruct (filters_cases cfg phase h Hh) as [[_ ->] | [[_ ->] | (_ & _ & ->)]].
      * rewrite <- Hct. exact (filterConnect_verdict cfg phase sessionId params st s text Hs Ha).
      * now apply dataline_no_verdict in Ha.
      * rewrite <- Hat. exact (delayedAnswer_verdict cfg phase sessionId params st s text Hs Ha).
    + intros st' es Hr.
      rewrite (filters_keep_score cfg phase h sessionId params st st' es Hh Hr sessionId).
      now rewrite Hs, <- Hscore.
    + intros Hphase token rest -> Hv.
      destruct (filters_cases cfg phase h Hh) as [[_ ->] | [[-> _] | (_ & _ & ->)]].
      * destruct (filterConnect_returns cfg phase sessionId token rest st s 0 Hs Hcd Hv)
          as (out & Hout & Hr).
        rewrite Hr. now apply answers_response.
      * contradiction.
      * destruct (delayedAnswer_returns cfg phase sessionId token rest st s Hs Hv)
          as (out & Hout & Hr).
        rewrite Hr. now apply answers_response.
Qed.

Lemma C6_unknown_score_proceeds_witness :
  linkConnect ipv4_only strict_config quiet_env "link-connect" "7641df9771b4ed00"
    [""; "pass"; "[2001:db8::1]:33174"; "[2001:db8::2]:25"] empty_state =
  Ok (set_session empty_state "7641df9771b4ed00" (fresh_session (-1)), []) /\
  answers (delayedAnswer strict_config "helo" "7641df9771b4ed00"
             ["1ef1c203cc576e5d"; "mail.example.org"] unscored_state)
          unscored_state "7641df9771b4ed00" ["1ef1c203cc576e5d"; "mail.example.org"]
          "proceed".
Proof.
  destruct (C6_unknown_score_proceeds ipv4_only strict_config quiet_env) as [Haddr Hverdict].
  split.
  - apply (Haddr "link-connect" "7641df9771b4ed00" "" "pass" "[2001:db8::1]:33174"
             "[2001:db8::2]:25" "[2001" empty_state); [reflexivity |].
    left. reflexivity.
  - destruct (Hverdict "helo" (delayedAnswer strict_config) "7641df9771b4ed00"
                ["1ef1c203cc576e5d"; "mail.example.org"] unscored_state
                (fresh_session (-1))) as (_ & _ & Hproceed);
      [reflexivity | reflexivity | reflexivity |].
    apply (Hproceed ltac:(discriminate) "1ef1c203cc576e5d" ["mail.example.org"]);
      reflexivity.
Defined.

(** ** C7: blocking happens at the block phase only *)

(** C7 (amended).  For a session whose score is strictly above the enabled
    block threshold (the threshold as the code compares it, [int8] of the
    flag), a filter event at a phase other than the block phase is never
    answered with the disconnect verdict.  At the connect phase the verdict
    is [junk] if the junk threshold is enabled and exceeded and [proceed]
    otherwise; at every other phase that gives a verdict it is [proceed],
    whatever the junk threshold; the data-line phase gives no verdict.  The
    handler does answer so as soon as the event has a token, the version a
    dot and the list of domains an element. *)
Theorem C7_block_only_at_block_phase (cfg : Config) (phase : string) (h : handler)
    (sessionId : string) (params : list string) (st : State) (s : session) :
  table_lookup (filters cfg) phase = Some h ->
  sessions st !! sessionId = Some s ->
  0 <= int8 (blockAbove cfg) < score s ->
  phase <> blockPhase cfg ->
  let verdict :=
    if String.eqb phase "connect"
       && (0 <=? int8 (junkAbove cfg)) && (int8 (junkAbove cfg) <? score s)
    then "junk" else "proceed" in
  (forall text,
     answers (h phase sessionId params st) st sessionId params text ->
     text = verdict) /\
  (phase <> "data-line" ->
   forall token rest,
     params = token :: rest ->
     Contains (version st) "." = true ->
     domains cfg <> [] ->
     answers (h phase sessionId params st) st sessionId params verdict).
Proof.
  intros Hh Hs Hblock Hphase verdict.
  assert (Hknown : (score s =? -1) = false) by (apply Z.eqb_neq; lia).
  assert (Hne : String.eqb (blockPhase cfg) phase = false).
  { apply String.eqb_neq. congruence. }
  assert (Hverdict :
    (phase = "connect" -> connect_text cfg s = verdict) /\
    (phase <> "connect" -> answer_text cfg phase s = verdict)).
  { subst verdict. split.
    - intros ->. unfold connect_text. rewrite Hne, Hknown, !andb_false_r. simpl.
      reflexivity.
    - intros Hc. unfold answer_text. rewrite Hne, !andb_false_r.
      apply String.eqb_neq in Hc. now rewrite Hc. }
  destruct Hverdict as [Hct Hat].
  split.
  - intros text Ha.
    destruct (filters_cases cfg phase h Hh) as [[Hp ->] | [[_ ->] | (Hp & _ & ->)]].
    + rewrite <- (Hct Hp).
      exact (filterConnect_verdict cfg phase sessionId params st s text Hs Ha).
    + now apply dataline_no_verdict in Ha.
    + rewrite <- (Hat Hp).
      exact (delayedAnswer_verdict cfg phase sessionId params st s text Hs Ha).
  - intros Hdl token rest -> Hv Hdom.
    destruct (filters_cases cfg phase h Hh) as [[Hp ->] | [[Hp _] | (Hp & _ & ->)]].
    + destruct (connect_delay_ok cfg s Hdom) as [d Hd].
      destruct (filterConnect_returns cfg phase sessionId token rest st s d Hs Hd Hv)
        as (out & Hout & Hr).
      rewrite Hr. apply answers_response; [exact (Hct Hp) | exact Hout].
    + contradiction.
    + destruct (delayedAnswer_returns cfg phase sessionId token rest st s Hs Hv)
        as (out & Hout & Hr).
      rewrite Hr. apply answers_response; [exact (Hat Hp) | exact Hout].
Qed.

Lemma C7_block_only_at_block_phase_witness :
  answers (filterConnect late_block_config "connect" "7641df9771b4ed00"
             ["1ef1c203cc576e5d"] state_4)
          state_4 "7641df9771b4ed00" ["1ef1c203cc576e5d"] "junk".
Proof.
  destruct (C7_block_only_at_block_phase late_block_config "connect"
              (filterConnect late_block_config) "7641df9771b4ed00"
              ["1ef1c203cc576e5d"] state_4 session_4) as [_ Hanswer].
  - reflexivity.
  - reflexivity.
  - vm_compute. split; [discriminate | reflexivity].
  - discriminate.
  - apply (Hanswer ltac:(discriminate) "1ef1c203cc576e5d" []);
      [reflexivity | reflexivity | discriminate].
Defined.

(** C7, as stated, fails away from the connect phase: the session has score
    4, above the block threshold 1 and above the junk threshold 1, the block
    phase is mail-from, and the helo event is answered with [proceed], not
    with [junk].  Only [filterConnect] looks at the junk threshold. *)
Lemma C7_counterexample_helo_not_junk :
  handleLine ipv4_only late_block_config quiet_env
    "filter|0.5|0|smtp-in|helo|7641df9771b4ed00|1ef1c203cc576e5d|mail.example.org"
    state_4 =
  Ok (state_4, [Emit 0 "filter-result|7641df9771b4ed00|1ef1c203cc576e5d|proceed"]) /\
  "filter-result|7641df9771b4ed00|1ef1c203cc576e5d|proceed" <>
  "filter-result|7641df9771b4ed00|1ef1c203cc576e5d|junk".
Proof. split; [vm_compute; reflexivity | discriminate]. Qed.

(** ** C9: the thresholds are compared as [int8] *)

Lemma int8_congruent (z : Z) : (z - int8 z) mod 256 = 0.
Proof.
  unfold int8.
  pose proof (Z.div_mod (z + 128) 256 ltac:(lia)) as H.
  replace (z - ((z + 128) mod 256 - 128)) with (((z + 128) / 256) * 256) by lia.
  apply Z.mod_mul. lia.
Qed.

(** C9.  Whatever the two threshold flags are, the verdict of every
    verdict phase is the one the comparisons give on the flags wrapped
    modulo 2^8 into -128..127 ([b] for block-above, [j] for junk-above): the
    disconnect verdict exactly when the score is known, [b] is not negative,
    the score is strictly above [b] and the phase is the block phase;
    otherwise [junk] at the connect phase exactly when the score is known,
    [j] is not negative and the score is strictly above [j]; otherwise
    [proceed].  So a threshold of 128 acts as -128 and disables its check,
    and a threshold of 256 acts as 0.  The flags are not looked at when the
    process starts: [check_flags] gives what it gives for any other
    thresholds, and so do the registration lines of [main].  (The event has
    a token, the session is in the store, the version has a dot and there is
    a domain.) *)
Theorem C9_thresholds_wrap_to_int8 (X : Extern) (cfg : Config) (block junk : Z)
    (phase : string) (h : handler) (sessionId token : string) (rest : list string)
    (st : State) (s : session) (B : Boot) (allowlistFile : FileInput)
    (stdin : list (Env * string)) :
  let cfg' := with_thresholds cfg block junk in
  let b := int8 block in
  let j := int8 junk in
  table_lookup (filters cfg') phase = Some h ->
  phase <> "data-line" ->
  sessions st !! sessionId = Some s ->
  Contains (version st) "." = true ->
  domains cfg <> [] ->
  (-128 <= b <= 127 /\ (block - b) mod 256 = 0) /\
  (-128 <= j <= 127 /\ (junk - j) mod 256 = 0) /\
  answers (h phase sessionId (token :: rest) st) st sessionId (token :: rest)
    (if negb (score s =? -1) && (0 <=? b) && (b <? score s)
        && String.eqb (blockPhase cfg) phase
     then disconnect_text
     else if String.eqb phase "connect" && negb (score s =? -1)
             && (0 <=? j) && (j <? score s)
     then "junk"
     else "proceed") /\
  check_flags cfg' = check_flags cfg /\
  (main X cfg' B allowlistFile stdin).1.1 = (main X cfg B allowlistFile stdin).1.1.
Proof.
  intros cfg' b j Hh Hp Hs Hv Hdom.
  split; [split; [apply int8_range | apply int8_congruent] |].
  split; [split; [apply int8_range | apply int8_congruent] |].
  split; [| split; [reflexivity |]].
  - destruct (filters_cases cfg' phase h Hh) as [[-> ->] | [[-> _] | (Hc & _ & ->)]].
    + destruct (connect_delay_ok cfg' s Hdom) as [d Hd].
      destruct (filterConnect_returns cfg' "connect" sessionId token rest st s d Hs Hd Hv)
        as (out & Hout & ->).
      apply answers_response; [| exact Hout]. reflexivity.
    + contradiction.
    + destruct (delayedAnswer_returns cfg' phase sessionId token rest st s Hs Hv)
        as (out & Hout & ->).
      apply answers_response; [| exact Hout].
      unfold answer_text. fold b. cbn [blockPhase cfg' with_thresholds].
      apply String.eqb_neq in Hc. now rewrite Hc.
  - unfold main. change (check_flags cfg') with (check_flags cfg).
    destruct (check_flags cfg); [| reflexivity ..].
    destruct (loadAllowlists X allowlistFile) as [[al masks]| |]; [| reflexivity ..].
    destruct (skipConfig stdin); [| reflexivity].
    repeat match goal with
           | |- context [run ?a ?c ?e ?t] => destruct (run a c e t)
           end.
    reflexivity.
Qed.

Lemma C9_thresholds_wrap_to_int8_witness :
  answers
    (filterConnect (with_thresholds test_config 256 (-1)) "connect" "7641df9771b4ed00"
       ["1ef1c203cc576e5d"; "mail.example.org"]
       {| sessions := {[ "7641df9771b4ed00" := fresh_session 1 ]}; version := "0.5" |})
    {| sessions := {[ "7641df9771b4ed00" := fresh_session 1 ]}; version := "0.5" |}
    "7641df9771b4ed00" ["1ef1c203cc576e5d"; "mail.example.org"] disconnect_text.
Proof.
  destruct (C9_thresholds_wrap_to_int8 ipv4_only test_config 256 (-1) "connect"
              (filterConnect (with_thresholds test_config 256 (-1)))
              "7641df9771b4ed00" "1ef1c203cc576e5d" ["mail.example.org"]
              {| sessions := {[ "7641df9771b4ed00" := fresh_session 1 ]}; version := "0.5" |}
              (fresh_session 1) {| reporterKeys := []; filterKeys := [] |} NotGiven [])
    as (_ & _ & Hverdict & _).
  - reflexivity.
  - discriminate.
  - reflexivity.
  - reflexivity.
  - discriminate.
  - exact Hverdict.
Defined.

(** The value itself is not what is compared: with a block threshold of 256
    (wrapped to 0) a session with score 1 is disconnected at the block phase. *)
Example threshold_256_blocks_score_1 :
  handleLine ipv4_only (with_thresholds test_config 256 (-1)) quiet_env
    "filter|0.5|0|smtp-in|connect|7641df9771b4ed00|1ef1c203cc576e5d||pass|1.2.3.1:33174|1.1.1.1:25"
    (set_session empty_state "7641df9771b4ed00" (fresh_session 1)) =
  Ok ({| sessions := {[ "7641df9771b4ed00" := fresh_session 1 ]}; version := "0.5" |},
      [Emit 0
         "filter-result|7641df9771b4ed00|1ef1c203cc576e5d|disconnect|550 your IP reputation is too low for this MX"]).
Proof. vm_compute. reflexivity. Qed.

(** ** The loop of [main] *)

(** A filter line of six fields or more goes to the handler of its phase,
    with the version of the line in the state. *)
Lemma handleLine_filter (X : Extern) (cfg : Config) (E : Env) (line : string) (st : State)
    (ver a2 a3 phase sessionId : string) (params : list string) :
  Split line "|" = "filter" :: ver :: a2 :: a3 :: phase :: sessionId :: params ->
  handleLine X cfg E line st =
  match table_lookup (filters cfg) phase with
  | Some h => h phase sessionId params {| sessions := sessions st; version := ver |}
  | None => Fatal ("invalid phase: " +:+ phase)
  end.
Proof.
  intros Hs. unfold handleLine, trigger, index, bind. rewrite Hs.
  cbn [List.length Nat.ltb Nat.leb lookup list_lookup String.eqb Ascii.eqb Bool.eqb].
  simpl.
  destruct (table_lookup (filters cfg) phase); reflexivity.
Qed.

(** With no dot in the version [dataline] does not return, and no filter
    handler does in test mode. *)
Lemma filters_no_dot (cfg : Config) (phase : string) (h : handler)
    (sessionId : string) (params : list string) (st st' : State) (es : list effect) :
  table_lookup (filters cfg) phase = Some h ->
  testMode cfg = true \/ phase = "data-line" ->
  Contains (version st) "." = false ->
  h phase sessionId params st <> Ok (st', es).
Proof.
  intros Hh Hmode Hv Hr.
  destruct (filters_cases cfg phase h Hh) as [[Hp ->] | [[_ ->] | (_ & Hp & ->)]].
  - destruct Hmode as [Htest | ->]; [| discriminate].
    unfold filterConnect, getSession, bind in Hr.
    destruct (sessions st !! sessionId) as [s|] eqn:Hs; [| discriminate].
    pose proof (filterConnect_eq cfg phase sessionId params st s Hs) as E.
    unfold filterConnect, getSession, bind in E. rewrite Hs in E. rewrite E in Hr.
    clear E. destruct (connect_delay cfg s) as [d| |]; [| discriminate ..].
    simpl in Hr.
    apply delayed_inv in Hr as (s' & token & out & _ & _ & Hout & _).
    specialize (Hout Htest).
    rewrite produceOutput_no_dot in Hout by exact Hv. discriminate.
  - unfold dataline, getSession, index, bind in Hr.
    destruct (sessions st !! sessionId) as [s|]; [| discriminate].
    destruct (params !! 0%nat) as [token|]; [| discriminate].
    destruct (first_line s); [destruct (negb (score s =? -1) && scoreHeader cfg) |];
      simpl in Hr;
      rewrite ?(produceOutput_no_dot st) in Hr by exact Hv;
      rewrite ?(produceOutput_no_dot (set_session st sessionId (with_first_line s false)))
        in Hr by exact Hv;
      discriminate.
  - destruct Hmode as [Htest | ->]; [| now destruct Hp].
    unfold delayedAnswer, getSession, bind in Hr.
    destruct (sessions st !! sessionId) as [s|]; [| discriminate].
    destruct (negb (score s =? -1) && (0 <=? int8 (blockAbove cfg))
              && (int8 (blockAbove cfg) <? score s) && String.eqb (blockPhase cfg) phase);
      apply delayed_inv in Hr as (s' & token & out & _ & _ & Hout & _);
      specialize (Hout Htest);
      rewrite produceOutput_no_dot in Hout by exact Hv; discriminate.
Qed.

(** With a session, a token and a domain to divide by, it panics. *)
Lemma filters_no_dot_panic (cfg : Config) (phase : string) (h : handler)
    (sessionId token : string) (rest : list string) (st : State) (s : session) :
  table_lookup (filters cfg) phase = Some h ->
  testMode cfg = true \/ phase = "data-line" ->
  Contains (version st) "." = false ->
  sessions st !! sessionId = Some s ->
  domains cfg <> [] ->
  h phase sessionId (token :: rest) st = Panic "index out of range".
Proof.
  intros Hh Hmode Hv Hs Hdom.
  destruct (filters_cases cfg phase h Hh) as [[Hp ->] | [[_ ->] | (_ & Hp & ->)]].
  - destruct Hmode as [Htest | ->]; [| discriminate].
    rewrite (filterConnect_eq cfg phase sessionId _ st s Hs).
    destruct (connect_delay_ok cfg s Hdom) as [d ->]. simpl.
    unfold delayed, getSession, waitThenAction, index, bind.
    rewrite set_session_lookup, Htest. simpl.
    now rewrite produceOutput_no_dot by exact Hv.
  - unfold dataline, getSession, index, bind. rewrite Hs. simpl.
    destruct (first_line s); [destruct (negb (score s =? -1) && scoreHeader cfg) |];
      simpl;
      rewrite ?(produceOutput_no_dot st) by exact Hv;
      rewrite ?(produceOutput_no_dot (set_session st sessionId (with_first_line s false)))
        by exact Hv;
      reflexivity.
  - destruct Hmode as [Htest | ->]; [| now destruct Hp].
    rewrite (delayedAnswer_eq cfg phase sessionId _ st s Hs).
    unfold delayed, getSession, waitThenAction, index, bind.
    rewrite Hs, Htest. simpl.
    now rewrite produceOutput_no_dot by exact Hv.
Qed.

(** Outside test mode a verdict phase starts its goroutine and returns,
    whatever the version. *)
Lemma filters_go (cfg : Config) (phase : string) (h : handler)
    (sessionId token : string) (rest : list string) (st : State) (s : session) :
  table_lookup (filters cfg) phase = Some h ->
  testMode cfg = false ->
  phase <> "data-line" ->
  sessions st !! sessionId = Some s ->
  domains cfg <> [] ->
  exists st' sl text,
    h phase sessionId (token :: rest) st = Ok (st', [Go sl sessionId token text]).
Proof.
  intros Hh Htest Hp Hs Hdom.
  destruct (filters_cases cfg phase h Hh) as [[_ ->] | [[-> _] | (_ & _ & ->)]].
  - rewrite (filterConnect_eq cfg phase sessionId _ st s Hs).
    destruct (connect_delay_ok cfg s Hdom) as [d ->]. simpl.
    unfold delayed, getSession, index, bind.
    rewrite set_session_lookup, Htest. simpl. eauto.
  - contradiction.
  - rewrite (delayedAnswer_eq cfg phase sessionId _ st s Hs).
    unfold delayed, getSession, index, bind.
    rewrite Hs, Htest. simpl. eauto.
Qed.

(** A goroutine that wakes: it panics when the version of that moment has
    no dot, and sends its line when it has one. *)
Lemma woken_cases (ver sessionId token text : string) :
  (Contains ver "." = false -> woken ver sessionId token text = Panic "index out of range") /\
  (Contains ver "." = true -> exists out, woken ver sessionId token text = Ok out).
Proof.
  unfold woken. split; intros Hv.
  - now apply produceOutput_no_dot.
  - now apply produceOutput_dot.
Qed.

(** ** C10: a version without a dot *)

(** C10 (amended).  [produceOutput] returns no line when the version it
    reads has no dot: it panics on [tokens[1]], with no line and no
    diagnostic.  Take a filter line of six fields or more (so it passes the
    framing check of the loop) whose version field has no dot.  (1) In test
    mode, and at the data-line phase in every mode, the handler formats the
    response itself with the version of the line: the turn does not end
    normally, and when the phase is a filter phase, the session is in the
    store, the event has a token and there is a domain, it ends in that
    panic, not in [log.Fatal].  (2) Outside test mode the other filter
    phases hand the response to a goroutine: the turn ends normally, and
    the goroutine panics when the version it reads as it wakes has no dot,
    and sends the response when that version has one (a later line has
    been read by then). *)
Theorem C10_version_without_dot_panics (X : Extern) (cfg : Config) (E : Env)
    (line : string) (st : State) (ver a2 a3 phase sessionId : string)
    (params : list string) :
  Split line "|" = "filter" :: ver :: a2 :: a3 :: phase :: sessionId :: params ->
  Contains ver "." = false ->
  (forall st1 msgType sid token text,
     version st1 = ver ->
     produceOutput st1 msgType sid token text = Panic "index out of range") /\
  (testMode cfg = true \/ phase = "data-line" ->
   (forall st' es, handleLine X cfg E line st <> Ok (st', es)) /\
   (forall h s token rest,
      table_lookup (filters cfg) phase = Some h ->
      sessions st !! sessionId = Some s ->
      params = token :: rest ->
      domains cfg <> [] ->
      handleLine X cfg E line st = Panic "index out of range")) /\
  (testMode cfg = false -> phase <> "data-line" ->
   forall h s token rest,
     table_lookup (filters cfg) phase = Some h ->
     sessions st !! sessionId = Some s ->
     params = token :: rest ->
     domains cfg <> [] ->
     exists st' sl text,
       handleLine X cfg E line st = Ok (st', [Go sl sessionId token text]) /\
       woken ver sessionId token text = Panic "index out of range" /\
       (forall ver',
          Contains ver' "." = false ->
          woken ver' sessionId token text = Panic "index out of range") /\
       (forall ver',
          Contains ver' "." = true ->
          exists out, woken ver' sessionId token text = Ok out)).
Proof.
  intros Hsplit Hver. split; [| split].
  - intros st1 msgType sid token text <-. now apply produceOutput_no_dot.
  - intros Hmode. split.
    + intros st' es.
      rewrite (handleLine_filter X cfg E line st ver a2 a3 phase sessionId params Hsplit).
      destruct (table_lookup (filters cfg) phase) as [h|] eqn:Hh; [| discriminate].
      now apply (filters_no_dot cfg phase h).
    + intros h s token rest Hh Hs -> Hdom.
      rewrite (handleLine_filter X cfg E line st ver a2 a3 phase sessionId _ Hsplit), Hh.
      now apply (filters_no_dot_panic cfg phase h sessionId token rest _ s).
  - intros Htest Hp h s token rest Hh Hs -> Hdom.
    rewrite (handleLine_filter X cfg E line st ver a2 a3 phase sessionId _ Hsplit), Hh.
    destruct (filters_go cfg phase h sessionId token rest
                {| sessions := sessions st; version := ver |} s Hh Htest Hp Hs Hdom)
      as (st' & sl & text & ->).
    exists st', sl, text. split; [reflexivity |].
    split; [now apply woken_cases |].
    split; intros ver' Hv'; now apply woken_cases.
Qed.

Lemma C10_version_without_dot_panics_witness :
  handleLine ipv4_only test_config quiet_env
    "filter|1|0|smtp-in|helo|7641df9771b4ed00|1ef1c203cc576e5d|mail.example.org"
    state_4 = Panic "index out of range".
Proof.
  destruct (C10_version_without_dot_panics ipv4_only test_config quiet_env
              "filter|1|0|smtp-in|helo|7641df9771b4ed00|1ef1c203cc576e5d|mail.example.org"
              state_4 "1" "0" "smtp-in" "helo" "7641df9771b4ed00"
              ["1ef1c203cc576e5d"; "mail.example.org"]) as (_ & Hsync & _);
    [reflexivity | reflexivity |].
  destruct (Hsync ltac:(left; reflexivity)) as [_ Hpanic].
  apply (Hpanic (delayedAnswer test_config) session_4 "1ef1c203cc576e5d"
           ["mail.example.org"]); [reflexivity | reflexivity | reflexivity | discriminate].
Defined.

(** C10, as stated, fails outside test mode.  The session has a delay of
    250 ms.  Its helo event carries the version [1], without a dot: the
    handler starts the goroutine of the response and returns, and the loop
    reads the next line, whose version is [0.5].  The goroutine wakes after
    its sleep, reads that version and sends the response of the helo event:
    no panic, and a line for an event whose version field has no dot. *)
Lemma C10_counterexample_late_version :
  exists st',
    run ipv4_only two_lists_config
      [ (quiet_env,
         "filter|1|0|smtp-in|helo|7641df9771b4ed00|1ef1c203cc576e5d|mail.example.org");
        (quiet_env,
         "report|0.5|0|smtp-in|link-connect|a1b2c3d4e5f60718||pass|[::1]:33174|[::1]:25") ]
      busy_state =
    ([ [Go 250000000 "7641df9771b4ed00" "1ef1c203cc576e5d" "proceed"]; [] ], Ok st') /\
    Contains "1" "." = false /\
    version st' = "0.5" /\
    woken (version st') "7641df9771b4ed00" "1ef1c203cc576e5d" "proceed" =
    Ok "filter-result|7641df9771b4ed00|1ef1c203cc576e5d|proceed".
Proof. eexists. vm_compute. repeat split. Qed.

(** ** C8: the delay *)

Lemma int64_small (z : Z) : - 2 ^ 63 <= z <= 2 ^ 63 - 1 -> int64 z = z.
Proof. intros H. unfold int64. rewrite Z.mod_small; lia. Qed.

(** C8 (amended).  [filterConnect] stores the delay of the session and
    answers after it.  When the slow factor and the score are positive and
    their product fits the 64-bit [int], the delay is the floor of
    slowFactor * score / number of domains, in milliseconds; when the slow
    factor is not positive or the score is not positive (unknown included)
    it is 0.  The response of the connect event waits that long (as long as
    the delay in nanoseconds fits the 64-bit [time.Duration]), and so does
    the response of every later verdict phase of the session, which reads
    the stored delay. *)
Theorem C8_delay_formula (cfg : Config) (phase sessionId token : string)
    (rest : list string) (st : State) (s : session) :
  sessions st !! sessionId = Some s ->
  Contains (version st) "." = true ->
  domains cfg <> [] ->
  (0 < slowFactor cfg -> 0 < score s -> slowFactor cfg * score s <= 2 ^ 63 - 1) ->
  let d := if (0 <? slowFactor cfg) && (0 <? score s)
           then slowFactor cfg * score s / Z.of_nat (List.length (domains cfg))
           else 0 in
  (exists text out,
     filterConnect cfg phase sessionId (token :: rest) st =
     Ok (set_session st sessionId (with_delay s d),
         [response cfg (sleep_of d) sessionId token text out])) /\
  (d * 1000000 <= 2 ^ 63 - 1 -> sleep_of d = d * 1000000) /\
  (forall phase' token' rest',
     exists text' out',
       delayedAnswer cfg phase' sessionId (token' :: rest')
         (set_session st sessionId (with_delay s d)) =
       Ok (set_session st sessionId (with_delay s d),
           [response cfg (sleep_of d) sessionId token' text' out'])).
Proof.
  intros Hs Hv Hdom Hfit d.
  assert (Hlen : 0 < Z.of_nat (List.length (domains cfg))).
  { destruct (domains cfg); [contradiction | simpl; lia]. }
  assert (Hcd : connect_delay cfg s = Ok d /\ 0 <= d).
  { unfold connect_delay. subst d.
    destruct ((0 <? slowFactor cfg) && (0 <? score s)) eqn:Hc; [| split; [reflexivity | lia]].
    apply andb_true_iff in Hc as [Hf Hsc].
    apply Z.ltb_lt in Hf, Hsc.
    destruct (Nat.eqb (List.length (domains cfg)) 0) eqn:Hz.
    { apply Nat.eqb_eq in Hz. lia. }
    assert (Hp : 0 < slowFactor cfg * score s) by lia.
    rewrite int64_small by (specialize (Hfit Hf Hsc); lia).
    rewrite Z.quot_div_nonneg by lia.
    split; [reflexivity | apply Z.div_pos; lia]. }
  destruct Hcd as [Hcd Hd0].
  split; [| split].
  - destruct (filterConnect_returns cfg phase sessionId token rest st s d Hs Hcd Hv)
      as (out & _ & Hr).
    eexists _, out. exact Hr.
  - intros Hns. unfold sleep_of.
    destruct (0 <? d) eqn:Hpos; [| apply Z.ltb_ge in Hpos; lia].
    apply Z.ltb_lt in Hpos. rewrite int64_small by lia. lia.
  - intros phase' token' rest'.
    destruct (delayedAnswer_returns cfg phase' sessionId token' rest'
                (set_session st sessionId (with_delay s d)) (with_delay s d)
                (set_session_lookup _ _ _) Hv) as (out' & _ & Hr).
    eexists _, out'. exact Hr.
Qed.

Lemma C8_delay_formula_witness :
  exists out,
    filterConnect slow_config "connect" "7641df9771b4ed00" ["1ef1c203cc576e5d"] state_4 =
    Ok (set_session state_4 "7641df9771b4ed00" (with_delay session_4 1333),
        [Emit 1333000000 out]).
Proof.
  destruct (C8_delay_formula slow_config "connect" "7641df9771b4ed00" "1ef1c203cc576e5d"
              [] state_4 session_4) as [Hconnect _].
  - reflexivity.
  - reflexivity.
  - discriminate.
  - intros _ _. vm_compute. discriminate.
  - destruct Hconnect as (text & out & Hconnect). now exists out.
Defined.

(** C8, as stated, fails when slowFactor * score leaves the 64-bit [int]:
    with the slow factor 2^62, one domain and a session with score 2, the
    claim gives the delay 2^63, but the product wraps to -2^63, which is the
    delay [filterConnect] stores, and the response does not wait at all. *)
Lemma C8_counterexample_overflow :
  handleLine ipv4_only overflow_config quiet_env
    "filter|0.5|0|smtp-in|connect|7641df9771b4ed00|1ef1c203cc576e5d||pass|1.2.3.2:33174|1.1.1.1:25"
    (set_session empty_state "7641df9771b4ed00" (fresh_session 2)) =
  Ok ({| sessions :=
           {[ "7641df9771b4ed00" :=
                {| id := ""; score := 2; delay := -9223372036854775808;
                   first_line := true |} ]};
         version := "0.5" |},
      [Emit 0 "filter-result|7641df9771b4ed00|1ef1c203cc576e5d|proceed"]) /\
  -9223372036854775808 <> 4611686018427387904 * 2 / 1.
Proof. split; [vm_compute; reflexivity | vm_compute; discriminate]. Qed.

(** ** C4: the allowlist *)

(** The allowlist loop finds a probe that is in the allowlist, in whatever
    order the mask lengths are visited. *)
Lemma allowlisted_hit (X : Extern) (cfg : Config) (order : list Z) (addr : list Z) (n : Z) :
  In n order ->
  IP_String X (Mask addr (CIDRMask n 32)) +:+ "/" +:+ FormatInt n ∈ allowlist cfg ->
  allowlisted X cfg order addr = true.
Proof.
  intros Hin Hq. induction order as [|m order IH]; [contradiction |].
  simpl. destruct Hin as [-> | Hin].
  - now rewrite bool_decide_eq_true_2.
  - destruct (bool_decide _); [reflexivity | now apply IH].
Qed.

(** [if !m[k] { m[k] = true }]. *)
Lemma add_if_absent `{Countable A} (x : A) (S : gset A) :
  S ⊆ (if bool_decide (x ∈ S) then S else {[x]} ∪ S) /\
  x ∈ (if bool_decide (x ∈ S) then S else {[x]} ∪ S).
Proof. case_bool_decide; set_solver. Qed.

(** What [loadAllowlists] stores for a line, and that it only adds. *)
Lemma loadLine_adds (X : Extern) (acc acc' : gset string * gset Z) (line : string) :
  loadLine X acc line = Ok acc' ->
  acc.1 ⊆ acc'.1 /\ acc.2 ⊆ acc'.2 /\
  (forall subnet,
     subnet_of_line X line = Some subnet ->
     IPNet_String X subnet ∈ acc'.1 /\ Mask_Size (net_Mask subnet) ∈ acc'.2).
Proof.
  unfold loadLine, subnet_of_line, index, bind.
  destruct (Split line "#" !! 0%nat) as [text|]; [| discriminate].
  destruct (String.eqb (TrimSpace X text) "").
  { intros [= <-]. split; [reflexivity |]. split; [reflexivity | discriminate]. }
  destruct (ParseCIDR X _) as [subnet|]; [| discriminate].
  intros [= <-]. cbn [fst snd].
  destruct (add_if_absent (IPNet_String X subnet) acc.1) as [Hs1 Hs2].
  destruct (add_if_absent (Mask_Size (net_Mask subnet)) acc.2) as [Hm1 Hm2].
  split; [exact Hs1 |]. split; [exact Hm1 |].
  intros ? [= <-]. split; assumption.
Qed.

(** A file that opens and is read to its end is loaded by the loop. *)
Lemma loadAllowlists_opened (X : Extern) (lines : list string) :
  loadAllowlists X (Opened lines None) = loadLines X lines (∅, ∅).
Proof. unfold loadAllowlists, bind. now destruct (loadLines X lines (∅, ∅)). Qed.

Lemma loadLines_adds (X : Extern) (lines : list string) :
  forall acc acc',
    loadLines X lines acc = Ok acc' ->
    acc.1 ⊆ acc'.1 /\ acc.2 ⊆ acc'.2 /\
    (forall line subnet,
       In line lines ->
       subnet_of_line X line = Some subnet ->
       IPNet_String X subnet ∈ acc'.1 /\ Mask_Size (net_Mask subnet) ∈ acc'.2).
Proof.
  induction lines as [|l lines IH]; intros acc acc'; simpl.
  - intros [= <-]. split; [reflexivity |]. split; [reflexivity | contradiction].
  - unfold bind. destruct (loadLine X acc l) as [acc1| |] eqn:Hl; [| discriminate ..].
    intros Hrest.
    destruct (loadLine_adds X acc acc1 l Hl) as (H1 & H2 & Hline).
    destruct (IH acc1 acc' Hrest) as (H1' & H2' & Hlines).
    split; [now transitivity acc1.1 |]. split; [now transitivity acc1.2 |].
    intros line subnet [<- | Hin] Hsub.
    + destruct (Hline subnet Hsub) as [Ha Hb]. split.
      * apply H1'. exact Ha.
      * apply H2'. exact Hb.
    + exact (Hlines line subnet Hin Hsub).
Qed.

Lemma mask_lengths_forallb (P : Z -> bool) :
  forallb P mask_lengths = true -> forall n, 0 <= n <= 32 -> P n = true.
Proof.
  intros H n [Hlo Hhi].
  rewrite forallb_forall in H. apply H.
  unfold mask_lengths. apply in_map_iff. exists (Z.to_nat n). split.
  - apply Z2Nat.id. exact Hlo.
  - apply in_seq. lia.
Qed.

Lemma cidr_mask_ok_all : forallb cidr_mask_ok mask_lengths = true.
Proof. vm_compute. reflexivity. Qed.

Lemma CIDRMask_32 (n : Z) :
  0 <= n <= 32 ->
  List.length (CIDRMask n 32) = 4%nat /\ simpleMaskLength (CIDRMask n 32) = n.
Proof.
  intros Hn. pose proof (mask_lengths_forallb _ cidr_mask_ok_all n Hn) as H.
  unfold cidr_mask_ok in H. apply andb_true_iff in H as [Hl Hs].
  split; [now apply Nat.eqb_eq | now apply Z.eqb_eq].
Qed.

Lemma CIDRMask_bytes_length (l : nat) : forall n, List.length (CIDRMask_bytes l n) = l.
Proof.
  induction l as [|l IH]; intros n; simpl; [reflexivity |].
  destruct (8 <=? n); simpl; now rewrite IH.
Qed.

Lemma CIDRMask_128_length (n : Z) : List.length (CIDRMask n 128) <> 4%nat.
Proof.
  unfold CIDRMask.
  change (negb (128 =? 32) && negb (128 =? 128)) with false. cbv iota.
  destruct ((n <? 0) || (128 <? n)); [discriminate |].
  rewrite CIDRMask_bytes_length. discriminate.
Qed.

(** A subnet that [net.ParseCIDR] returns with a four-byte mask was written
    in IPv4 notation: four octets and a length between 0 and 32. *)
Lemma ParseCIDR_v4 (X : Extern) (text : string) (subnet : IPNet) :
  ParseCIDR X text = Some subnet ->
  List.length (net_Mask subnet) = 4%nat ->
  exists f0 f1 f2 f3 n,
    0 <= n <= 32 /\
    subnet = {| net_IP := Mask (v4InV6Prefix ++ [f0; f1; f2; f3]) (CIDRMask n 32);
                net_Mask := CIDRMask n 32 |}.
Proof.
  unfold ParseCIDR.
  destruct (Cut text "/") as [[addr mask]|]; [| discriminate].
  destruct (ParseAddr X addr) as [ipAddr|] eqn:Ha; [| discriminate].
  destruct (dtoi mask) as [[n i] ok].
  destruct (negb ok || negb (i =? Z.of_nat (String.length mask)) || (n <? 0)
            || (BitLen ipAddr <? n)) eqn:Hc; [discriminate |].
  intros [= <-]. simpl. intros Hlen.
  apply orb_false_iff in Hc as [Hc Hhi].
  apply orb_false_iff in Hc as [_ Hlo].
  apply Z.ltb_ge in Hlo, Hhi.
  destruct ipAddr as [fields | bytes]; simpl in *.
  - unfold ParseAddr in Ha.
    destruct (first_mark addr) as [m|]; [| discriminate].
    destruct (Ascii.eqb m ".").
    + unfold parseIPv4 in Ha.
      destruct (parseIPv4Fields addr true false 0 0 []) as [f|] eqn:Hf; [| discriminate].
      injection Ha as ->.
      assert (Hnil : (List.length (@nil Z) <= 3)%nat) by (simpl; lia).
      destruct (parseIPv4Fields_shape _ _ _ _ _ _ _ Hnil (Forall_nil_2 _) Hf) as [Hl Hb].
      destruct (four_octets fields Hl Hb) as (f0 & f1 & f2 & f3 & -> & _).
      exists f0, f1, f2, f3, n. split; [lia | reflexivity].
    + destruct (Ascii.eqb m ":"); [| discriminate].
      destruct (parseIPv6 X addr); discriminate.
  - now apply CIDRMask_128_length in Hlen.
Qed.

(** Such a subnet is stored under the text of its network number and its
    length, and its length is among the mask lengths. *)
Lemma Mask_v4 (f0 f1 f2 f3 m0 m1 m2 m3 : Z) :
  Mask (v4InV6Prefix ++ [f0; f1; f2; f3]) [m0; m1; m2; m3] =
  [Z.land f0 m0; Z.land f1 m1; Z.land f2 m2; Z.land f3 m3].
Proof. reflexivity. Qed.

Lemma IPNet_String_v4 (X : Extern) (f0 f1 f2 f3 n : Z) :
  0 <= n <= 32 ->
  let subnet := {| net_IP := Mask (v4InV6Prefix ++ [f0; f1; f2; f3]) (CIDRMask n 32);
                   net_Mask := CIDRMask n 32 |} in
  IPNet_String X subnet = IP_String X (net_IP subnet) +:+ "/" +:+ FormatInt n /\
  Mask_Size (net_Mask subnet) = n.
Proof.
  intros Hn subnet. subst subnet. cbn [net_IP net_Mask].
  destruct (CIDRMask_32 n Hn) as [Hl Hs].
  unfold Mask_Size, IPNet_String, networkNumberAndMask. cbn [net_IP net_Mask].
  destruct (CIDRMask n 32) as [|m0 [|m1 [|m2 [|m3 [|m4 ms]]]]]; try discriminate.
  rewrite Mask_v4. cbn -[simpleMaskLength FormatInt IP_String]. rewrite Hs.
  destruct (n =? -1) eqn:Hneg; [apply Z.eqb_eq in Hneg; lia |].
  split; reflexivity.
Qed.

Lemma subnet_of_line_parsed (X : Extern) (line : string) (subnet : IPNet) :
  subnet_of_line X line = Some subnet -> exists text, ParseCIDR X text = Some subnet.
Proof.
  unfold subnet_of_line.
  destruct (Split line "#" !! 0%nat) as [text|]; [| discriminate].
  destruct (String.eqb (TrimSpace X text) ""); [discriminate |].
  eauto.
Qed.

(** C4 (amended).  Let the allowlist be loaded from the lines of the
    allowlist file, and let one of the lines stand for a subnet in IPv4
    notation (its mask has four bytes).  For every IPv4 connecting address
    [a.b.c.d] which, masked with the mask of that subnet, is the network
    number of the subnet, [linkConnect] stores the score 0 and has no effect
    on the outside (no lookup), whatever the resolver would answer, in test
    mode or not, and in whatever order the loop visits the mask lengths. *)
Theorem C4_allowlisted_scores_zero (X : Extern) (cfg : Config) (E : Env)
    (lines : list string) (line : string) (subnet : IPNet)
    (phase sessionId p0 p1 p3 port : string) (st : State) (a b c d : Z) :
  loadAllowlists X (Opened lines None) = Ok (allowlist cfg, allowlistMasks cfg) ->
  In line lines ->
  subnet_of_line X line = Some subnet ->
  List.length (net_Mask subnet) = 4%nat ->
  is_byte a -> is_byte b -> is_byte c -> is_byte d ->
  Mask (v4InV6Prefix ++ [a; b; c; d]) (net_Mask subnet) = net_IP subnet ->
  rangeMasks E ≡ₚ elements (allowlistMasks cfg) ->
  linkConnect X cfg E phase sessionId [p0; p1; dotted4 a b c d +:+ ":" +:+ port; p3] st =
  Ok (set_session st sessionId (fresh_session 0), []).
Proof.
  intros Hload Hin Hsub Hlen Ha Hb Hc Hd Hmatch Horder.
  rewrite loadAllowlists_opened in Hload.
  destruct (loadLines_adds X lines (∅, ∅) _ Hload) as (_ & _ & Hstored).
  destruct (Hstored line subnet Hin Hsub) as [Hal Hmasks]. cbn [fst snd] in Hal, Hmasks.
  destruct (subnet_of_line_parsed X line subnet Hsub) as [text Hparse].
  destruct (ParseCIDR_v4 X text subnet Hparse Hlen) as (f0 & f1 & f2 & f3 & n & Hn & ->).
  destruct (IPNet_String_v4 X f0 f1 f2 f3 n Hn) as [Hstr Hsize].
  cbn [net_IP net_Mask] in *.
  rewrite Hstr in Hal. rewrite Hsize in Hmasks. rewrite <- Hmatch in Hal.
  assert (Hvisit : In n (rangeMasks E)).
  { apply list_elem_of_In. rewrite Horder. now apply elem_of_elements. }
  rewrite (linkConnect_octets X cfg E phase sessionId p0 p1 _ p3 (dotted4 a b c d)
             st a b c d);
    [| now apply host_of_address | now apply ParseIP_dotted4 | assumption ..].
  unfold score_of_octets.
  now rewrite (allowlisted_hit X cfg (rangeMasks E) _ n Hvisit Hal).
Qed.

Lemma C4_allowlisted_scores_zero_witness :
  linkConnect ipv4_only office_config hostile_env "link-connect" "7641df9771b4ed00"
    [""; "pass"; dotted4 1 2 3 77 +:+ ":" +:+ "33174"; "1.1.1.1:25"] empty_state =
  Ok (set_session empty_state "7641df9771b4ed00" (fresh_session 0), []).
Proof.
  apply (C4_allowlisted_scores_zero ipv4_only office_config hostile_env office_lines
           "1.2.3.0/24#lan"
           {| net_IP := [1; 2; 3; 0]; net_Mask := [255; 255; 255; 0] |}
           "link-connect" "7641df9771b4ed00" "" "pass" "1.1.1.1:25" "33174"
           empty_state 1 2 3 77).
  - vm_compute. reflexivity.
  - simpl. auto.
  - vm_compute. reflexivity.
  - reflexivity.
  - unfold is_byte. lia.
  - unfold is_byte. lia.
  - unfold is_byte. lia.
  - unfold is_byte. lia.
  - vm_compute. reflexivity.
  - reflexivity.
Defined.

(** C4, as stated, fails for IPv6.  The allowlist file holds the prefix
    2001:db8::/32, which [loadAllowlists] accepts and stores; the peer
    2001:db8::1, masked to the 32 bits of the prefix, is the prefix; the
    session of that peer, whose address the event carries as
    [[2001:db8::1]:33174], gets the unknown score -1, not 0: [linkConnect]
    returns before the allowlist loop for every address that is not IPv4. *)
Lemma C4_counterexample_ipv6_allowlisted :
  loadAllowlists ipv6_documentation (Opened ["2001:db8::/32"] None) =
    Ok (allowlist ipv6_config, allowlistMasks ipv6_config) /\
  subnet_of_line ipv6_documentation "2001:db8::/32" =
    Some {| net_IP := doc_prefix; net_Mask := CIDRMask 32 128 |} /\
  parseIPv6 ipv6_documentation "2001:db8::1" = Some doc_host /\
  Mask doc_host (CIDRMask 32 128) = doc_prefix /\
  handleLine ipv6_documentation ipv6_config
    {| rangeMasks := [32]; LookupIP := fun _ => false |}
    "report|0.5|0|smtp-in|link-connect|7641df9771b4ed00||pass|[2001:db8::1]:33174|[2001:db8::2]:25"
    empty_state =
  Ok ({| sessions := {[ "7641df9771b4ed00" := fresh_session (-1) ]}; version := "0.5" |},
      []).
Proof. vm_compute. repeat split. Qed.

(** ** The scores in the store are [int8] values *)

Lemma score_of_octets_range (X : Extern) (cfg : Config) (E : Env) (a b c d : Z) :
  is_byte d -> -128 <= (score_of_octets X cfg E a b c d).1 <= 127.
Proof.
  intros [Hlo Hhi]. unfold score_of_octets.
  destruct (allowlisted X cfg (rangeMasks E) _); [simpl; lia |].
  destruct (testMode cfg); simpl.
  - destruct (d =? 255); lia.
  - apply int8_range.
Qed.

Lemma linkConnect_score_range (X : Extern) (cfg : Config) (E : Env)
    (phase sessionId : string) (params : list string) (st st' : State) (es : list effect) :
  linkConnect X cfg E phase sessionId params st = Ok (st', es) ->
  exists sc, st' = set_session st sessionId (fresh_session sc) /\ -128 <= sc <= 127.
Proof.
  intros Hr.
  destruct (Nat.eqb (List.length params) 4) eqn:Hlen.
  2: { unfold linkConnect in Hr. rewrite Hlen in Hr. discriminate. }
  apply Nat.eqb_eq in Hlen.
  destruct params as [|p0 [|p1 [|p2 [|p3 [|p4 params]]]]]; try discriminate.
  destruct (Split_first_some p2 ":") as [host Hhost].
  destruct (ParseIP X host) as [addr|] eqn:Hparse.
  - destruct (ParseIP_no_colon X host addr (Split_first_no_sep _ _ _ Hhost) Hparse)
      as (a & b & c & d & -> & Ha & Hb & Hc & Hd).
    rewrite (linkConnect_octets X cfg E phase sessionId p0 p1 p2 p3 host st a b c d
               Hhost Hparse Ha Hb Hc Hd) in Hr.
    injection Hr as <- _. eexists. split; [reflexivity |].
    now apply score_of_octets_range.
  - rewrite (linkConnect_unparsed X cfg E phase sessionId p0 p1 p2 p3 host st Hhost Hparse)
      in Hr.
    injection Hr as <- _. exists (-1). split; [reflexivity | lia].
Qed.

Lemma state_ok_set_session (st : State) (k : string) (s : session) :
  state_ok st -> -128 <= score s <= 127 -> state_ok (set_session st k s).
Proof.
  intros Hst Hs k' s'. destruct (decide (k = k')) as [<- | Hne].
  - rewrite set_session_lookup. now intros [= <-].
  - rewrite set_session_lookup_ne by exact Hne. apply Hst.
Qed.

Lemma state_ok_scores (st st' : State) :
  state_ok st ->
  (forall k, score <$> sessions st' !! k = score <$> sessions st !! k) ->
  state_ok st'.
Proof.
  intros Hst Heq k s' Hs'. specialize (Heq k). rewrite Hs' in Heq. simpl in Heq.
  destruct (sessions st !! k) as [s|] eqn:Hs; [| discriminate].
  injection Heq as ->. exact (Hst k s Hs).
Qed.

(** Every turn of the loop keeps the scores in the range of [int8]. *)
Lemma handleLine_state_ok (X : Extern) (cfg : Config) (E : Env) (line : string)
    (st st' : State) (es : list effect) :
  state_ok st ->
  handleLine X cfg E line st = Ok (st', es) ->
  state_ok st'.
Proof.
  intros Hst. unfold handleLine, trigger, bind.
  destruct (Nat.ltb (List.length (Split line "|")) 6); [discriminate |].
  destruct (index (Split line "|") 1) as [a1| |]; [| discriminate ..].
  destruct (index (Split line "|") 0) as [a0| |]; [| discriminate ..].
  set (st1 := {| sessions := sessions st; version := a1 |}).
  assert (Hst1 : state_ok st1) by exact Hst.
  destruct (String.eqb a0 "report").
  - destruct (index (Split line "|") 4) as [a4| |]; [| discriminate ..].
    unfold reporters, table_lookup. destruct (String.eqb "link-connect" a4).
    + destruct (index (Split line "|") 5) as [a5| |]; [| discriminate ..].
      intros Hr. apply linkConnect_score_range in Hr as (sc & -> & Hsc).
      now apply state_ok_set_session.
    + destruct (String.eqb "link-disconnect" a4); [| discriminate].
      destruct (index (Split line "|") 5) as [a5| |]; [| discriminate ..].
      unfold linkDisconnect.
      destruct (negb (Nat.eqb (List.length (drop 6 (Split line "|"))) 0)); [discriminate |].
      intros [= <- _] k s. simpl.
      destruct (decide (a5 = k)) as [<- | Hne].
      * now rewrite lookup_delete_eq.
      * rewrite lookup_delete_ne by exact Hne. apply Hst.
  - destruct (String.eqb a0 "filter"); [| discriminate].
    destruct (index (Split line "|") 4) as [a4| |]; [| discriminate ..].
    destruct (table_lookup (filters cfg) a4) as [h|] eqn:Hh; [| discriminate].
    destruct (index (Split line "|") 5) as [a5| |]; [| discriminate ..].
    intros Hr. apply (state_ok_scores st1 st' Hst1).
    exact (filters_keep_score cfg a4 h a5 _ st1 st' es Hh Hr).
Qed.

Lemma run_state_ok (X : Extern) (cfg : Config) (events : list (Env * string)) :
  forall st ess st',
    state_ok st ->
    run X cfg events st = (ess, Ok st') ->
    state_ok st'.
Proof.
  induction events as [|[E line] events IH]; intros st ess st' Hst; simpl.
  - now intros [= _ <-].
  - destruct (handleLine X cfg E line st) as [[st1 es]| |] eqn:Hl; [| discriminate ..].
    destruct (run X cfg events st1) as [ess1 r] eqn:Hrun.
    intros [= _ ->].
    exact (IH st1 ess1 st' (handleLine_state_ok X cfg E line st st1 es Hst Hl) Hrun).
Qed.

(** ** The tests of the repository *)

(** [-junkAbove 1] and a connection from 1.2.3.4: junk. *)
Example test_junk_non_reputable :
  (run ipv4_only test_config
     [ (quiet_env,
        "report|0.5|0|smtp-in|link-connect|7641df9771b4ed00||pass|1.2.3.4:33174|1.1.1.1:25");
       (quiet_env,
        "filter|0.5|0|smtp-in|connect|7641df9771b4ed00|1ef1c203cc576e5d||pass|1.2.3.4:33174|1.1.1.1:25") ]
     empty_state).1 =
  [ []; [Emit 0 "filter-result|7641df9771b4ed00|1ef1c203cc576e5d|junk"] ].
Proof. vm_compute. reflexivity. Qed.

(** [-junkAbove 1] and a connection from 1.2.3.0: proceed. *)
Example test_junk_reputable :
  (run ipv4_only test_config
     [ (quiet_env,
        "report|0.5|0|smtp-in|link-connect|7641df9771b4ed00||pass|1.2.3.0:33174|1.1.1.1:25");
       (quiet_env,
        "filter|0.5|0|smtp-in|connect|7641df9771b4ed00|1ef1c203cc576e5d||pass|1.2.3.0:33174|1.1.1.1:25") ]
     empty_state).1 =
  [ []; [Emit 0 "filter-result|7641df9771b4ed00|1ef1c203cc576e5d|proceed"] ].
Proof. vm_compute. reflexivity. Qed.


(** Why C4 speaks of subnets in IPv4 notation.  [net.ParseCIDR] also accepts
    an IPv4 subnet written as an IPv4-mapped IPv6 prefix, here
    [::ffff:1.2.3.0/120]: [loadAllowlists] stores its text [1.2.3.0/24], but
    the mask length it records is 120, so the loop of [linkConnect] never
    probes the length 24 and the peer 1.2.3.4 is scored like any other. *)
Example mapped_prefix_is_not_probed :
  let X := {| parseIPv6 := fun s =>
                if String.eqb s "::ffff:1.2.3.0" then Some (v4InV6Prefix ++ [1; 2; 3; 0])
                else None;
              addr6String := fun _ => "";
              TrimSpace := fun s => s |} in
  let cfg := {| domains := ["dnsbl.example.org"];
                blockAbove := -1;
                blockPhase := "connect";
                junkAbove := -1;
                slowFactor := -1;
                scoreHeader := false;
                testMode := true;
                allowlist := {[ "1.2.3.0/24" ]};
                allowlistMasks := {[ 120 ]} |} in
  loadAllowlists X (Opened ["::ffff:1.2.3.0/120"] None) = Ok (allowlist cfg, allowlistMasks cfg) /\
  allowlisted X cfg (elements (allowlistMasks cfg)) (v4InV6Prefix ++ [1; 2; 3; 4]) = false.
Proof. vm_compute. split; reflexivity. Qed.

(** ** The checks of [main] *)

(** The loop only runs with a domain to divide by, and the block phase is
    never the data-line phase. *)
Lemma check_flags_ok (cfg : Config) :
  check_flags cfg = Ok tt ->
  domains cfg <> [] /\ blockPhase cfg <> "data-line".
Proof.
  unfold check_flags, validatePhase.
  destruct (domains cfg) as [|dom doms]; [discriminate |]. simpl.
  intros H. split; [discriminate |].
  intros Hp. rewrite Hp in H. discriminate H.
Qed.

(** * Further properties of the handlers and of the loop *)

(** ** The turns of the loop *)

(** A turn that ends normally read a line of six fields or more and ran the
    handler its stream and its phase select, on the state that holds the
    version of the line. *)
Lemma handleLine_inv (X : Extern) (cfg : Config) (E : Env) (line : string)
    (st st' : State) (es : list effect) :
  handleLine X cfg E line st = Ok (st', es) ->
  exists stream ver a2 a3 phase sid params h,
    Split line "|" = stream :: ver :: a2 :: a3 :: phase :: sid :: params /\
    ((stream = "report" /\ table_lookup (reporters X cfg E) phase = Some h) \/
     (stream = "filter" /\ table_lookup (filters cfg) phase = Some h)) /\
    h phase sid params {| sessions := sessions st; version := ver |} = Ok (st', es).
Proof.
  unfold handleLine, trigger, index, bind.
  destruct (Split line "|") as [|a0 [|a1 [|a2 [|a3 [|a4 [|a5 params]]]]]];
    try discriminate.
  cbn -[table_lookup reporters filters String.eqb].
  destruct (String.eqb a0 "report") eqn:Hr.
  - apply String.eqb_eq in Hr. subst a0.
    destruct (table_lookup (reporters X cfg E) a4) as [h|] eqn:Hh; [| discriminate].
    intros H. exists "report", a1, a2, a3, a4, a5, params, h.
    split; [reflexivity |]. split; [left; split; [reflexivity | exact Hh] | exact H].
  - destruct (String.eqb a0 "filter") eqn:Hf; [| discriminate].
    apply String.eqb_eq in Hf. subst a0.
    destruct (table_lookup (filters cfg) a4) as [h|] eqn:Hh; [| discriminate].
    intros H. exists "filter", a1, a2, a3, a4, a5, params, h.
    split; [reflexivity |]. split; [right; split; [reflexivity | exact Hh] | exact H].
Qed.

Lemma reporters_cases (X : Extern) (cfg : Config) (E : Env) (phase : string) (h : handler) :
  table_lookup (reporters X cfg E) phase = Some h ->
  (phase = "link-connect" /\ h = linkConnect X cfg E) \/
  (phase = "link-disconnect" /\ h = linkDisconnect).
Proof.
  unfold reporters, table_lookup.
  destruct (String.eqb "link-connect" phase) eqn:H1.
  - apply String.eqb_eq in H1. intros [= <-]. left. now split.
  - destruct (String.eqb "link-disconnect" phase) eqn:H2; [| discriminate].
    apply String.eqb_eq in H2. intros [= <-]. right. now split.
Qed.

(** What [linkConnect] does to the outside is DNS queries only. *)
Lemma linkConnect_effects (X : Extern) (cfg : Config) (E : Env)
    (phase sessionId : string) (params : list string) (st st' : State) (es : list effect) :
  linkConnect X cfg E phase sessionId params st = Ok (st', es) ->
  forallb is_resolve es = true.
Proof.
  intros Hr.
  destruct (Nat.eqb (List.length params) 4) eqn:Hlen.
  2: { unfold linkConnect in Hr. rewrite Hlen in Hr. discriminate. }
  apply Nat.eqb_eq in Hlen.
  destruct params as [|p0 [|p1 [|p2 [|p3 [|p4 params]]]]]; try discriminate.
  destruct (Split_first_some p2 ":") as [host Hhost].
  destruct (ParseIP X host) as [addr|] eqn:Hparse.
  - destruct (ParseIP_no_colon X host addr (Split_first_no_sep _ _ _ Hhost) Hparse)
      as (a & b & c & d & -> & Ha & Hb & Hc & Hd).
    rewrite (linkConnect_octets X cfg E phase sessionId p0 p1 p2 p3 host st a b c d
               Hhost Hparse Ha Hb Hc Hd) in Hr.
    injection Hr as _ <-. unfold score_of_octets.
    destruct (allowlisted X cfg (rangeMasks E) _); [reflexivity |].
    destruct (testMode cfg); [reflexivity |]. simpl.
    induction (dnsbl_queries cfg _ _ _ _) as [|q qs IH]; [reflexivity | exact IH].
  - rewrite (linkConnect_unparsed X cfg E phase sessionId p0 p1 p2 p3 host st Hhost Hparse)
      in Hr.
    now injection Hr as _ <-.
Qed.

(** A filter handler changes no session but the one of the event. *)
Lemma filters_touch_own_session (cfg : Config) (phase : string) (h : handler)
    (sessionId : string) (params : list string) (st st' : State) (es : list effect) :
  table_lookup (filters cfg) phase = Some h ->
  h phase sessionId params st = Ok (st', es) ->
  version st' = version st /\
  forall k, k <> sessionId -> sessions st' !! k = sessions st !! k.
Proof.
  intros Hh Hr.
  destruct (filters_cases cfg phase h Hh) as [[_ ->] | [[_ ->] | (_ & _ & ->)]].
  - unfold filterConnect, getSession, bind in Hr.
    destruct (sessions st !! sessionId) as [s|] eqn:Hs; [| discriminate].
    pose proof (filterConnect_eq cfg phase sessionId params st s Hs) as E.
    unfold filterConnect, getSession, bind in E. rewrite Hs in E. rewrite E in Hr.
    clear E. destruct (connect_delay cfg s) as [d| |]; [| discriminate ..].
    simpl in Hr.
    apply delayed_inv in Hr as (_ & _ & _ & _ & _ & _ & -> & _).
    split; [reflexivity |]. intros k Hk. apply set_session_lookup_ne. congruence.
  - apply dataline_state in Hr as (s & Hs & ->).
    destruct (first_line s); [| now split].
    split; [reflexivity |]. intros k Hk. apply set_session_lookup_ne. congruence.
  - unfold delayedAnswer, getSession, bind in Hr.
    destruct (sessions st !! sessionId) as [s|]; [| discriminate].
    destruct (negb (score s =? -1) && (0 <=? int8 (blockAbove cfg))
              && (int8 (blockAbove cfg) <? score s) && String.eqb (blockPhase cfg) phase);
      apply delayed_inv in Hr as (_ & _ & _ & _ & _ & _ & -> & _); now split.
Qed.

(** X1.  A turn of the loop that ends normally changes no session but the one
    whose id is the sixth field of the line, and the version it leaves is the
    second field of the line. *)
Theorem X1_turn_touches_one_session (X : Extern) (cfg : Config) (E : Env) (line : string)
    (st st' : State) (es : list effect) :
  handleLine X cfg E line st = Ok (st', es) ->
  version st' = field 1 line /\
  forall k, k <> field 5 line -> sessions st' !! k = sessions st !! k.
Proof.
  intros H.
  apply handleLine_inv in H
    as (stream & ver & a2 & a3 & phase & sid & params & h & Hs & Hh & Hr).
  unfold field. rewrite Hs. cbn [nth].
  destruct Hh as [[_ Hh] | [_ Hh]].
  - destruct (reporters_cases X cfg E phase h Hh) as [[_ ->] | [_ ->]].
    + apply linkConnect_score_range in Hr as (sc & -> & _).
      split; [reflexivity |]. intros k Hk.
      rewrite set_session_lookup_ne by congruence. reflexivity.
    + unfold linkDisconnect in Hr.
      destruct (negb (Nat.eqb (List.length params) 0)); [discriminate |].
      injection Hr as <- _. split; [reflexivity |]. intros k Hk. simpl.
      apply lookup_delete_ne. congruence.
  - destruct (filters_touch_own_session cfg phase h sid params _ st' es Hh Hr) as [Hv Hk].
    split; [exact Hv |]. intros k Hne. now rewrite (Hk k Hne).
Qed.

Lemma X1_turn_touches_one_session_witness :
  version
    (set_session {| sessions := sessions busy_state; version := "0.5" |}
       "a1b2c3d4e5f60718" (fresh_session 9)) = "0.5" /\
  sessions
    (set_session {| sessions := sessions busy_state; version := "0.5" |}
       "a1b2c3d4e5f60718" (fresh_session 9)) !! "7641df9771b4ed00" =
  sessions busy_state !! "7641df9771b4ed00".
Proof.
  destruct (X1_turn_touches_one_session ipv4_only test_config quiet_env
              "report|0.5|0|smtp-in|link-connect|a1b2c3d4e5f60718||pass|1.2.3.9:33174|1.1.1.1:25"
              busy_state
              (set_session {| sessions := sessions busy_state; version := "0.5" |}
                 "a1b2c3d4e5f60718" (fresh_session 9))
              []) as [Hv Hk].
  - vm_compute. reflexivity.
  - split; [exact Hv |]. apply Hk. vm_compute. discriminate.
Defined.

(** X2.  A filter event never creates or removes a session and never changes
    a score: after a turn of the loop on a filter line, the store has the
    ids it had and every session has the score it had. *)
Theorem X2_filter_turn_keeps_scores (X : Extern) (cfg : Config) (E : Env) (line : string)
    (st st' : State) (es : list effect) :
  handleLine X cfg E line st = Ok (st', es) ->
  field 0 line = "filter" ->
  dom (sessions st') = dom (sessions st) /\
  forall k, score <$> sessions st' !! k = score <$> sessions st !! k.
Proof.
  intros H Hf.
  apply handleLine_inv in H
    as (stream & ver & a2 & a3 & phase & sid & params & h & Hs & Hh & Hr).
  unfold field in Hf. rewrite Hs in Hf. cbn [nth] in Hf. subst stream.
  destruct Hh as [[Hne _] | [_ Hh]]; [discriminate |].
  pose proof (filters_keep_score cfg phase h sid params _ st' es Hh Hr) as Hk.
  cbn [sessions] in Hk. split; [| exact Hk].
  apply set_eq. intros k. rewrite !elem_of_dom. specialize (Hk k).
  destruct (sessions st' !! k), (sessions st !! k); simpl in Hk;
    try discriminate; split; intros [? ?]; try discriminate; eauto.
Qed.

Lemma X2_filter_turn_keeps_scores_witness :
  dom (sessions (set_session state_4 "7641df9771b4ed00" (with_first_line session_4 false)))
  = dom (sessions state_4) /\
  forall k,
    score <$> sessions (set_session state_4 "7641df9771b4ed00"
                          (with_first_line session_4 false)) !! k =
    score <$> sessions state_4 !! k.
Proof.
  apply (X2_filter_turn_keeps_scores ipv4_only header_config quiet_env
           "filter|0.5|0|smtp-in|data-line|7641df9771b4ed00|1ef1c203cc576e5d|Subject: hello"
           state_4 _
           [Emit 0 "filter-dataline|7641df9771b4ed00|1ef1c203cc576e5d|X-DNSBL-Score: 4";
            Emit 0 "filter-dataline|7641df9771b4ed00|1ef1c203cc576e5d|Subject: hello"]).
  - vm_compute. reflexivity.
  - reflexivity.
Defined.





(** What [dataline] prints is one or two response lines. *)
Lemma dataline_effects (cfg : Config) (phase sessionId : string) (params : list string)
    (st st' : State) (es : list effect) :
  dataline cfg phase sessionId params st = Ok (st', es) ->
  forallb is_response es = true /\ (List.length es = 1%nat \/ List.length es = 2%nat).
Proof.
  unfold dataline, getSession, index, bind.
  destruct (sessions st !! sessionId) as [s|]; [| discriminate].
  destruct (params !! 0%nat) as [token|]; [| discriminate].
  intros Hr.
  destruct (first_line s); [destruct (negb (score s =? -1) && scoreHeader cfg) |];
    simpl in Hr;
    repeat (match type of Hr with
            | context [produceOutput ?a ?b ?c ?d ?e] =>
                destruct (produceOutput a b c d e) as [?o| |]; simpl in Hr
            end);
    try discriminate Hr;
    injection Hr as _ <-; simpl; auto.
Qed.

(** X4.  A report event never produces a response, and a filter event
    never makes a DNS query: the effects of a turn on a report line are
    queries only, and the effects of a turn on a filter line are one
    response (a line, or the goroutine that will write it), or one or two
    for the data-line phase. *)
Theorem X4_reports_are_silent (X : Extern) (cfg : Config) (E : Env) (line : string)
    (st st' : State) (es : list effect) :
  handleLine X cfg E line st = Ok (st', es) ->
  (field 0 line = "report" /\ forallb is_resolve es = true) \/
  (field 0 line = "filter" /\ forallb is_response es = true /\
   (List.length es = 1%nat \/ (field 4 line = "data-line" /\ List.length es = 2%nat))).
Proof.
  intros H.
  apply handleLine_inv in H
    as (stream & ver & a2 & a3 & phase & sid & params & h & Hs & Hh & Hr).
  unfold field. rewrite Hs. cbn [nth].
  destruct Hh as [[-> Hh] | [-> Hh]].
  - left. split; [reflexivity |].
    destruct (reporters_cases X cfg E phase h Hh) as [[_ ->] | [_ ->]].
    + exact (linkConnect_effects X cfg E phase sid params _ st' es Hr).
    + unfold linkDisconnect in Hr.
      destruct (negb (Nat.eqb (List.length params) 0)); [discriminate |].
      now injection Hr as _ <-.
  - right. split; [reflexivity |].
    set (st1 := {| sessions := sessions st; version := ver |}) in *.
    destruct (filters_cases cfg phase h Hh) as [[_ ->] | [[-> ->] | (_ & _ & ->)]].
    + unfold filterConnect, getSession, bind in Hr.
      destruct (sessions st1 !! sid) as [s|] eqn:Hsess; [| discriminate].
      pose proof (filterConnect_eq cfg phase sid params st1 s Hsess) as Eq.
      unfold filterConnect, getSession, bind in Eq. rewrite Hsess in Eq.
      rewrite Eq in Hr. clear Eq.
      destruct (connect_delay cfg s) as [d| |]; [| discriminate ..]. simpl in Hr.
      apply delayed_inv in Hr as (s' & tok & out & _ & _ & _ & _ & ->).
      unfold response. destruct (testMode cfg); simpl; auto.
    + destruct (dataline_effects cfg "data-line" sid params st1 st' es Hr) as [He [Hl | Hl]];
        auto.
    + unfold delayedAnswer, getSession, bind in Hr.
      destruct (sessions st1 !! sid) as [s|]; [| discriminate].
      destruct (negb (score s =? -1) && (0 <=? int8 (blockAbove cfg))
                && (int8 (blockAbove cfg) <? score s) && String.eqb (blockPhase cfg) phase);
        apply delayed_inv in Hr as (s' & tok & out & _ & _ & _ & _ & ->);
        unfold response; destruct (testMode cfg); simpl; auto.
Qed.

Lemma X4_reports_are_silent_witness :
  (field 0 "report|0.5|0|smtp-in|link-connect|7641df9771b4ed00||pass|1.2.3.4:33174|1.1.1.1:25"
   = "report" /\
   forallb is_resolve
     [Resolve "4.3.2.1.zen.example.org"; Resolve "4.3.2.1.bl.example.net"] = true) \/
  (field 0 "report|0.5|0|smtp-in|link-connect|7641df9771b4ed00||pass|1.2.3.4:33174|1.1.1.1:25"
   = "filter" /\
   forallb is_response
     [Resolve "4.3.2.1.zen.example.org"; Resolve "4.3.2.1.bl.example.net"] = true /\
   (List.length [Resolve "4.3.2.1.zen.example.org"; Resolve "4.3.2.1.bl.example.net"]
    = 1%nat \/
    (field 4 "report|0.5|0|smtp-in|link-connect|7641df9771b4ed00||pass|1.2.3.4:33174|1.1.1.1:25"
     = "data-line" /\
     List.length [Resolve "4.3.2.1.zen.example.org"; Resolve "4.3.2.1.bl.example.net"]
     = 2%nat))).
Proof.
  apply (X4_reports_are_silent ipv4_only two_lists_config listed_once_env
           "report|0.5|0|smtp-in|link-connect|7641df9771b4ed00||pass|1.2.3.4:33174|1.1.1.1:25"
           empty_state
           (set_session {| sessions := ∅; version := "0.5" |} "7641df9771b4ed00"
              (fresh_session 1))
           [Resolve "4.3.2.1.zen.example.org"; Resolve "4.3.2.1.bl.example.net"]).
  vm_compute. reflexivity.
Defined.

(** ** The life of a session *)

Lemma handleLine_report (X : Extern) (cfg : Config) (E : Env) (line : string) (st : State)
    (ver a2 a3 phase sessionId : string) (params : list string) :
  Split line "|" = "report" :: ver :: a2 :: a3 :: phase :: sessionId :: params ->
  handleLine X cfg E line st =
  match table_lookup (reporters X cfg E) phase with
  | Some h => h phase sessionId params {| sessions := sessions st; version := ver |}
  | None => Fatal ("invalid phase: " +:+ phase)
  end.
Proof.
  intros Hs. unfold handleLine, trigger, index, bind. rewrite Hs.
  cbn -[table_lookup reporters filters].
  destruct (table_lookup (reporters X cfg E) phase); reflexivity.
Qed.

(** Every filter handler starts by looking the session up. *)
Lemma filters_unknown_session (cfg : Config) (phase : string) (h : handler)
    (sessionId : string) (params : list string) (st : State) :
  table_lookup (filters cfg) phase = Some h ->
  sessions st !! sessionId = None ->
  h phase sessionId params st = Fatal ("invalid session ID: " +:+ sessionId).
Proof.
  intros Hh Hs.
  destruct (filters_cases cfg phase h Hh) as [[_ ->] | [[_ ->] | (_ & _ & ->)]].
  - unfold filterConnect, getSession, bind. now rewrite Hs.
  - unfold dataline, getSession, bind. now rewrite Hs.
  - unfold delayedAnswer, getSession, bind. now rewrite Hs.
Qed.

(** X5.  After the link-disconnect of a session, a filter event of any
    filter phase for that session is fatal: the loop handles the
    link-disconnect line without any effect and stops on the filter line
    with the diagnostic [invalid session ID]. *)
Theorem X5_event_after_disconnect_is_fatal (X : Extern) (cfg : Config) (E1 E2 : Env)
    (line1 line2 : string) (st : State)
    (v1 t1 s1 v2 t2 s2 phase sessionId : string) (params : list string) (h : handler) :
  Split line1 "|" = ["report"; v1; t1; s1; "link-disconnect"; sessionId] ->
  Split line2 "|" = "filter" :: v2 :: t2 :: s2 :: phase :: sessionId :: params ->
  table_lookup (filters cfg) phase = Some h ->
  run X cfg [(E1, line1); (E2, line2)] st =
  ([[]], Fatal ("invalid session ID: " +:+ sessionId)).
Proof.
  intros H1 H2 Hh. cbn [run].
  rewrite (handleLine_report X cfg E1 line1 st v1 t1 s1 "link-disconnect" sessionId [] H1).
  cbn [reporters table_lookup String.eqb Ascii.eqb Bool.eqb]. unfold linkDisconnect.
  cbn [List.length Nat.eqb negb sessions version].
  rewrite (handleLine_filter X cfg E2 line2 _ v2 t2 s2 phase sessionId params H2), Hh.
  rewrite (filters_unknown_session cfg phase h sessionId params _ Hh);
    [reflexivity |].
  cbn [sessions]. apply lookup_delete_eq.
Qed.

Lemma X5_event_after_disconnect_is_fatal_witness :
  run ipv4_only test_config
    [ (quiet_env, "report|0.5|0|smtp-in|link-disconnect|7641df9771b4ed00");
      (quiet_env, "filter|0.5|0|smtp-in|quit|7641df9771b4ed00|1ef1c203cc576e5d") ]
    state_4 =
  ([[]], Fatal ("invalid session ID: " +:+ "7641df9771b4ed00")).
Proof.
  apply (X5_event_after_disconnect_is_fatal ipv4_only test_config quiet_env quiet_env
           _ _ state_4 "0.5" "0" "smtp-in" "0.5" "0" "smtp-in" "quit" "7641df9771b4ed00"
           ["1ef1c203cc576e5d"] (delayedAnswer test_config));
    reflexivity.
Defined.

Lemma state_eta (st : State) : {| sessions := sessions st; version := version st |} = st.
Proof. now destruct st. Qed.

(** X6.  [linkDisconnect] is not fatal for an id that is not in the store:
    it leaves the state as it is.  And for such an id, a link-connect
    followed by the link-disconnect brings the state back: no trace of the
    session is kept. *)
Theorem X6_disconnect_undoes_connect (X : Extern) (cfg : Config) (E : Env)
    (phase phase' sessionId : string) (params : list string) (st : State) :
  sessions st !! sessionId = None ->
  List.length params = 4%nat ->
  linkDisconnect phase' sessionId [] st = Ok (st, []) /\
  exists st1 es,
    linkConnect X cfg E phase sessionId params st = Ok (st1, es) /\
    is_Some (sessions st1 !! sessionId) /\
    linkDisconnect phase' sessionId [] st1 = Ok (st, []).
Proof.
  intros Hnone Hlen. split.
  - unfold linkDisconnect. cbn [List.length Nat.eqb negb].
    rewrite delete_id by exact Hnone. now rewrite state_eta.
  - destruct (linkConnect_stores_fresh X cfg E phase sessionId params st Hlen)
      as (sc & es & Hr).
    exists (set_session st sessionId (fresh_session sc)), es.
    split; [exact Hr |]. split; [rewrite set_session_lookup; eauto |].
    unfold linkDisconnect, set_session. cbn [List.length Nat.eqb negb sessions version].
    rewrite delete_insert_id by exact Hnone. now rewrite state_eta.
Qed.

Lemma X6_disconnect_undoes_connect_witness :
  linkDisconnect "link-disconnect" "a1b2c3d4e5f60718" [] busy_state = Ok (busy_state, []) /\
  exists st1 es,
    linkConnect ipv4_only test_config quiet_env "link-connect" "a1b2c3d4e5f60718"
      [""; "pass"; "1.2.3.9:33174"; "1.1.1.1:25"] busy_state = Ok (st1, es) /\
    is_Some (sessions st1 !! "a1b2c3d4e5f60718") /\
    linkDisconnect "link-disconnect" "a1b2c3d4e5f60718" [] st1 = Ok (busy_state, []).
Proof.
  apply (X6_disconnect_undoes_connect ipv4_only test_config quiet_env "link-connect"
           "link-disconnect" "a1b2c3d4e5f60718"
           [""; "pass"; "1.2.3.9:33174"; "1.1.1.1:25"] busy_state);
    reflexivity.
Defined.

(** ** Framing *)

(** X7.  The framing errors of the loop.  A line of fewer than six fields
    (the empty line among them) is fatal with [missing atoms]; a line of six
    fields or more whose first field is neither [report] nor [filter] is
    fatal with [invalid stream]; a report line whose phase is not
    link-connect or link-disconnect, and a filter line whose phase is one of
    these two, are fatal with [invalid phase]. *)
Theorem X7_framing_errors (X : Extern) (cfg : Config) (E : Env) (line : string) (st : State) :
  ((List.length (Split line "|") < 6)%nat ->
   handleLine X cfg E line st = Fatal ("missing atoms: " +:+ line)) /\
  ((6 <= List.length (Split line "|"))%nat ->
   field 0 line <> "report" -> field 0 line <> "filter" ->
   handleLine X cfg E line st = Fatal ("invalid stream: " +:+ field 0 line)) /\
  ((6 <= List.length (Split line "|"))%nat ->
   field 0 line = "report" ->
   field 4 line <> "link-connect" -> field 4 line <> "link-disconnect" ->
   handleLine X cfg E line st = Fatal ("invalid phase: " +:+ field 4 line)) /\
  ((6 <= List.length (Split line "|"))%nat ->
   field 0 line = "filter" ->
   field 4 line = "link-connect" \/ field 4 line = "link-disconnect" ->
   handleLine X cfg E line st = Fatal ("invalid phase: " +:+ field 4 line)).
Proof.
  unfold field, handleLine, trigger, index, bind.
  destruct (Split line "|") as [|a0 [|a1 [|a2 [|a3 [|a4 [|a5 params]]]]]];
    cbn -[table_lookup reporters filters String.eqb];
    (split; [intros Hl; try reflexivity; lia |]);
    (split; [intros Hl; try lia |]);
    (try split; try (intros Hl; try lia)).
  - intros Hr Hf. apply String.eqb_neq in Hr, Hf. now rewrite Hr, Hf.
  - intros -> Hc Hd. cbn [String.eqb Ascii.eqb Bool.eqb].
    unfold reporters, table_lookup.
    apply String.eqb_neq in Hc, Hd.
    rewrite (String.eqb_sym "link-connect"), Hc.
    now rewrite (String.eqb_sym "link-disconnect"), Hd.
  - intros -> [-> | ->]; reflexivity.
Qed.

Lemma X7_framing_errors_witness :
  handleLine ipv4_only test_config quiet_env "" empty_state = Fatal ("missing atoms: " +:+ "").
Proof.
  destruct (X7_framing_errors ipv4_only test_config quiet_env "" empty_state) as [Hshort _].
  apply Hshort. vm_compute. lia.
Defined.

(** X8.  A filter event without a token (a line of exactly six fields) for
    a session that is in the store is not rejected with a diagnostic: the
    handler takes [params[0]] of the empty slice and the process panics. *)
Theorem X8_filter_event_without_token_panics (X : Extern) (cfg : Config) (E : Env)
    (line : string) (st : State) (ver a2 a3 phase sessionId : string) (h : handler)
    (s : session) :
  Split line "|" = ["filter"; ver; a2; a3; phase; sessionId] ->
  table_lookup (filters cfg) phase = Some h ->
  sessions st !! sessionId = Some s ->
  domains cfg <> [] ->
  handleLine X cfg E line st = Panic "index out of range".
Proof.
  intros Hs Hh Hsess Hdom.
  rewrite (handleLine_filter X cfg E line st ver a2 a3 phase sessionId [] Hs), Hh.
  set (st1 := {| sessions := sessions st; version := ver |}).
  assert (Hs1 : sessions st1 !! sessionId = Some s) by exact Hsess.
  destruct (filters_cases cfg phase h Hh) as [[_ ->] | [[_ ->] | (_ & _ & ->)]].
  - rewrite (filterConnect_eq cfg phase sessionId [] st1 s Hs1).
    destruct (connect_delay_ok cfg s Hdom) as [d ->]. simpl.
    unfold delayed, getSession, index, bind. now rewrite set_session_lookup.
  - unfold dataline, getSession, index, bind. now rewrite Hs1.
  - rewrite (delayedAnswer_eq cfg phase sessionId [] st1 s Hs1).
    unfold delayed, getSession, index, bind. now rewrite Hs1.
Qed.

Lemma X8_filter_event_without_token_panics_witness :
  handleLine ipv4_only test_config quiet_env
    "filter|0.5|0|smtp-in|data-line|7641df9771b4ed00" state_4 =
  Panic "index out of range".
Proof.
  apply (X8_filter_event_without_token_panics ipv4_only test_config quiet_env _ state_4
           "0.5" "0" "smtp-in" "data-line" "7641df9771b4ed00" (dataline test_config)
           session_4);
    [reflexivity | reflexivity | reflexivity | discriminate].
Defined.

(** ** The score from the blocklists *)

Lemma int64_succ (z : Z) : int64 (int64 z + 1) = int64 (z + 1).
Proof.
  unfold int64. f_equal.
  replace ((z + 2 ^ 63) mod 2 ^ 64 - 2 ^ 63 + 1 + 2 ^ 63)
    with ((z + 2 ^ 63) mod 2 ^ 64 + 1) by lia.
  rewrite Z.add_mod_idemp_l by lia. f_equal. lia.
Qed.

Lemma int8_int64 (z : Z) : int8 (int64 z) = int8 z.
Proof.
  unfold int8, int64. f_equal.
  rewrite (Z.mod_eq (z + 2 ^ 63) (2 ^ 64)) by lia.
  replace (z + 2 ^ 63 - 2 ^ 64 * ((z + 2 ^ 63) / 2 ^ 64) - 2 ^ 63 + 128)
    with (z + 128 + (- (2 ^ 56 * ((z + 2 ^ 63) / 2 ^ 64))) * 256) by lia.
  apply Z_mod_plus_full.
Qed.

(** The counter of [linkConnect] holds the number of answered queries, as
    an [int64]. *)
Lemma count_hits_filter (E : Env) (queries : list string) :
  forall k,
    fold_left (fun sc q => if LookupIP E q then int64 (sc + 1) else sc) queries (int64 k) =
    int64 (k + Z.of_nat (List.length (List.filter (LookupIP E) queries))).
Proof.
  induction queries as [|q queries IH]; intros k; simpl.
  - f_equal. lia.
  - destruct (LookupIP E q); simpl.
    + rewrite int64_succ, IH. f_equal. lia.
    + apply IH.
Qed.

(** X9.  Outside test mode, for every IPv4 connecting address [a.b.c.d]
    that the allowlist loop does not match, [linkConnect] makes one DNS
    query for each blocklist domain, in the order of the command line, for
    the name [d.c.b.a.domain] (the octets reversed), and stores as the score
    the number of queries that were answered, converted to [int8]: that
    number itself as long as it is at most 127. *)
Theorem X9_score_counts_listings (X : Extern) (cfg : Config) (E : Env)
    (phase sessionId p0 p1 p3 port : string) (st : State) (a b c d : Z) :
  testMode cfg = false ->
  is_byte a -> is_byte b -> is_byte c -> is_byte d ->
  allowlisted X cfg (rangeMasks E) (v4InV6Prefix ++ [a; b; c; d]) = false ->
  let queries :=
    map (fun domain => FormatInt d +:+ "." +:+ FormatInt c +:+ "." +:+ FormatInt b +:+ "."
                       +:+ FormatInt a +:+ "." +:+ domain) (domains cfg) in
  let hits := Z.of_nat (List.length (List.filter (LookupIP E) queries)) in
  linkConnect X cfg E phase sessionId [p0; p1; dotted4 a b c d +:+ ":" +:+ port; p3] st =
  Ok (set_session st sessionId (fresh_session (int8 hits)), map Resolve queries) /\
  (hits <= 127 -> int8 hits = hits) /\
  hits <= Z.of_nat (List.length (domains cfg)).
Proof.
  intros Htest Ha Hb Hc Hd Hal queries hits.
  split; [| split].
  - rewrite (linkConnect_octets X cfg E phase sessionId p0 p1 _ p3 (dotted4 a b c d)
               st a b c d);
      [| now apply host_of_address | now apply ParseIP_dotted4 | assumption ..].
    unfold score_of_octets. rewrite Hal, Htest. cbn [fst snd].
    unfold count_hits, dnsbl_queries. fold queries.
    change 0 with (int64 0) at 1.
    rewrite count_hits_filter, int8_int64. reflexivity.
  - intros Hle. apply int8_small. lia.
  - subst hits queries. apply inj_le.
    etransitivity; [apply filter_length_le |]. now rewrite length_map.
Qed.

Lemma X9_score_counts_listings_witness :
  linkConnect ipv4_only two_lists_config listed_once_env "link-connect" "7641df9771b4ed00"
    [""; "pass"; dotted4 1 2 3 4 +:+ ":" +:+ "33174"; "1.1.1.1:25"] empty_state =
  Ok (set_session empty_state "7641df9771b4ed00" (fresh_session 1),
      [Resolve "4.3.2.1.zen.example.org"; Resolve "4.3.2.1.bl.example.net"]).
Proof.
  destruct (X9_score_counts_listings ipv4_only two_lists_config listed_once_env
              "link-connect" "7641df9771b4ed00" "" "pass" "1.1.1.1:25" "33174"
              empty_state 1 2 3 4) as [Hscore _];
    first [reflexivity | unfold is_byte; lia | exact Hscore].
Defined.

(** ** Blocking *)

(** The phases [validatePhase] accepts are phases of the filter table, and
    neither [data-line] nor [data] nor [commit] is among them. *)
Lemma validatePhase_cases (cfg : Config) (phase : string) :
  validatePhase phase = Ok tt ->
  (phase = "connect" /\ table_lookup (filters cfg) phase = Some (filterConnect cfg)) \/
  (phase <> "connect" /\ table_lookup (filters cfg) phase = Some (delayedAnswer cfg)).
Proof.
  unfold validatePhase.
  destruct (existsb _ _) eqn:Hex; [| discriminate]. intros _.
  apply existsb_exists in Hex as (p & Hin & Heq).
  apply String.eqb_eq in Heq. subst p.
  cbn [In] in Hin.
  destruct Hin as [<- | [<- | [<- | [<- | [<- | [<- | [<- | [<- | []]]]]]]]];
    first [left; split; [reflexivity | reflexivity]
          | right; split; [discriminate | reflexivity]].
Qed.

(** X10.  With flags that [main] accepts, a filter event at the block phase
    for a session whose score is strictly above the enabled block threshold
    is answered with the disconnect verdict, whatever the junk threshold:
    at the connect phase blocking comes before junking.  (The event has a
    token and the version a dot.) *)
Theorem X10_block_at_block_phase (X : Extern) (cfg : Config) (E : Env)
    (line : string) (st : State) (ver a2 a3 sessionId token : string)
    (rest : list string) (s : session) :
  check_flags cfg = Ok tt ->
  Split line "|" = "filter" :: ver :: a2 :: a3 :: blockPhase cfg :: sessionId :: token :: rest ->
  sessions st !! sessionId = Some s ->
  0 <= int8 (blockAbove cfg) < score s ->
  Contains ver "." = true ->
  answers (handleLine X cfg E line st) {| sessions := sessions st; version := ver |}
          sessionId (token :: rest) disconnect_text.
Proof.
  intros Hflags Hs Hsess Hblock Hv.
  assert (Hdom : domains cfg <> []).
  { unfold check_flags in Hflags. destruct (domains cfg); [discriminate | discriminate]. }
  assert (Hphase : validatePhase (blockPhase cfg) = Ok tt).
  { unfold check_flags in Hflags.
    destruct (Nat.eqb (List.length (domains cfg)) 0); [discriminate | exact Hflags]. }
  assert (Hknown : (score s =? -1) = false) by (apply Z.eqb_neq; lia).
  assert (Hge : (0 <=? int8 (blockAbove cfg)) = true) by (apply Z.leb_le; lia).
  assert (Hgt : (int8 (blockAbove cfg) <? score s) = true) by (apply Z.ltb_lt; lia).
  rewrite (handleLine_filter X cfg E line st ver a2 a3 (blockPhase cfg) sessionId
             (token :: rest) Hs).
  set (st1 := {| sessions := sessions st; version := ver |}).
  assert (Hs1 : sessions st1 !! sessionId = Some s) by exact Hsess.
  destruct (validatePhase_cases cfg (blockPhase cfg) Hphase) as [[Hp ->] | [Hp ->]].
  - destruct (connect_delay_ok cfg s Hdom) as [d Hd].
    destruct (filterConnect_returns cfg (blockPhase cfg) sessionId token rest st1 s d
                Hs1 Hd Hv) as (out & Hout & ->).
    apply answers_response; [| exact Hout].
    unfold connect_text. now rewrite Hknown, Hge, Hgt, Hp.
  - destruct (delayedAnswer_returns cfg (blockPhase cfg) sessionId token rest st1 s
                Hs1 Hv) as (out & Hout & ->).
    apply answers_response; [| exact Hout].
    unfold answer_text. now rewrite Hknown, Hge, Hgt, String.eqb_refl.
Qed.

Lemma X10_block_at_block_phase_witness :
  answers
    (handleLine ipv4_only two_lists_config quiet_env
       "filter|0.5|0|smtp-in|connect|7641df9771b4ed00|1ef1c203cc576e5d|mail.example.org|pass|1.2.3.4:33174|1.1.1.1:25"
       state_4)
    {| sessions := sessions state_4; version := "0.5" |}
    "7641df9771b4ed00"
    ["1ef1c203cc576e5d"; "mail.example.org"; "pass"; "1.2.3.4:33174"; "1.1.1.1:25"]
    disconnect_text.
Proof.
  apply (X10_block_at_block_phase ipv4_only two_lists_config quiet_env _ state_4
           "0.5" "0" "smtp-in" "7641df9771b4ed00" "1ef1c203cc576e5d"
           ["mail.example.org"; "pass"; "1.2.3.4:33174"; "1.1.1.1:25"] session_4).
  - reflexivity.
  - vm_compute. reflexivity.
  - reflexivity.
  - vm_compute. split; [discriminate | reflexivity].
  - reflexivity.
Defined.

(** ** The decimal text of a number *)

Ltac digit_value :=
  match goal with
  | |- context [digit_of ?c] =>
      let v := eval vm_compute in (digit_of c) in
      change (digit_of c) with v; cbv iota
  end.

Lemma digits_value_uint_acc (u : Decimal.uint) :
  forall acc : positive,
    digits_value (NilEmpty.string_of_uint u) (Z.pos acc) =
    Some (Z.pos (Pos.of_uint_acc u acc)).
Proof.
  induction u as [|u IH|u IH|u IH|u IH|u IH|u IH|u IH|u IH|u IH|u IH]; intros acc;
    [reflexivity | ..];
    cbn [NilEmpty.string_of_uint digits_value Pos.of_uint_acc];
    digit_value; rewrite <- IH; f_equal; lia.
Qed.

Lemma digits_value_uint (u : Decimal.uint) :
  digits_value (NilEmpty.string_of_uint u) 0 = Some (Z.of_N (Pos.of_uint u)).
Proof.
  induction u as [|u IH|u IH|u IH|u IH|u IH|u IH|u IH|u IH|u IH|u IH];
    [reflexivity | exact IH | ..];
    cbn [NilEmpty.string_of_uint digits_value Pos.of_uint];
    digit_value; apply (digits_value_uint_acc u).
Qed.

(** The text of a number that is not negative starts with a digit, holds
    digits only, and is read back by [digits_value]. *)
Lemma FormatInt_digits (n : Z) :
  0 <= n ->
  digits_value (FormatInt n) 0 = Some n /\
  exists c rest, FormatInt n = String c rest /\ digit_of c <> None.
Proof.
  intros Hn. destruct n as [|p|p]; [| | lia].
  - split; [reflexivity |]. exists "0"%char, "". split; [reflexivity | discriminate].
  - unfold FormatInt. cbn [Z.to_int NilZero.string_of_int].
    assert (Hnil : Pos.to_uint p <> Decimal.Nil) by apply DecimalPos.Unsigned.to_uint_nonnil.
    assert (Hstr : NilZero.string_of_uint (Pos.to_uint p) =
                   NilEmpty.string_of_uint (Pos.to_uint p)).
    { destruct (Pos.to_uint p); [contradiction | reflexivity ..]. }
    rewrite Hstr. split.
    + rewrite digits_value_uint, DecimalPos.Unsigned.of_to. reflexivity.
    + destruct (Pos.to_uint p); [contradiction | ..];
        cbn [NilEmpty.string_of_uint]; eexists _, _; (split; [reflexivity | discriminate]).
Qed.

Lemma digits_value_no_mark (sep : ascii) :
  digit_of sep = None ->
  forall s acc v, digits_value s acc = Some v -> Contains s sep = false.
Proof.
  intros Hsep. induction s as [|c s IH]; intros acc v; [reflexivity |].
  change (Contains (String c s) sep) with (Ascii.eqb c sep || Contains s sep).
  cbn [digits_value].
  destruct (digit_of c) as [dg|] eqn:Hc; [| discriminate].
  intros H. rewrite (IH _ _ H), orb_false_r.
  apply Ascii.eqb_neq. intros ->. congruence.
Qed.

Lemma FormatInt_no_mark (n : Z) (sep : ascii) :
  0 <= n -> digit_of sep = None -> Contains (FormatInt n) sep = false.
Proof.
  intros Hn Hsep. destruct (FormatInt_digits n Hn) as [Hv _].
  exact (digits_value_no_mark sep Hsep _ _ _ Hv).
Qed.

(** [strconv.Atoi] reads the text of a number back; a number that does not
    fit an [int] is read as the largest [int]. *)
Lemma Atoi_FormatInt (n : Z) :
  0 <= n -> fst (Atoi (FormatInt n)) = Z.min n (2 ^ 63 - 1).
Proof.
  intros Hn. destruct (FormatInt_digits n Hn) as (Hv & c & rest & Hs & Hc).
  unfold Atoi, ParseInt. rewrite Hs in *.
  assert (Hplus : Ascii.eqb c "+" = false).
  { apply Ascii.eqb_neq. intros ->. now apply Hc. }
  assert (Hminus : Ascii.eqb c "-" = false).
  { apply Ascii.eqb_neq. intros ->. now apply Hc. }
  rewrite Hplus, Hminus. cbn [orb negb andb]. rewrite Hv.
  change (2 ^ (64 - 1)) with (2 ^ 63).
  destruct (2 ^ 63 <=? n) eqn:Hcut; cbn [fst].
  - apply Z.leb_le in Hcut. lia.
  - apply Z.leb_gt in Hcut. lia.
Qed.

(** ** The order of the fields of a response *)

(** X11.  For a protocol version whose first two dot-separated parts are
    the decimal texts of the numbers [hi] and [lo], [produceOutput] puts the
    token before the session id exactly when the version is below 0.5
    ([hi] is 0 and [lo] is less than 5), and the session id before the token
    otherwise; the text of the response follows in both cases. *)
Theorem X11_response_field_order (st : State) (msgType sessionId token text : string)
    (hi lo : Z) (more : list string) :
  0 <= hi -> 0 <= lo ->
  Split (version st) "." = FormatInt hi :: FormatInt lo :: more ->
  produceOutput st msgType sessionId token text =
  Ok (if (hi =? 0) && (lo <? 5)
      then msgType +:+ "|" +:+ token +:+ "|" +:+ sessionId +:+ "|" +:+ text
      else msgType +:+ "|" +:+ sessionId +:+ "|" +:+ token +:+ "|" +:+ text).
Proof.
  intros Hhi Hlo Hs. unfold produceOutput, index, bind. rewrite Hs.
  cbn [lookup list_lookup]. rewrite !Atoi_FormatInt by assumption.
  assert (Ehi : (Z.min hi (2 ^ 63 - 1) =? 0) = (hi =? 0)).
  { destruct (hi =? 0) eqn:H0.
    - apply Z.eqb_eq in H0. subst hi. reflexivity.
    - apply Z.eqb_neq in H0. apply Z.eqb_neq. lia. }
  assert (Elo : (Z.min lo (2 ^ 63 - 1) <? 5) = (lo <? 5)).
  { destruct (lo <? 5) eqn:H5.
    - apply Z.ltb_lt in H5. apply Z.ltb_lt. lia.
    - apply Z.ltb_ge in H5. apply Z.ltb_ge. lia. }
  rewrite Ehi, Elo.
  destruct ((hi =? 0) && (lo <? 5)); now rewrite !append_assoc.
Qed.

Lemma X11_response_field_order_witness :
  produceOutput {| sessions := ∅; version := "0.4" |} "filter-result"
    "7641df9771b4ed00" "1ef1c203cc576e5d" "proceed" =
  Ok "filter-result|1ef1c203cc576e5d|7641df9771b4ed00|proceed".
Proof.
  apply (X11_response_field_order {| sessions := ∅; version := "0.4" |} "filter-result"
           "7641df9771b4ed00" "1ef1c203cc576e5d" "proceed" 0 4 []);
    [lia | lia | reflexivity].
Defined.

(** ** The body of a message *)

Lemma Join_Split (s : string) (sep : ascii) : Join (Split s sep) (String sep "") = s.
Proof.
  induction s as [|c s IH]; [reflexivity |].
  change (Split (String c s) sep)
    with (if Ascii.eqb c sep then "" :: Split s sep
          else match Split s sep with
               | [] => [String c ""]
               | field :: fields => String c field :: fields
               end).
  destruct (Split s sep) as [|f fs] eqn:Hs; [now apply Split_not_nil in Hs |].
  destruct (Ascii.eqb c sep) eqn:Hc.
  - apply Ascii.eqb_eq in Hc. subst c.
    change (Join ("" :: f :: fs) (String sep ""))
      with ("" +:+ String sep "" +:+ Join (f :: fs) (String sep "")).
    rewrite IH. reflexivity.
  - destruct fs as [|g gs].
    + change (Join [f] (String sep "")) with f in IH. now rewrite <- IH.
    + change (Join (String c f :: g :: gs) (String sep ""))
        with (String c f +:+ String sep "" +:+ Join (g :: gs) (String sep "")).
      change (Join (f :: g :: gs) (String sep ""))
        with (f +:+ String sep "" +:+ Join (g :: gs) (String sep "")) in IH.
      rewrite <- IH. reflexivity.
Qed.

Lemma Split_Join_cons (f g : string) (gs : list string) (sep : ascii) :
  Contains f sep = false ->
  Split (Join (f :: g :: gs) (String sep "")) sep =
  f :: Split (Join (g :: gs) (String sep "")) sep.
Proof.
  intros Hf.
  change (Join (f :: g :: gs) (String sep ""))
    with (f +:+ String sep "" +:+ Join (g :: gs) (String sep "")).
  change (String sep "" +:+ ?x) with (String sep x).
  now apply Split_app.
Qed.

(** X12.  A body line goes through unchanged, whatever it holds.  The
    data-line event carries the line of the message behind the token, and
    that line may itself hold the separator [|]; the response [dataline]
    prints last is the [filter-dataline] line of the event with exactly
    that text: splitting the event and joining the rest again loses
    nothing. *)
Theorem X12_body_line_passes_unchanged (X : Extern) (cfg : Config) (E : Env) (st : State)
    (ver a2 a3 sessionId token content : string) (s : session) :
  Forall (fun f => Contains f "|" = false) [ver; a2; a3; sessionId; token] ->
  Contains ver "." = true ->
  sessions st !! sessionId = Some s ->
  exists out st' es,
    produceOutput {| sessions := sessions st; version := ver |}
      "filter-dataline" sessionId token content = Ok out /\
    handleLine X cfg E
      (Join ["filter"; ver; a2; a3; "data-line"; sessionId; token; content] "|") st =
    Ok (st', es) /\
    last es = Some (Emit 0 out).
Proof.
  intros Hf Hv Hs.
  apply Forall_cons in Hf as [Hver Hf]. apply Forall_cons in Hf as [Ha2 Hf].
  apply Forall_cons in Hf as [Ha3 Hf]. apply Forall_cons in Hf as [Hsid Hf].
  apply Forall_cons in Hf as [Htok _].
  assert (Hsplit :
    Split (Join ["filter"; ver; a2; a3; "data-line"; sessionId; token; content] "|") "|" =
    "filter" :: ver :: a2 :: a3 :: "data-line" :: sessionId :: token :: Split content "|").
  { rewrite !Split_Join_cons by first [assumption | reflexivity]. reflexivity. }
  rewrite (handleLine_filter X cfg E _ st ver a2 a3 "data-line" sessionId _ Hsplit).
  change (table_lookup (filters cfg) "data-line") with (Some (dataline cfg)).
  set (st1 := {| sessions := sessions st; version := ver |}).
  destruct (dataline_eq cfg "data-line" sessionId token (Split content "|") st1 s Hs Hv)
    as (header & out & _ & Hout & ->).
  rewrite Join_Split in Hout.
  eexists out, _, _. split; [exact Hout |]. split; [reflexivity |].
  apply last_snoc.
Qed.

Lemma X12_body_line_passes_unchanged_witness :
  exists out st' es,
    produceOutput {| sessions := sessions state_4; version := "0.5" |}
      "filter-dataline" "7641df9771b4ed00" "1ef1c203cc576e5d" "a|b||c" = Ok out /\
    handleLine ipv4_only header_config quiet_env
      (Join ["filter"; "0.5"; "0"; "smtp-in"; "data-line"; "7641df9771b4ed00";
             "1ef1c203cc576e5d"; "a|b||c"] "|") state_4 =
    Ok (st', es) /\
    last es = Some (Emit 0 out).
Proof.
  apply (X12_body_line_passes_unchanged ipv4_only header_config quiet_env state_4
           "0.5" "0" "smtp-in" "7641df9771b4ed00" "1ef1c203cc576e5d" "a|b||c" session_4);
    [repeat constructor | reflexivity | reflexivity].
Defined.

(** ** A connection in test mode, from the report to the verdict *)

Lemma dotted4_no_pipe (a b c d : Z) :
  is_byte a -> is_byte b -> is_byte c -> is_byte d ->
  Contains (dotted4 a b c d) "|" = false.
Proof.
  intros [Ha _] [Hb _] [Hc _] [Hd _]. unfold dotted4.
  rewrite !Contains_append, !FormatInt_no_mark by first [assumption | reflexivity].
  reflexivity.
Qed.

(** X13.  Test mode, blocking disabled.  The link-connect report of an IPv4
    client [a.b.c.d] that is not allowlisted, followed by the connect event
    of the same session, is answered with one response, printed by the
    handler itself: [junk] when the junk threshold is enabled and the last
    octet [d], capped at 127, is strictly above it and [d] is not 255, and
    [proceed] otherwise.  (This is what the test script of the repository
    checks for 1.2.3.4 and 1.2.3.0 with [-junkAbove 1].) *)
Theorem X13_test_mode_connection (X : Extern) (cfg : Config) (E1 E2 : Env) (st : State)
    (ver t1 s1 t2 s2 sessionId rdns fcrdns port dest token more : string) (a b c d : Z) :
  testMode cfg = true ->
  domains cfg <> [] ->
  int8 (blockAbove cfg) < 0 ->
  is_byte a -> is_byte b -> is_byte c -> is_byte d ->
  allowlisted X cfg (rangeMasks E1) (v4InV6Prefix ++ [a; b; c; d]) = false ->
  Forall (fun f => Contains f "|" = false)
    [ver; t1; s1; t2; s2; sessionId; rdns; fcrdns; port; dest; token] ->
  Contains ver "." = true ->
  let verdict :=
    if (0 <=? int8 (junkAbove cfg)) && (int8 (junkAbove cfg) <? Z.min d 127)
       && negb (d =? 255)
    then "junk" else "proceed" in
  exists out sl st',
    produceOutput {| sessions := sessions st; version := ver |}
      "filter-result" sessionId token verdict = Ok out /\
    run X cfg
      [ (E1, Join ["report"; ver; t1; s1; "link-connect"; sessionId; rdns; fcrdns;
                   dotted4 a b c d +:+ ":" +:+ port; dest] "|");
        (E2, Join ["filter"; ver; t2; s2; "connect"; sessionId; token; more] "|") ] st =
    ([[]; [Emit sl out]], Ok st').
Proof.
  intros Htest Hdom Hblock Ha Hb Hc Hd Hal Hf Hv verdict.
  repeat (apply Forall_cons in Hf as [? Hf]).
  assert (Haddr : Contains (dotted4 a b c d +:+ ":" +:+ port) "|" = false).
  { rewrite !Contains_append, dotted4_no_pipe by assumption.
    match goal with H : Contains port _ = false |- _ => rewrite H end. reflexivity. }
  assert (Hsplit1 :
    Split (Join ["report"; ver; t1; s1; "link-connect"; sessionId; rdns; fcrdns;
                 dotted4 a b c d +:+ ":" +:+ port; dest] "|") "|" =
    ["report"; ver; t1; s1; "link-connect"; sessionId; rdns; fcrdns;
     dotted4 a b c d +:+ ":" +:+ port; dest]).
  { rewrite !Split_Join_cons by first [assumption | reflexivity].
    change (Join [dest] "|") with dest. now rewrite Split_no_sep. }
  assert (Hsplit2 :
    Split (Join ["filter"; ver; t2; s2; "connect"; sessionId; token; more] "|") "|" =
    "filter" :: ver :: t2 :: s2 :: "connect" :: sessionId :: token :: Split more "|").
  { rewrite !Split_Join_cons by first [assumption | reflexivity]. reflexivity. }
  set (sc := if d =? 255 then -1 else Z.min d 127).
  set (st0 := {| sessions := sessions st; version := ver |}).
  set (st1 := set_session st0 sessionId (fresh_session sc)).
  assert (Hturn1 :
    handleLine X cfg E1
      (Join ["report"; ver; t1; s1; "link-connect"; sessionId; rdns; fcrdns;
             dotted4 a b c d +:+ ":" +:+ port; dest] "|") st = Ok (st1, [])).
  { rewrite (handleLine_report X cfg E1 _ st ver t1 s1 "link-connect" sessionId _ Hsplit1).
    change (table_lookup (reporters X cfg E1) "link-connect")
      with (Some (linkConnect X cfg E1)).
    cbv iota. fold st0.
    rewrite (linkConnect_octets X cfg E1 "link-connect" sessionId rdns fcrdns _ dest
               (dotted4 a b c d) st0 a b c d);
      [| now apply host_of_address | now apply ParseIP_dotted4 | assumption ..].
    unfold score_of_octets. rewrite Hal, Htest. reflexivity. }
  assert (Hlook : sessions {| sessions := sessions st1; version := ver |} !! sessionId =
                  Some (fresh_session sc)).
  { apply (set_session_lookup st0). }
  destruct (connect_delay_ok cfg (fresh_session sc) Hdom) as [dl Hdl].
  destruct (filterConnect_returns cfg "connect" sessionId token (Split more "|")
              {| sessions := sessions st1; version := ver |} (fresh_session sc) dl
              Hlook Hdl Hv) as (out & Hout & Hconn).
  assert (Htext : connect_text cfg (fresh_session sc) = verdict).
  { unfold connect_text, verdict, sc. cbn [score fresh_session].
    assert (Hoff : (0 <=? int8 (blockAbove cfg)) = false) by (apply Z.leb_gt; lia).
    rewrite Hoff, !andb_false_r. cbn [andb].
    destruct (d =? 255) eqn:H255; cbn [negb Z.eqb andb].
    - rewrite andb_false_r. reflexivity.
    - destruct Hd as [Hd0 _].
      assert (Hne : (Z.min d 127 =? -1) = false) by (apply Z.eqb_neq; lia).
      rewrite Hne, andb_true_r. reflexivity. }
  rewrite Htext in Hout.
  exists out, (sleep_of dl), (set_session {| sessions := sessions st1; version := ver |}
                               sessionId (with_delay (fresh_session sc) dl)).
  split; [exact Hout |].
  cbn [run]. rewrite Hturn1.
  rewrite (handleLine_filter X cfg E2 _ st1 ver t2 s2 "connect" sessionId _ Hsplit2).
  change (table_lookup (filters cfg) "connect") with (Some (filterConnect cfg)).
  cbv iota. rewrite Hconn. unfold response. rewrite Htest. reflexivity.
Qed.

Lemma X13_test_mode_connection_witness :
  exists out sl st',
    produceOutput {| sessions := sessions empty_state; version := "0.5" |}
      "filter-result" "7641df9771b4ed00" "1ef1c203cc576e5d" "junk" = Ok out /\
    run ipv4_only test_config
      [ (quiet_env, Join ["report"; "0.5"; "0"; "smtp-in"; "link-connect";
                          "7641df9771b4ed00"; ""; "pass";
                          dotted4 1 2 3 4 +:+ ":" +:+ "33174"; "1.1.1.1:25"] "|");
        (quiet_env, Join ["filter"; "0.5"; "0"; "smtp-in"; "connect";
                          "7641df9771b4ed00"; "1ef1c203cc576e5d";
                          "mail.example.org|pass|1.2.3.4:33174|1.1.1.1:25"] "|") ]
      empty_state =
    ([[]; [Emit sl out]], Ok st').
Proof.
  apply (X13_test_mode_connection ipv4_only test_config quiet_env quiet_env empty_state
           "0.5" "0" "smtp-in" "0" "smtp-in" "7641df9771b4ed00" "" "pass" "33174"
           "1.1.1.1:25" "1ef1c203cc576e5d"
           "mail.example.org|pass|1.2.3.4:33174|1.1.1.1:25" 1 2 3 4);
    first [reflexivity | discriminate | unfold is_byte; lia | repeat constructor
          | vm_compute; reflexivity].
Defined.

(** ** The allowlist file *)

(** One line of the file, by cases. *)
Lemma loadLine_cases (X : Extern) (acc : gset string * gset Z) (line : string) :
  (line_blank X line = true /\ subnet_of_line X line = None /\
   loadLine X acc line = Ok acc) \/
  (line_blank X line = false /\ subnet_of_line X line = None /\
   loadLine X acc line = Fatal "invalid subnet: <nil>") \/
  (exists subnet,
     line_blank X line = false /\ subnet_of_line X line = Some subnet /\
     loadLine X acc line =
     Ok (if bool_decide (IPNet_String X subnet ∈ acc.1) then acc.1
         else {[IPNet_String X subnet]} ∪ acc.1,
         if bool_decide (Mask_Size (net_Mask subnet) ∈ acc.2) then acc.2
         else {[Mask_Size (net_Mask subnet)]} ∪ acc.2)).
Proof.
  unfold line_blank, subnet_of_line, loadLine, index, bind.
  destruct (Split_first_some line "#") as [text ->].
  destruct (String.eqb (TrimSpace X text) ""); [left; auto |].
  destruct (ParseCIDR X _) as [subnet|]; [| right; left; auto].
  right; right. exists subnet. auto.
Qed.

Lemma add_if_absent_iff `{Countable A} (x y : A) (S : gset A) :
  y ∈ (if bool_decide (x ∈ S) then S else {[x]} ∪ S) <-> y ∈ S \/ x = y.
Proof.
  case_bool_decide as Hx.
  - split; [auto | intros [Hy | <-]; assumption].
  - rewrite elem_of_union, elem_of_singleton.
    split; (intros [Hy | Hy]; [right | left]; easy).
Qed.

Lemma loadLines_exact (X : Extern) (lines : list string) :
  forall acc acc',
    loadLines X lines acc = Ok acc' ->
    (forall q, q ∈ acc'.1 <->
       q ∈ acc.1 \/
       exists line subnet, In line lines /\ subnet_of_line X line = Some subnet /\
                           IPNet_String X subnet = q) /\
    (forall n, n ∈ acc'.2 <->
       n ∈ acc.2 \/
       exists line subnet, In line lines /\ subnet_of_line X line = Some subnet /\
                           Mask_Size (net_Mask subnet) = n).
Proof.
  induction lines as [|l lines IH]; intros acc acc'; cbn [loadLines].
  - intros [= <-]. split; intros x; (split; [auto | intros [H | (? & ? & [] & _)]; exact H]).
  - unfold bind.
    destruct (loadLine_cases X acc l)
      as [(_ & Hnone & ->) | [(_ & _ & ->) | (subnet & _ & Hsub & ->)]];
      [| discriminate |]; intros Hrest; destruct (IH _ _ Hrest) as [H1 H2]; clear IH.
    + split; intros x; [rewrite H1 | rewrite H2];
        (split; intros [Hx | (line & sn & Hin & Hs & Heq)];
         [ now left
         | right; exists line, sn; cbn [In]; auto
         | now left
         | destruct Hin as [<- | Hin]; [congruence | right; exists line, sn; auto] ]).
    + cbn [fst snd] in H1, H2.
      split; intros x; [rewrite H1 | rewrite H2]; rewrite add_if_absent_iff;
        (split;
         [ intros [[Hx | Hx] | (line & sn & Hin & Hs & Heq)];
           [ now left
           | right; exists l, subnet; cbn [In]; auto
           | right; exists line, sn; cbn [In]; auto ]
         | intros [Hx | (line & sn & Hin & Hs & Heq)];
           [ left; now left
           | destruct Hin as [<- | Hin];
             [ left; right; congruence | right; exists line, sn; auto ] ] ]).
Qed.

Lemma loadLines_loads (X : Extern) (lines : list string) :
  forall acc,
    (Forall (line_loads X) lines -> exists acc', loadLines X lines acc = Ok acc') /\
    (~ Forall (line_loads X) lines ->
     loadLines X lines acc = Fatal "invalid subnet: <nil>").
Proof.
  induction lines as [|l lines IH]; intros acc; cbn [loadLines].
  - split; [eauto | intros H; destruct H; constructor].
  - unfold bind.
    destruct (loadLine_cases X acc l)
      as [(Hb & Hnone & ->) | [(Hb & Hnone & ->) | (subnet & Hb & Hsub & ->)]].
    + destruct (IH acc) as [Hok Hbad]. split.
      * intros Hall. apply Forall_cons in Hall as [_ Hall]. auto.
      * intros Hnot. apply Hbad. intros Hall. apply Hnot. constructor; [now left | exact Hall].
    + split; [| reflexivity].
      intros Hall. apply Forall_cons in Hall as [Hl _].
      destruct Hl as [Hl | [sn Hl]]; congruence.
    + match goal with |- context [loadLines X lines ?a] => destruct (IH a) as [Hok Hbad] end.
      split.
      * intros Hall. apply Forall_cons in Hall as [_ Hall]. auto.
      * intros Hnot. apply Hbad. intros Hall. apply Hnot.
        constructor; [right; eauto | exact Hall].
Qed.

Lemma line_loads_dec (X : Extern) (lines : list string) :
  Forall (line_loads X) lines \/ ~ Forall (line_loads X) lines.
Proof.
  induction lines as [|l lines IH]; [left; constructor |].
  assert (Hl : line_loads X l \/ ~ line_loads X l).
  { unfold line_loads. destruct (line_blank X l); [left; now left |].
    destruct (subnet_of_line X l) as [sn|]; [left; right; eauto |].
    right. intros [H | [? H]]; discriminate. }
  destruct Hl as [Hl | Hl].
  - destruct IH as [IH | IH].
    + left. now constructor.
    + right. intros H. apply Forall_cons in H as [_ H]. now apply IH.
  - right. intros H. apply Forall_cons in H as [H _]. now apply Hl.
Qed.

(** X14.  What the allowlist holds once the file is loaded: the texts of
    the subnets of the lines of the file, and nothing else; and the set of
    mask lengths holds the mask lengths of these subnets, and nothing else.
    Blank lines and comments add nothing. *)
Theorem X14_allowlist_is_the_subnets_of_the_file (X : Extern) (lines : list string)
    (al : gset string) (masks : gset Z) :
  loadAllowlists X (Opened lines None) = Ok (al, masks) ->
  (forall q, q ∈ al <->
     exists line subnet, In line lines /\ subnet_of_line X line = Some subnet /\
                         IPNet_String X subnet = q) /\
  (forall n, n ∈ masks <->
     exists line subnet, In line lines /\ subnet_of_line X line = Some subnet /\
                         Mask_Size (net_Mask subnet) = n).
Proof.
  intros Hload. rewrite loadAllowlists_opened in Hload.
  destruct (loadLines_exact X lines (∅, ∅) (al, masks) Hload) as [H1 H2].
  cbn [fst snd] in H1, H2.
  split; intros x; [rewrite H1 | rewrite H2];
    (split; [intros [Hx | Hx]; [now apply not_elem_of_empty in Hx | exact Hx] | now right]).
Qed.

Lemma X14_allowlist_is_the_subnets_of_the_file_witness :
  (forall q, q ∈ allowlist office_config <->
     exists line subnet, In line office_lines /\
                         subnet_of_line ipv4_only line = Some subnet /\
                         IPNet_String ipv4_only subnet = q) /\
  (forall n, n ∈ allowlistMasks office_config <->
     exists line subnet, In line office_lines /\
                         subnet_of_line ipv4_only line = Some subnet /\
                         Mask_Size (net_Mask subnet) = n).
Proof.
  apply (X14_allowlist_is_the_subnets_of_the_file ipv4_only office_lines).
  vm_compute. reflexivity.
Defined.

(** X15.  [loadAllowlists] never panics, and these are its outcomes.
    Without the flag it returns with both maps empty.  When the file does
    not open it is fatal with the error of [os.Open].  When the file opens,
    the lines the scanner delivers are loaded in turn, and the first one
    that is neither blank (after the comment is cut off) nor accepted by
    [net.ParseCIDR] (with [/32] added to a line without a slash) is fatal
    with [invalid subnet: <nil>], which does not name the line; when every
    line loads, it is fatal with the error of the scanner if the scanner
    stopped on one, and returns normally otherwise. *)
Theorem X15_allowlist_load_or_fatal (X : Extern) (file : FileInput) :
  (forall msg, loadAllowlists X file <> Panic msg) /\
  ((exists r, loadAllowlists X file = Ok r) <->
   file = NotGiven \/
   exists lines, file = Opened lines None /\ Forall (line_loads X) lines) /\
  (file = NotGiven -> loadAllowlists X file = Ok (∅, ∅)) /\
  (forall err, file = OpenFails err -> loadAllowlists X file = Fatal err) /\
  (forall lines scanErr,
     file = Opened lines scanErr ->
     ~ Forall (line_loads X) lines ->
     loadAllowlists X file = Fatal "invalid subnet: <nil>") /\
  (forall lines err,
     file = Opened lines (Some err) ->
     Forall (line_loads X) lines ->
     loadAllowlists X file = Fatal err).
Proof.
  assert (Hopened : forall lines scanErr,
            (Forall (line_loads X) lines ->
             loadAllowlists X (Opened lines scanErr) =
             match scanErr with
             | Some err => Fatal err
             | None => loadLines X lines (∅, ∅)
             end /\
             exists r, loadLines X lines (∅, ∅) = Ok r) /\
            (~ Forall (line_loads X) lines ->
             loadAllowlists X (Opened lines scanErr) = Fatal "invalid subnet: <nil>")).
  { intros lines scanErr. destruct (loadLines_loads X lines (∅, ∅)) as [Hok Hbad].
    unfold loadAllowlists, bind. split.
    - intros Hall. destruct (Hok Hall) as [r Hr]. rewrite Hr.
      split; [now destruct scanErr | eauto].
    - intros Hnot. now rewrite (Hbad Hnot). }
  split; [| split; [| split; [| split; [| split]]]].
  - intros msg. destruct file as [|err|lines scanErr]; [discriminate | discriminate |].
    destruct (line_loads_dec X lines) as [Hall | Hnot].
    + destruct (proj1 (Hopened lines scanErr) Hall) as [-> [r Hr]].
      destruct scanErr; [discriminate | rewrite Hr; discriminate].
    + rewrite (proj2 (Hopened lines scanErr) Hnot). discriminate.
  - split.
    + intros [r Hr]. destruct file as [|err|lines scanErr]; [now left | discriminate |].
      right. exists lines.
      destruct (line_loads_dec X lines) as [Hall | Hnot].
      * destruct (proj1 (Hopened lines scanErr) Hall) as [Heq _]. rewrite Heq in Hr.
        destruct scanErr; [discriminate | now split].
      * rewrite (proj2 (Hopened lines scanErr) Hnot) in Hr. discriminate.
    + intros [-> | (lines & -> & Hall)]; [now exists (∅, ∅) |].
      destruct (proj1 (Hopened lines None) Hall) as [-> Hr]. exact Hr.
  - now intros ->.
  - now intros err ->.
  - intros lines scanErr -> Hnot. exact (proj2 (Hopened lines scanErr) Hnot).
  - intros lines err -> Hall. exact (proj1 (proj1 (Hopened lines (Some err)) Hall)).
Qed.

Lemma X15_allowlist_load_or_fatal_witness :
  loadAllowlists ipv4_only (Opened ["1.2.3.0/24"; "# lan"] (Some "bufio.Scanner: token too long"))
  = Fatal "bufio.Scanner: token too long".
Proof.
  destruct (X15_allowlist_load_or_fatal ipv4_only
              (Opened ["1.2.3.0/24"; "# lan"] (Some "bufio.Scanner: token too long")))
    as (_ & _ & _ & _ & _ & Hscan).
  apply (Hscan ["1.2.3.0/24"; "# lan"] "bufio.Scanner: token too long"); [reflexivity |].
  apply List.Forall_cons; [right; vm_compute; eauto |].
  apply List.Forall_cons; [left; reflexivity | apply List.Forall_nil].
Defined.

(** X16.  The order of the lines of the allowlist file and their
    repetitions do not matter: two files with the same lines load the same
    allowlist and the same mask lengths. *)
Theorem X16_allowlist_order_is_irrelevant (X : Extern) (lines lines' : list string)
    (r : gset string * gset Z) :
  (forall l, In l lines <-> In l lines') ->
  loadAllowlists X (Opened lines None) = Ok r ->
  loadAllowlists X (Opened lines' None) = Ok r.
Proof.
  intros Hsame Hload. rewrite loadAllowlists_opened in *.
  assert (Hall : Forall (line_loads X) lines').
  { apply List.Forall_forall. intros l Hl. apply Hsame in Hl.
    destruct (loadLines_loads X lines (∅, ∅)) as [_ Hbad].
    destruct (loadLine_cases X (∅, ∅) l)
      as [(Hb & _) | [(Hb & Hnone & _) | (sn & _ & Hsub & _)]];
      [now left | | right; eauto].
    exfalso.
    assert (Hnot : ~ Forall (line_loads X) lines).
    { intros H. rewrite List.Forall_forall in H. destruct (H l Hl) as [H' | [? H']]; congruence. }
    rewrite (Hbad Hnot) in Hload. discriminate. }
  destruct (proj1 (loadLines_loads X lines' (∅, ∅)) Hall) as [r' Hr'].
  rewrite Hr'. f_equal.
  destruct (loadLines_exact X lines (∅, ∅) r Hload) as [H1 H2].
  destruct (loadLines_exact X lines' (∅, ∅) r' Hr') as [H1' H2'].
  destruct r as [al masks], r' as [al' masks']. cbn [fst snd] in *.
  f_equal; apply set_eq; intros x; [rewrite H1, H1' | rewrite H2, H2'];
    (split; (intros [Hx | (line & sn & Hin & Hrest)];
             [now left | right; exists line, sn; split; [now apply Hsame | exact Hrest]])).
Qed.

Lemma X16_allowlist_order_is_irrelevant_witness :
  loadAllowlists ipv4_only
    (Opened ["10.0.0.1"; "# the office"; "1.2.3.0/24#lan"; "10.0.0.1"] None) =
  Ok (allowlist office_config, allowlistMasks office_config).
Proof.
  apply (X16_allowlist_order_is_irrelevant ipv4_only office_lines).
  - intros l. cbn [In office_lines]. tauto.
  - vm_compute. reflexivity.
Defined.

(** ** The start of [main] *)

Lemma skipConfig_None (stdin : list (Env * string)) :
  skipConfig stdin = None <-> ~ In "config|ready" (map snd stdin).
Proof.
  induction stdin as [|[E line] stdin IH]; cbn [skipConfig map snd In]; [tauto |].
  destruct (String.eqb line "config|ready") eqn:Hl.
  - apply String.eqb_eq in Hl. subst line. split; [discriminate | intros H; destruct H; auto].
  - apply String.eqb_neq in Hl. rewrite IH. split.
    + intros H [Heq | Hin]; [now apply Hl | now apply H].
    + intros H Hin. apply H. now right.
Qed.

Lemma filterInit_not_nil (B : Boot) : filterInit B <> [].
Proof.
  unfold filterInit. intros H.
  apply app_eq_nil in H as [_ H]. apply app_eq_nil in H as [_ H]. discriminate.
Qed.

Lemma main_eq (X : Extern) (flags : Config) (B : Boot) (allowlistFile : FileInput)
    (stdin : list (Env * string)) (r : gset string * gset Z) :
  check_flags flags = Ok tt ->
  loadAllowlists X allowlistFile = Ok r ->
  main X flags B allowlistFile stdin =
  match skipConfig stdin with
  | None => ([], [], Ok {| sessions := ∅; version := "" |})
  | Some rest =>
      (filterInit B, (run X (loaded flags r) rest {| sessions := ∅; version := "" |}).1,
       (run X (loaded flags r) rest {| sessions := ∅; version := "" |}).2)
  end.
Proof.
  intros Hflags Hload. unfold main. rewrite Hflags, Hload. destruct r as [al masks].
  destruct (skipConfig stdin) as [rest|]; [| reflexivity].
  unfold loaded. cbn [fst snd].
  now destruct (run X _ rest _).
Qed.

(** X17.  [main] prints its registration lines exactly when the flags are
    accepted (a domain is given and the block phase is one [validatePhase]
    knows), the allowlist file loads, and the standard input holds the line
    [config|ready].  When it does not register, it handles no event; and
    with good flags and a good allowlist, an input that ends before
    [config|ready] is a normal exit, not an error. *)
Theorem X17_registers_when_configured (X : Extern) (flags : Config) (B : Boot)
    (allowlistFile : FileInput) (stdin : list (Env * string)) :
  ((main X flags B allowlistFile stdin).1.1 <> [] <->
   check_flags flags = Ok tt /\
   (exists r, loadAllowlists X allowlistFile = Ok r) /\
   In "config|ready" (map snd stdin)) /\
  ((main X flags B allowlistFile stdin).1.1 = [] ->
   (main X flags B allowlistFile stdin).1.2 = []) /\
  (check_flags flags = Ok tt ->
   (exists r, loadAllowlists X allowlistFile = Ok r) ->
   ~ In "config|ready" (map snd stdin) ->
   main X flags B allowlistFile stdin = ([], [], Ok {| sessions := ∅; version := "" |})).
Proof.
  destruct (check_flags flags) as [[]| |] eqn:Hflags.
  2, 3: unfold main; rewrite Hflags; cbn [fst snd];
        (split; [split; [intros H; now destruct H | intros [H _]; discriminate] |]);
        (split; [reflexivity | discriminate]).
  destruct (loadAllowlists X allowlistFile) as [r| |] eqn:Hload.
  2, 3: unfold main; rewrite Hflags, Hload; cbn [fst snd];
        (split; [split; [intros H; now destruct H | intros (_ & [? H] & _); discriminate] |]);
        (split; [reflexivity | intros _ [? H]; discriminate]).
  rewrite (main_eq X flags B allowlistFile stdin r Hflags Hload).
  destruct (skipConfig stdin) as [rest|] eqn:Hskip; cbn [fst snd].
  - assert (Hin : In "config|ready" (map snd stdin)).
    { destruct (in_dec string_dec "config|ready" (map snd stdin)) as [Hin | Hnot];
        [exact Hin |].
      apply skipConfig_None in Hnot. congruence. }
    split; [split; [eauto | intros _; apply filterInit_not_nil] |].
    split; [intros H; now apply filterInit_not_nil in H |].
    intros _ _ Hnot. contradiction.
  - apply skipConfig_None in Hskip.
    split; [split; [intros H; now destruct H | intros (_ & _ & Hin); contradiction] |].
    split; reflexivity.
Qed.

Lemma X17_registers_when_configured_witness :
  main ipv4_only test_config default_boot NotGiven
    [(quiet_env, "config|smtp-session-timeout|300")] =
  ([], [], Ok {| sessions := ∅; version := "" |}).
Proof.
  destruct (X17_registers_when_configured ipv4_only test_config default_boot NotGiven
              [(quiet_env, "config|smtp-session-timeout|300")]) as (_ & _ & Hexit).
  apply Hexit.
  - reflexivity.
  - eexists. reflexivity.
  - cbn [map snd In]. intros [H | []]. discriminate.
Defined.

(** X18.  Everything before the first [config|ready] is ignored, whatever
    it is: the outcome of [main] is that of the input without these lines.
    A later [config|ready] is not: it is read as an event and, with flags
    and an allowlist that are accepted, ends the process with
    [missing atoms]. *)
Theorem X18_preamble_is_ignored (X : Extern) (flags : Config) (B : Boot)
    (allowlistFile : FileInput) (preamble rest : list (Env * string)) (E E' : Env) :
  ~ In "config|ready" (map snd preamble) ->
  main X flags B allowlistFile (preamble ++ (E, "config|ready") :: rest) =
  main X flags B allowlistFile ((E, "config|ready") :: rest) /\
  (check_flags flags = Ok tt ->
   (exists r, loadAllowlists X allowlistFile = Ok r) ->
   main X flags B allowlistFile (preamble ++ (E, "config|ready") :: (E', "config|ready") :: rest) =
   (filterInit B, [], Fatal ("missing atoms: " +:+ "config|ready"))).
Proof.
  intros Hpre.
  assert (Hskip : forall tail,
            skipConfig (preamble ++ (E, "config|ready") :: tail) = Some tail).
  { intros tail. induction preamble as [|[Ep line] preamble IH]; [reflexivity |].
    cbn [app skipConfig]. cbn [map snd In] in Hpre.
    destruct (String.eqb line "config|ready") eqn:Hl.
    - apply String.eqb_eq in Hl. subst line. destruct Hpre. now left.
    - apply IH. intros Hin. apply Hpre. now right. }
  split.
  - unfold main. rewrite Hskip. reflexivity.
  - intros Hflags [r Hload].
    rewrite (main_eq X flags B allowlistFile _ r Hflags Hload), Hskip.
    reflexivity.
Qed.

Lemma X18_preamble_is_ignored_witness :
  main ipv4_only test_config default_boot NotGiven
    ([(quiet_env, "config|smtp-session-timeout|300"); (quiet_env, "")]
     ++ (quiet_env, "config|ready") :: []) =
  main ipv4_only test_config default_boot NotGiven ((quiet_env, "config|ready") :: []).
Proof.
  destruct (X18_preamble_is_ignored ipv4_only test_config default_boot NotGiven
              [(quiet_env, "config|smtp-session-timeout|300"); (quiet_env, "")] []
              quiet_env quiet_env) as [Hsame _].
  - cbn [map snd In]. intros [H | [H | []]]; discriminate.
  - exact Hsame.
Defined.

(** ** The store *)

Lemma handleLine_fields (line : string) (stream ver a2 a3 phase sid : string)
    (params : list string) :
  Split line "|" = stream :: ver :: a2 :: a3 :: phase :: sid :: params ->
  field 0 line = stream /\ field 1 line = ver /\ field 4 line = phase /\ field 5 line = sid.
Proof. intros H. unfold field. rewrite H. repeat split. Qed.

(** What one turn does to the presence of a session. *)
Lemma handleLine_live (X : Extern) (cfg : Config) (E : Env) (line : string)
    (st st' : State) (es : list effect) (k : string) :
  handleLine X cfg E line st = Ok (st', es) ->
  bool_decide (is_Some (sessions st' !! k)) =
  if String.eqb (field 0 line) "report" && String.eqb (field 5 line) k
  then String.eqb (field 4 line) "link-connect"
  else bool_decide (is_Some (sessions st !! k)).
Proof.
  intros Hr.
  destruct (handleLine_inv X cfg E line st st' es Hr)
    as (stream & ver & a2 & a3 & phase & sid & params & h & Hs & Hh & Hrun).
  destruct (handleLine_fields line _ _ _ _ _ _ _ Hs) as (-> & _ & -> & ->).
  destruct Hh as [[-> Hh] | [-> Hh]]; cbn [String.eqb Ascii.eqb Bool.eqb andb].
  - destruct (reporters_cases X cfg E phase h Hh) as [[-> ->] | [-> ->]].
    + destruct (linkConnect_score_range X cfg E _ _ _ _ _ _ Hrun) as (sc & -> & _).
      destruct (String.eqb sid k) eqn:Hk.
      * apply String.eqb_eq in Hk. subst k. rewrite set_session_lookup.
        apply bool_decide_eq_true_2. eauto.
      * apply String.eqb_neq in Hk. now rewrite set_session_lookup_ne.
    + unfold linkDisconnect in Hrun.
      destruct (negb (Nat.eqb (List.length params) 0)); [discriminate |].
      injection Hrun as <- _. cbn [sessions].
      destruct (String.eqb sid k) eqn:Hk.
      * apply String.eqb_eq in Hk. subst k. rewrite lookup_delete_eq.
        apply bool_decide_eq_false_2. now intros [? ?].
      * apply String.eqb_neq in Hk. now rewrite lookup_delete_ne.
  - pose proof (filters_keep_score cfg phase h sid params _ st' es Hh Hrun k) as Hsc.
    cbn [sessions] in Hsc.
    destruct (sessions st' !! k), (sessions st !! k); try discriminate; reflexivity.
Qed.

(** X19.  Which sessions are in the store when the loop has handled a
    list of events normally can be read off the events: a session is there
    exactly when the last report event that names it is a link-connect, or,
    with no report event for it, when it was there before.  Filter events
    never add or remove a session, and a session stays until its
    link-disconnect. *)
Theorem X19_store_follows_the_reports (X : Extern) (cfg : Config)
    (events : list (Env * string)) :
  forall (st st' : State) (ess : list (list effect)) (k : string),
    run X cfg events st = (ess, Ok st') ->
    (is_Some (sessions st' !! k) <->
     live_after events k (bool_decide (is_Some (sessions st !! k))) = true).
Proof.
  induction events as [|[E line] events IH]; intros st st' ess k; cbn [run].
  - intros [= _ <-]. unfold live_after. cbn [fold_left].
    now rewrite bool_decide_eq_true.
  - destruct (handleLine X cfg E line st) as [[st1 es]| |] eqn:Hl; [| discriminate ..].
    destruct (run X cfg events st1) as [ess1 r] eqn:Hrun.
    intros [= _ ->].
    rewrite (IH st1 st' ess1 k Hrun).
    unfold live_after. cbn [fold_left snd].
    now rewrite (handleLine_live X cfg E line st st1 es k Hl).
Qed.

Lemma X19_store_follows_the_reports_witness :
  is_Some
    (sessions
       {| sessions := {[ "7641df9771b4ed00" := fresh_session 4 ]}; version := "0.5" |}
     !! "7641df9771b4ed00") <->
  live_after
    [ (quiet_env,
       "report|0.5|0|smtp-in|link-connect|7641df9771b4ed00||pass|1.2.3.4:33174|1.1.1.1:25") ]
    "7641df9771b4ed00"
    (bool_decide (is_Some (sessions empty_state !! "7641df9771b4ed00"))) = true.
Proof.
  apply (X19_store_follows_the_reports ipv4_only test_config _ empty_state _ [[]]).
  vm_compute. reflexivity.
Defined.

(** ** The scores of the sessions [main] can reach *)

Lemma linkConnect_score_floor (X : Extern) (cfg : Config) (E : Env)
    (phase sessionId : string) (params : list string) (st st' : State) (es : list effect) :
  linkConnect X cfg E phase sessionId params st = Ok (st', es) ->
  exists sc, st' = set_session st sessionId (fresh_session sc) /\
             score_floor cfg <= sc <= 127.
Proof.
  intros Hr.
  destruct (Nat.eqb (List.length params) 4) eqn:Hlen.
  2: { unfold linkConnect in Hr. rewrite Hlen in Hr. discriminate. }
  apply Nat.eqb_eq in Hlen.
  destruct params as [|p0 [|p1 [|p2 [|p3 [|p4 params]]]]]; try discriminate.
  destruct (Split_first_some p2 ":") as [host Hhost].
  assert (Hfloor : -128 <= score_floor cfg <= -1).
  { unfold score_floor. destruct (testMode cfg); lia. }
  destruct (ParseIP X host) as [addr|] eqn:Hparse.
  - destruct (ParseIP_no_colon X host addr (Split_first_no_sep _ _ _ Hhost) Hparse)
      as (a & b & c & d & -> & Ha & Hb & Hc & Hd).
    rewrite (linkConnect_octets X cfg E phase sessionId p0 p1 p2 p3 host st a b c d
               Hhost Hparse Ha Hb Hc Hd) in Hr.
    injection Hr as <- _. eexists. split; [reflexivity |].
    unfold score_of_octets, score_floor.
    destruct (allowlisted X cfg (rangeMasks E) _); [cbn [fst]; destruct (testMode cfg); lia |].
    destruct (testMode cfg); cbn [fst].
    + destruct Hd as [Hd0 Hd1]. destruct (d =? 255); lia.
    + apply int8_range.
  - rewrite (linkConnect_unparsed X cfg E phase sessionId p0 p1 p2 p3 host st Hhost Hparse)
      in Hr.
    injection Hr as <- _. exists (-1). split; [reflexivity | lia].
Qed.

Lemma handleLine_score_floor (X : Extern) (cfg : Config) (E : Env) (line : string)
    (st st' : State) (es : list effect) :
  (forall k s, sessions st !! k = Some s -> score_floor cfg <= score s <= 127) ->
  handleLine X cfg E line st = Ok (st', es) ->
  forall k s, sessions st' !! k = Some s -> score_floor cfg <= score s <= 127.
Proof.
  intros Hst Hr.
  destruct (handleLine_inv X cfg E line st st' es Hr)
    as (stream & ver & a2 & a3 & phase & sid & params & h & Hs & Hh & Hrun).
  destruct Hh as [[-> Hh] | [-> Hh]].
  - destruct (reporters_cases X cfg E phase h Hh) as [[-> ->] | [-> ->]].
    + destruct (linkConnect_score_floor X cfg E _ _ _ _ _ _ Hrun) as (sc & -> & Hsc).
      intros k s. destruct (decide (sid = k)) as [<- | Hne].
      * rewrite set_session_lookup. now intros [= <-].
      * rewrite set_session_lookup_ne by exact Hne. apply Hst.
    + unfold linkDisconnect in Hrun.
      destruct (negb (Nat.eqb (List.length params) 0)); [discriminate |].
      injection Hrun as <- _. cbn [sessions]. intros k s.
      destruct (decide (sid = k)) as [<- | Hne].
      * now rewrite lookup_delete_eq.
      * rewrite lookup_delete_ne by exact Hne. apply Hst.
  - intros k s' Hs'.
    pose proof (filters_keep_score cfg phase h sid params _ st' es Hh Hrun k) as Hsc.
    cbn [sessions] in Hsc. rewrite Hs' in Hsc.
    destruct (sessions st !! k) as [s|] eqn:Hk; [| discriminate].
    injection Hsc as ->. exact (Hst k s Hk).
Qed.

Lemma run_score_floor (X : Extern) (cfg : Config) (events : list (Env * string)) :
  forall st ess st',
    (forall k s, sessions st !! k = Some s -> score_floor cfg <= score s <= 127) ->
    run X cfg events st = (ess, Ok st') ->
    forall k s, sessions st' !! k = Some s -> score_floor cfg <= score s <= 127.
Proof.
  induction events as [|[E line] events IH]; intros st ess st' Hst; cbn [run].
  - now intros [= _ <-].
  - destruct (handleLine X cfg E line st) as [[st1 es]| |] eqn:Hl; [| discriminate ..].
    destruct (run X cfg events st1) as [ess1 r] eqn:Hrun.
    intros [= _ ->].
    exact (IH st1 ess1 st' (handleLine_score_floor X cfg E line st st1 es Hst Hl) Hrun).
Qed.

(** X20.  Whatever the input, every session in the store when [main] ends
    normally has a score that an [int8] holds; in test mode the score is
    -1 (unknown) or between 0 and 127. *)
Theorem X20_reachable_scores (X : Extern) (flags : Config) (B : Boot)
    (allowlistFile : FileInput) (stdin : list (Env * string))
    (reg : list string) (ess : list (list effect)) (st : State) :
  main X flags B allowlistFile stdin = (reg, ess, Ok st) ->
  forall k s, sessions st !! k = Some s ->
    -128 <= score s <= 127 /\ (testMode flags = true -> -1 <= score s).
Proof.
  intros Hmain k s Hs.
  assert (Hfloor : score_floor flags <= score s <= 127).
  { unfold main in Hmain.
    destruct (check_flags flags) as [[]| |]; [| discriminate ..].
    destruct (loadAllowlists X allowlistFile) as [[al masks]| |]; [| discriminate ..].
    destruct (skipConfig stdin) as [rest|].
    - match type of Hmain with
      | context [run X ?cfg rest ?st0] =>
          destruct (run X cfg rest st0) as [ess1 r] eqn:Hrun;
          injection Hmain as _ _ ->;
          exact (run_score_floor X cfg rest st0 ess1 st
                   ltac:(intros ? ? H; cbn [sessions] in H; now rewrite lookup_empty in H)
                   Hrun k s Hs)
      end.
    - injection Hmain as _ _ <-. cbn [sessions] in Hs. now rewrite lookup_empty in Hs. }
  unfold score_floor in Hfloor.
  destruct (testMode flags); split; try lia; intros; try lia; discriminate.
Qed.

Lemma X20_reachable_scores_witness :
  -128 <= score (fresh_session 127) <= 127 /\
  (testMode test_config = true -> -1 <= score (fresh_session 127)).
Proof.
  apply (X20_reachable_scores ipv4_only test_config default_boot NotGiven
           [ (quiet_env, "config|ready");
             (quiet_env,
              "report|0.5|0|smtp-in|link-connect|7641df9771b4ed00||pass|1.2.3.200:33174|1.1.1.1:25") ]
           (filterInit default_boot) [[]]
           (set_session {| sessions := ∅; version := "0.5" |} "7641df9771b4ed00"
              (fresh_session 127)))
    with (k := "7641df9771b4ed00").
  - vm_compute. reflexivity.
  - reflexivity.
Defined.

(** ** How the responses are sent *)

Lemma dataline_emits (cfg : Config) (phase sessionId : string) (params : list string)
    (st st' : State) (es : list effect) :
  dataline cfg phase sessionId params st = Ok (st', es) ->
  Forall (fun e => exists out, e = Emit 0 out) es.
Proof.
  unfold dataline, getSession, index, bind.
  destruct (sessions st !! sessionId) as [s|]; [| discriminate].
  destruct (params !! 0%nat) as [token|]; [| discriminate].
  intros Hr.
  destruct (first_line s); [destruct (negb (score s =? -1) && scoreHeader cfg) |];
    simpl in Hr;
    repeat (match type of Hr with
            | context [produceOutput ?a ?b ?c ?d ?e] =>
                destruct (produceOutput a b c d e) as [?o| |]; simpl in Hr
            end);
    try discriminate Hr;
    injection Hr as _ <-; repeat constructor; eauto.
Qed.

Lemma sleep_of_nonneg (d : Z) : 0 <= sleep_of d.
Proof. unfold sleep_of. destruct (0 <? d); lia. Qed.

(** X21.  Only verdicts are deferred.  The responses of a data-line event
    are written by the handler itself and without delay, in test mode or
    not, so the body lines keep their order.  The response of every other
    filter event comes after a sleep of the delay of the session (a
    duration that is never negative): in test mode the handler sleeps and
    writes the line; otherwise it starts one goroutine for the session id,
    the token and the verdict of the event, which sleeps and then writes
    it. *)
Theorem X21_only_verdicts_are_deferred (X : Extern) (cfg : Config) (E : Env)
    (line : string) (st st' : State) (es : list effect) :
  handleLine X cfg E line st = Ok (st', es) ->
  field 0 line = "filter" ->
  (field 4 line = "data-line" ->
   Forall (fun e => exists out, e = Emit 0 out) es) /\
  (field 4 line <> "data-line" ->
   exists s' token text out,
     sessions st' !! field 5 line = Some s' /\
     drop 6 (Split line "|") !! 0%nat = Some token /\
     es = [response cfg (sleep_of (delay s')) (field 5 line) token text out] /\
     0 <= sleep_of (delay s')).
Proof.
  intros Hr Hfilter.
  destruct (handleLine_inv X cfg E line st st' es Hr)
    as (stream & ver & a2 & a3 & phase & sid & params & h & Hs & Hh & Hrun).
  destruct (handleLine_fields line _ _ _ _ _ _ _ Hs) as (H0 & _ & H4 & H5).
  rewrite H4, H5. rewrite H0 in Hfilter. subst stream.
  rewrite Hs. cbn [drop].
  destruct Hh as [[Hne _] | [_ Hh]]; [discriminate |].
  set (st1 := {| sessions := sessions st; version := ver |}) in *.
  destruct (filters_cases cfg phase h Hh) as [[-> ->] | [[-> ->] | (_ & Hp & ->)]].
  - split; [discriminate |]. intros _.
    destruct (sessions st1 !! sid) as [s|] eqn:Hsess.
    2: { unfold filterConnect, getSession, bind in Hrun. rewrite Hsess in Hrun.
         discriminate. }
    rewrite (filterConnect_eq cfg "connect" sid params st1 s Hsess) in Hrun.
    destruct (connect_delay cfg s) as [d| |]; [| discriminate ..].
    cbn [bind] in Hrun.
    apply delayed_inv in Hrun as (s' & tok & out & Hs' & Ht & _ & -> & ->).
    eexists s', tok, _, out. split; [exact Hs' |]. split; [exact Ht |].
    split; [reflexivity | apply sleep_of_nonneg].
  - split; [| intros H; now destruct H]. intros _.
    exact (dataline_emits cfg "data-line" sid params st1 st' es Hrun).
  - split; [intros H; now destruct Hp |]. intros _.
    destruct (sessions st1 !! sid) as [s|] eqn:Hsess.
    2: { unfold delayedAnswer, getSession, bind in Hrun. rewrite Hsess in Hrun.
         discriminate. }
    rewrite (delayedAnswer_eq cfg phase sid params st1 s Hsess) in Hrun.
    apply delayed_inv in Hrun as (s' & tok & out & Hs' & Ht & _ & -> & ->).
    eexists s', tok, _, out. split; [exact Hs' |]. split; [exact Ht |].
    split; [reflexivity | apply sleep_of_nonneg].
Qed.

Lemma X21_only_verdicts_are_deferred_witness :
  exists s' token text out,
    sessions {| sessions := sessions busy_state; version := "0.5" |}
      !! field 5 "filter|0.5|0|smtp-in|helo|7641df9771b4ed00|1ef1c203cc576e5d|mail.example.org"
    = Some s' /\
    drop 6 (Split "filter|0.5|0|smtp-in|helo|7641df9771b4ed00|1ef1c203cc576e5d|mail.example.org"
              "|") !! 0%nat = Some token /\
    [Go 250000000 "7641df9771b4ed00" "1ef1c203cc576e5d" "proceed"] =
    [response two_lists_config (sleep_of (delay s'))
       (field 5 "filter|0.5|0|smtp-in|helo|7641df9771b4ed00|1ef1c203cc576e5d|mail.example.org")
       token text out] /\
    0 <= sleep_of (delay s').
Proof.
  destruct (X21_only_verdicts_are_deferred ipv4_only two_lists_config quiet_env
              "filter|0.5|0|smtp-in|helo|7641df9771b4ed00|1ef1c203cc576e5d|mail.example.org"
              busy_state {| sessions := sessions busy_state; version := "0.5" |}
              [Go 250000000 "7641df9771b4ed00" "1ef1c203cc576e5d" "proceed"])
    as [_ Hverdict].
  - vm_compute. reflexivity.
  - reflexivity.
  - apply Hverdict. vm_compute. discriminate.
Defined.

(** ** The parameters of the report events *)

(** X22.  A link-connect report is handled normally exactly when it has
    four parameters, and a link-disconnect report exactly when it has none;
    otherwise the process ends with [invalid input, shouldn't happen].  No
    report event makes the process panic, whatever the text of the
    address. *)
Theorem X22_report_arity (X : Extern) (cfg : Config) (E : Env) (line : string) (st : State)
    (ver a2 a3 phase sessionId : string) (params : list string) :
  Split line "|" = "report" :: ver :: a2 :: a3 :: phase :: sessionId :: params ->
  phase = "link-connect" \/ phase = "link-disconnect" ->
  let arity := if String.eqb phase "link-connect" then 4%nat else 0%nat in
  (List.length params = arity ->
   exists st' es, handleLine X cfg E line st = Ok (st', es)) /\
  (List.length params <> arity ->
   handleLine X cfg E line st = Fatal "invalid input, shouldn't happen").
Proof.
  intros Hs Hphase arity.
  rewrite (handleLine_report X cfg E line st ver a2 a3 phase sessionId params Hs).
  destruct Hphase as [-> | ->]; subst arity;
    cbn [String.eqb Ascii.eqb Bool.eqb reporters table_lookup].
  - split.
    + intros Hlen.
      destruct (linkConnect_stores_fresh X cfg E "link-connect" sessionId params
                  {| sessions := sessions st; version := ver |} Hlen) as (sc & es & ->).
      eauto.
    + intros Hlen. unfold linkConnect.
      apply Nat.eqb_neq in Hlen. now rewrite Hlen.
  - unfold linkDisconnect. split.
    + intros Hlen. rewrite Hlen. cbn [Nat.eqb negb]. eauto.
    + intros Hlen. apply Nat.eqb_neq in Hlen. now rewrite Hlen.
Qed.

Lemma X22_report_arity_witness :
  handleLine ipv4_only test_config quiet_env
    "report|0.5|0|smtp-in|link-connect|7641df9771b4ed00|a|b|pass|1.2.3.4:33174|1.1.1.1:25"
    empty_state =
  Fatal "invalid input, shouldn't happen".
Proof.
  destruct (X22_report_arity ipv4_only test_config quiet_env
              "report|0.5|0|smtp-in|link-connect|7641df9771b4ed00|a|b|pass|1.2.3.4:33174|1.1.1.1:25"
              empty_state "0.5" "0" "smtp-in" "link-connect" "7641df9771b4ed00"
              ["a"; "b"; "pass"; "1.2.3.4:33174"; "1.1.1.1:25"]) as [_ Hfatal].
  - reflexivity.
  - now left.
  - apply Hfatal. discriminate.
Defined.

(** ** Who the allowlist lets through *)

Lemma allowlisted_inv (X : Extern) (cfg : Config) (order : list Z) (addr : list Z) :
  allowlisted X cfg order addr = true ->
  exists n, In n order /\
    IP_String X (Mask addr (CIDRMask n 32)) +:+ "/" +:+ FormatInt n ∈ allowlist cfg.
Proof.
  induction order as [|m order IH]; cbn [allowlisted]; [discriminate |].
  case_bool_decide as Hq.
  - intros _. exists m. split; [now left | exact Hq].
  - intros H. destruct (IH H) as (n & Hin & Hn). exists n. split; [now right | exact Hn].
Qed.

Lemma land_octet (x m : Z) : is_byte m -> is_byte (Z.land x m).
Proof.
  intros [Hlo Hhi]. unfold is_byte.
  assert (Hm : Z.land m (Z.ones 8) = m).
  { rewrite Z.land_ones by lia. apply Z.mod_small. change (2 ^ 8) with 256. lia. }
  assert (Hr : Z.land (Z.land x m) (Z.ones 8) = Z.land x m).
  { now rewrite <- Z.land_assoc, Hm. }
  rewrite Z.land_ones in Hr by lia. rewrite <- Hr.
  change (2 ^ 8) with 256. apply Z.mod_pos_bound. lia.
Qed.

Lemma cidr_mask_octets_all : forallb cidr_mask_octets mask_lengths = true.
Proof. vm_compute. reflexivity. Qed.

(** An IPv4 mask is four octets. *)
Lemma CIDRMask_32_octets (n : Z) :
  0 <= n <= 32 ->
  exists m0 m1 m2 m3,
    CIDRMask n 32 = [m0; m1; m2; m3] /\
    is_byte m0 /\ is_byte m1 /\ is_byte m2 /\ is_byte m3.
Proof.
  intros Hn. destruct (CIDRMask_32 n Hn) as [Hl _].
  pose proof (mask_lengths_forallb _ cidr_mask_octets_all n Hn) as Hb.
  unfold cidr_mask_octets in Hb.
  apply four_octets; [exact Hl |].
  apply List.Forall_forall. intros m Hm.
  rewrite forallb_forall in Hb. specialize (Hb m Hm).
  apply andb_true_iff in Hb as [H0 H1].
  apply Z.leb_le in H0. apply Z.ltb_lt in H1. split; assumption.
Qed.

(** The text of four octets tells the octets, and the text of a length
    tells the length. *)
Lemma dotted4_inj (a b c d a' b' c' d' : Z) :
  is_byte a -> is_byte b -> is_byte c -> is_byte d ->
  is_byte a' -> is_byte b' -> is_byte c' -> is_byte d' ->
  dotted4 a b c d = dotted4 a' b' c' d' ->
  [a; b; c; d] = [a'; b'; c'; d'].
Proof.
  intros Ha Hb Hc Hd Ha' Hb' Hc' Hd' Heq.
  pose proof (ParseIP_dotted4 ipv4_only a b c d Ha Hb Hc Hd) as H1.
  pose proof (ParseIP_dotted4 ipv4_only a' b' c' d' Ha' Hb' Hc' Hd') as H2.
  rewrite Heq, H2 in H1. injection H1 as -> -> -> ->. reflexivity.
Qed.

Lemma FormatInt_inj (m n : Z) : 0 <= m -> 0 <= n -> FormatInt m = FormatInt n -> m = n.
Proof.
  intros Hm Hn Heq.
  destruct (FormatInt_digits m Hm) as [H1 _]. destruct (FormatInt_digits n Hn) as [H2 _].
  rewrite Heq in H1. congruence.
Qed.

Lemma dotted4_no_slash (a b c d : Z) :
  is_byte a -> is_byte b -> is_byte c -> is_byte d ->
  Contains (dotted4 a b c d) "/" = false.
Proof.
  intros [Ha _] [Hb _] [Hc _] [Hd _]. unfold dotted4.
  rewrite !Contains_append, !FormatInt_no_mark by first [assumption | reflexivity].
  reflexivity.
Qed.

Lemma probe_inj (a b c d a' b' c' d' m n : Z) :
  is_byte a -> is_byte b -> is_byte c -> is_byte d ->
  is_byte a' -> is_byte b' -> is_byte c' -> is_byte d' ->
  0 <= m -> 0 <= n ->
  dotted4 a b c d +:+ "/" +:+ FormatInt m = dotted4 a' b' c' d' +:+ "/" +:+ FormatInt n ->
  [a; b; c; d] = [a'; b'; c'; d'] /\ m = n.
Proof.
  intros Ha Hb Hc Hd Ha' Hb' Hc' Hd' Hm Hn Heq.
  apply (f_equal (fun s => Split s "/")) in Heq.
  change (?x +:+ "/" +:+ ?y) with (x +:+ String "/" y) in Heq.
  rewrite !Split_app in Heq by now apply dotted4_no_slash.
  rewrite !Split_no_sep in Heq by now apply FormatInt_no_mark.
  injection Heq as Hd4 Hf. split.
  - now apply dotted4_inj.
  - now apply FormatInt_inj.
Qed.

(** What the allowlist stores for a subnet in IPv4 notation. *)
Lemma subnet_v4_text (X : Extern) (text : string) (subnet : IPNet) :
  ParseCIDR X text = Some subnet ->
  List.length (net_Mask subnet) = 4%nat ->
  exists y0 y1 y2 y3 n,
    0 <= n <= 32 /\
    is_byte y0 /\ is_byte y1 /\ is_byte y2 /\ is_byte y3 /\
    net_IP subnet = [y0; y1; y2; y3] /\
    net_Mask subnet = CIDRMask n 32 /\
    IPNet_String X subnet = dotted4 y0 y1 y2 y3 +:+ "/" +:+ FormatInt n /\
    Mask_Size (net_Mask subnet) = n.
Proof.
  intros Hparse Hlen.
  destruct (ParseCIDR_v4 X text subnet Hparse Hlen) as (f0 & f1 & f2 & f3 & n & Hn & ->).
  destruct (IPNet_String_v4 X f0 f1 f2 f3 n Hn) as [Hstr Hsize].
  destruct (CIDRMask_32_octets n Hn) as (m0 & m1 & m2 & m3 & Hm & H0 & H1 & H2 & H3).
  cbn [net_IP net_Mask] in *. rewrite Hm, Mask_v4 in Hstr. rewrite Hm in Hsize.
  rewrite Hm, Mask_v4.
  exists (Z.land f0 m0), (Z.land f1 m1), (Z.land f2 m2), (Z.land f3 m3), n.
  split; [exact Hn |].
  do 4 (split; [now apply land_octet |]).
  split; [reflexivity |]. split; [first [reflexivity | now symmetry] |].
  split; [exact Hstr | exact Hsize].
Qed.

(** X23.  An allowlist file whose subnets are all written in IPv4 notation
    lets through the clients of these subnets and no other: for an IPv4
    client, the allowlist loop of [linkConnect] finds a match exactly when
    some line of the file stands for a subnet that holds the address (the
    address masked with the mask of the subnet is its network number), in
    whatever order the loop visits the mask lengths. *)
Theorem X23_allowlisted_iff_in_a_subnet (X : Extern) (cfg : Config) (E : Env)
    (lines : list string) (a b c d : Z) :
  loadAllowlists X (Opened lines None) = Ok (allowlist cfg, allowlistMasks cfg) ->
  (forall line subnet,
     In line lines -> subnet_of_line X line = Some subnet ->
     List.length (net_Mask subnet) = 4%nat) ->
  is_byte a -> is_byte b -> is_byte c -> is_byte d ->
  rangeMasks E ≡ₚ elements (allowlistMasks cfg) ->
  (allowlisted X cfg (rangeMasks E) (v4InV6Prefix ++ [a; b; c; d]) = true <->
   exists line subnet,
     In line lines /\ subnet_of_line X line = Some subnet /\
     Mask (v4InV6Prefix ++ [a; b; c; d]) (net_Mask subnet) = net_IP subnet).
Proof.
  intros Hload Hv4 Ha Hb Hc Hd Horder.
  rewrite loadAllowlists_opened in Hload.
  destruct (loadLines_exact X lines (∅, ∅) _ Hload) as [Hal Hmasks].
  cbn [fst snd] in Hal, Hmasks.
  split.
  - intros Hhit.
    destruct (allowlisted_inv X cfg _ _ Hhit) as (m & Hin & Hq).
    assert (Hm : 0 <= m <= 32).
    { apply list_elem_of_In in Hin. rewrite Horder in Hin. apply elem_of_elements in Hin.
      apply Hmasks in Hin as [Hin | (line & subnet & Hl & Hsub & Hsize)];
        [now apply not_elem_of_empty in Hin |].
      destruct (subnet_of_line_parsed X line subnet Hsub) as [text Hparse].
      destruct (subnet_v4_text X text subnet Hparse (Hv4 line subnet Hl Hsub))
        as (y0 & y1 & y2 & y3 & n & Hn & _ & _ & _ & _ & _ & _ & _ & Hsz).
      congruence. }
    apply Hal in Hq as [Hq | (line & subnet & Hl & Hsub & Hstr)];
      [now apply not_elem_of_empty in Hq |].
    exists line, subnet. split; [exact Hl |]. split; [exact Hsub |].
    destruct (subnet_of_line_parsed X line subnet Hsub) as [text Hparse].
    destruct (subnet_v4_text X text subnet Hparse (Hv4 line subnet Hl Hsub))
      as (y0 & y1 & y2 & y3 & n & Hn & Hy0 & Hy1 & Hy2 & Hy3 & Hip & Hmask & Htext & _).
    destruct (CIDRMask_32_octets m Hm) as (m0 & m1 & m2 & m3 & Hmm & H0 & H1 & H2 & H3).
    rewrite Htext, Hmm, Mask_v4 in Hstr.
    change (IP_String X [Z.land a m0; Z.land b m1; Z.land c m2; Z.land d m3])
      with (dotted4 (Z.land a m0) (Z.land b m1) (Z.land c m2) (Z.land d m3)) in Hstr.
    apply probe_inj in Hstr as [Hoct Hlen];
      try (now apply land_octet); try assumption; try lia.
    subst n. rewrite Hmask, Hip, Hmm, Mask_v4. now symmetry.
  - intros (line & subnet & Hl & Hsub & Hmatch).
    destruct (subnet_of_line_parsed X line subnet Hsub) as [text Hparse].
    destruct (subnet_v4_text X text subnet Hparse (Hv4 line subnet Hl Hsub))
      as (y0 & y1 & y2 & y3 & n & Hn & _ & _ & _ & _ & Hip & Hmask & Htext & Hsz).
    apply (allowlisted_hit X cfg (rangeMasks E) _ n).
    + apply list_elem_of_In. rewrite Horder. apply elem_of_elements.
      apply Hmasks. right. exists line, subnet. auto.
    + apply Hal. right. exists line, subnet. split; [exact Hl |]. split; [exact Hsub |].
      rewrite Htext. rewrite <- Hmask, Hmatch, Hip. reflexivity.
Qed.

Lemma X23_allowlisted_iff_in_a_subnet_witness :
  allowlisted ipv4_only office_config (rangeMasks hostile_env)
    (v4InV6Prefix ++ [1; 2; 3; 77]) = true <->
  exists line subnet,
    In line office_lines /\ subnet_of_line ipv4_only line = Some subnet /\
    Mask (v4InV6Prefix ++ [1; 2; 3; 77]) (net_Mask subnet) = net_IP subnet.
Proof.
  apply (X23_allowlisted_iff_in_a_subnet ipv4_only office_config hostile_env office_lines
           1 2 3 77).
  - vm_compute. reflexivity.
  - intros line subnet Hin. cbn [In office_lines] in Hin.
    destruct Hin as [<- | [<- | [<- | []]]]; vm_compute; intros [= <-]; reflexivity.
  - unfold is_byte. lia.
  - unfold is_byte. lia.
  - unfold is_byte. lia.
  - unfold is_byte. lia.
  - reflexivity.
Defined.

(** ** The phases that cannot block *)

(** X24.  With flags that [main] accepts, the block phase is never [data]
    nor [commit]: an event of one of these two phases is answered with
    [proceed], whatever the score of the session and the thresholds.  Once
    the envelope is accepted the filter lets the message through.  (The
    event has a token and the version a dot.) *)
Theorem X24_data_and_commit_proceed (X : Extern) (cfg : Config) (E : Env)
    (line : string) (st : State) (ver a2 a3 phase sessionId token : string)
    (rest : list string) (s : session) :
  check_flags cfg = Ok tt ->
  Split line "|" = "filter" :: ver :: a2 :: a3 :: phase :: sessionId :: token :: rest ->
  phase = "data" \/ phase = "commit" ->
  sessions st !! sessionId = Some s ->
  Contains ver "." = true ->
  answers (handleLine X cfg E line st) {| sessions := sessions st; version := ver |}
          sessionId (token :: rest) "proceed".
Proof.
  intros Hflags Hs Hphase Hsess Hv.
  assert (Hbp : validatePhase (blockPhase cfg) = Ok tt).
  { unfold check_flags in Hflags.
    destruct (Nat.eqb (List.length (domains cfg)) 0); [discriminate | exact Hflags]. }
  assert (Hne : String.eqb (blockPhase cfg) phase = false).
  { apply String.eqb_neq. intros Heq. rewrite Heq in Hbp.
    destruct Hphase as [-> | ->]; discriminate. }
  rewrite (handleLine_filter X cfg E line st ver a2 a3 phase sessionId (token :: rest) Hs).
  set (st1 := {| sessions := sessions st; version := ver |}).
  assert (Hh : table_lookup (filters cfg) phase = Some (delayedAnswer cfg)).
  { destruct Hphase as [-> | ->]; reflexivity. }
  rewrite Hh.
  destruct (delayedAnswer_returns cfg phase sessionId token rest st1 s Hsess Hv)
    as (out & Hout & ->).
  apply answers_response; [| exact Hout].
  unfold answer_text. now rewrite Hne, !andb_false_r.
Qed.

Lemma X24_data_and_commit_proceed_witness :
  answers
    (handleLine ipv4_only two_lists_config quiet_env
       "filter|0.5|0|smtp-in|commit|7641df9771b4ed00|1ef1c203cc576e5d" state_4)
    {| sessions := sessions state_4; version := "0.5" |}
    "7641df9771b4ed00" ["1ef1c203cc576e5d"] "proceed".
Proof.
  apply (X24_data_and_commit_proceed ipv4_only two_lists_config quiet_env _ state_4
           "0.5" "0" "smtp-in" "commit" "7641df9771b4ed00" "1ef1c203cc576e5d" []
           session_4).
  - reflexivity.
  - vm_compute. reflexivity.
  - now right.
  - reflexivity.
  - reflexivity.
Defined.

(** ** C3: the score header *)







